(** * PAAS National prescription extractor: a shallow embedding

    The development embeds [paas_extractor/extractor.py] (class
    [PrescriptionDataExtractor]) and settles properties of its drug-name
    matcher, its rule-based directions parser, its per-category day-supply
    calculators and the orchestrating [extract_prescription_data].

    Conventions of the embedding.

    - The extractor is the one built by [PrescriptionDataExtractor()] with
      no API key: [self.llm_enabled] is [False], every
      [if self.llm_enabled] block is skipped and [llm_parsed] is [None].
    - A Python [str] is a [string] whose characters are the code points
      below 256; [lower], [strip], [isdigit] and the regular-expression
      classes [\d], [\s], [\w] are written out for that range.
    - Python numbers are exact rationals [Q]: [int] and [float] values are
      identified by value, binary rounding, overflow, [inf] and [nan] are
      outside the model.  [int(x)] truncates toward zero ([Py.int]).
    - A raised exception is a value of [Py.res]; [try/except] is a match.
    - f-strings whose holes are numbers are kept as the list of their
      pieces ([Py.text]); rendering a number to digits is not modelled.
    - The CSV catalogs are not part of the sources: the drug database and
      the tables read by the calculators are parameters, typed after the
      columns the code reads.  [Catalog] embeds [_create_drug_database]
      over the rows of the catalogs, whatever they hold.
    - [Enrichment] embeds the one step of the assisted name search that
      does not depend on the remote service, whose answer is a parameter. *)

From Stdlib Require Import ZArith QArith Qround Qminmax Qpower String Ascii List Bool Lia Lqa.
From Stdlib Require Import DecimalString.
Import ListNotations.


(** ** Python primitives used by the extractor *)
Module Py.

(** Exceptions the modelled code can raise. *)
Inductive exn : Type :=
| ValueError
| ZeroDivisionError
| AttributeError
| TypeError
| IndexError
| OverflowError.

(** Outcome of an expression that may raise. *)
Inductive res (A : Type) : Type :=
| Ok (a : A)
| Raise (e : exn).

Arguments Ok {A} a.
Arguments Raise {A} e.

Definition bind {A B : Type} (m : res A) (k : A -> res B) : res B :=
  match m with
  | Ok a => k a
  | Raise e => Raise e
  end.

(** *** Characters *)

Definition ord (c : ascii) : nat := nat_of_ascii c.

Definition between (lo hi n : nat) : bool := (lo <=? n)%nat && (n <=? hi)%nat.

(** [str.isspace] on one character, also the regex class [\s]. *)
Definition isspace (c : ascii) : bool :=
  between 9 13 (ord c) || between 28 32 (ord c)
  || (ord c =? 133)%nat || (ord c =? 160)%nat.

(** The regex class [\d] and the digits accepted by [float]. *)
Definition isdecimal (c : ascii) : bool := between 48 57 (ord c).

(** [str.isdigit] on one character: decimal digits and the superscripts
    U+00B2, U+00B3, U+00B9. *)
Definition isdigit_char (c : ascii) : bool :=
  isdecimal c || (ord c =? 178)%nat || (ord c =? 179)%nat || (ord c =? 185)%nat.

(** The regex class [\w]: the alphanumeric characters and the underscore. *)
Definition isword (c : ascii) : bool :=
  let n := ord c in
  between 48 57 n || between 65 90 n || between 97 122 n || (n =? 95)%nat
  || (n =? 170)%nat || (n =? 178)%nat || (n =? 179)%nat || (n =? 181)%nat
  || (n =? 185)%nat || (n =? 186)%nat || between 188 190 n
  || between 192 214 n || between 216 246 n || between 248 255 n.

Definition lower_char (c : ascii) : ascii :=
  let n := ord c in
  if between 65 90 n || (between 192 222 n && negb (n =? 215)%nat)
  then ascii_of_nat (n + 32)
  else c.

(** *** Strings *)

(** [s.lower()] *)
Fixpoint lower (s : string) : string :=
  match s with
  | EmptyString => EmptyString
  | String c t => String (lower_char c) (lower t)
  end.

Fixpoint lstrip (s : string) : string :=
  match s with
  | EmptyString => EmptyString
  | String c t => if isspace c then lstrip t else s
  end.

Fixpoint rstrip (s : string) : string :=
  match s with
  | EmptyString => EmptyString
  | String c t =>
      match rstrip t with
      | EmptyString => if isspace c then EmptyString else String c EmptyString
      | t' => String c t'
      end
  end.

(** [s.strip()] *)
Definition strip (s : string) : string := rstrip (lstrip s).

(** [p] is a prefix of [s]; on success the rest of [s]. *)
Fixpoint drop_prefix (p s : string) : option string :=
  match p with
  | EmptyString => Some s
  | String a p' =>
      match s with
      | EmptyString => None
      | String b s' => if Ascii.eqb a b then drop_prefix p' s' else None
      end
  end.

Definition startswith (s p : string) : bool :=
  match drop_prefix p s with
  | Some _ => true
  | None => false
  end.

(** [needle in hay] on strings: [needle] occurs as a contiguous substring. *)
Fixpoint contains (needle hay : string) : bool :=
  startswith hay needle ||
  match hay with
  | EmptyString => false
  | String _ t => contains needle t
  end.

(** [any(term in s for term in terms)] *)
Definition any_in (terms : list string) (s : string) : bool :=
  existsb (fun term => contains term s) terms.

(** [len(s)] as a number. *)
Definition len (s : string) : Q := inject_Z (Z.of_nat (String.length s)).

Fixpoint all_chars (p : ascii -> bool) (s : string) : bool :=
  match s with
  | EmptyString => true
  | String c t => p c && all_chars p t
  end.

(** [s.isdigit()]: non-empty and every character a digit. *)
Definition isdigit (s : string) : bool :=
  match s with
  | EmptyString => false
  | _ => all_chars isdigit_char s
  end.

(** [s.replace(".", "")] *)
Fixpoint remove_dots (s : string) : string :=
  match s with
  | EmptyString => EmptyString
  | String c t => if Ascii.eqb c "."%char then remove_dots t else String c (remove_dots t)
  end.

(** *** Numbers *)

Definition Qltb (x y : Q) : bool := negb (Qle_bool y x).

(** [int(x)] of a number: truncation toward zero. *)
Definition int (x : Q) : Z := Z.quot (Qnum x) (Zpos (Qden x)).

(** [min(a, b)] and [max(a, b)] of the builtins, on two numbers: the first
    argument is kept unless the second is strictly better. *)
Definition min (a b : Q) : Q := if Qltb b a then b else a.
Definition max (a b : Q) : Q := if Qltb a b then b else a.

(** [a / b] on numbers. *)
Definition div (a b : Q) : res Q :=
  if Qeq_bool b 0 then Raise ZeroDivisionError else Ok (a / b).

(** [str(n)] of an integer. *)
Definition str_of_int (n : Z) : string := NilZero.string_of_int (Z.to_int n).

Definition digit_value (c : ascii) : Z := Z.of_nat (ord c - 48).

Fixpoint digits_value (acc : Z) (s : string) : Z :=
  match s with
  | EmptyString => acc
  | String c t => digits_value (10 * acc + digit_value c) t
  end.

(** Value of integer digits [ip], fraction digits [fp] and a decimal
    exponent [e]: [ip.fp] times [10^e]. *)
Definition decimal_value (ip fp : string) (e : Z) : Q :=
  inject_Z (digits_value 0 (ip ++ fp)) * Qpower 10 (e - Z.of_nat (String.length fp)).

(** The digit part of a float literal: digits, single underscores allowed
    between two digits.  Returns the digits read and the rest. *)
Fixpoint take_digitpart (s : string) : string * string :=
  match s with
  | EmptyString => (EmptyString, EmptyString)
  | String c t =>
      if isdecimal c then
        match t with
        | String u t2 =>
            if Ascii.eqb u "_"%char then
              match t2 with
              | String d _ =>
                  if isdecimal d
                  then let (ds, r) := take_digitpart t2 in (String c ds, r)
                  else (String c EmptyString, t)
              | EmptyString => (String c EmptyString, t)
              end
            else let (ds, r) := take_digitpart t in (String c ds, r)
        | EmptyString => (String c EmptyString, EmptyString)
        end
      else (EmptyString, s)
  end.

Definition take_sign (s : string) : bool * string :=
  match s with
  | String c t =>
      if Ascii.eqb c "-"%char then (true, t)
      else if Ascii.eqb c "+"%char then (false, t)
      else (false, s)
  | EmptyString => (false, s)
  end.

(** The exponent of a float literal, when one starts at [s]. *)
Definition take_exponent (s : string) : option (Z * string) :=
  match s with
  | String c t =>
      if Ascii.eqb c "e"%char || Ascii.eqb c "E"%char then
        let (neg, t1) := take_sign t in
        let (ds, r) := take_digitpart t1 in
        match ds with
        | EmptyString => None
        | _ => Some (if neg then (- digits_value 0 ds)%Z else digits_value 0 ds, r)
        end
      else Some (0%Z, s)
  | EmptyString => Some (0%Z, s)
  end.

(** The whitespace [float] strips: the ASCII blanks and, above 127, the
    characters [isspace] accepts (the separators U+001C to U+001F are kept). *)
Definition float_space (c : ascii) : bool :=
  between 9 13 (ord c) || (ord c =? 32)%nat || (ord c =? 133)%nat || (ord c =? 160)%nat.

Fixpoint float_lstrip (s : string) : string :=
  match s with
  | EmptyString => EmptyString
  | String c t => if float_space c then float_lstrip t else s
  end.

Fixpoint float_rstrip (s : string) : string :=
  match s with
  | EmptyString => EmptyString
  | String c t =>
      match float_rstrip t with
      | EmptyString => if float_space c then EmptyString else String c EmptyString
      | t' => String c t'
      end
  end.

(** [float(s)] of a string: surrounding whitespace, a sign, digits with an
    optional fraction and an optional exponent; anything else raises
    [ValueError].  The spellings [inf], [infinity] and [nan], which Python
    turns into non-finite floats, have no value here and are outside the
    model's strings. *)
Definition float_of_str (s : string) : res Q :=
  let (neg, s1) := take_sign (float_rstrip (float_lstrip s)) in
  let (ip, s2) := take_digitpart s1 in
  let (fp, s3) :=
    match s2 with
    | String c t => if Ascii.eqb c "."%char then take_digitpart t else (EmptyString, s2)
    | EmptyString => (EmptyString, s2)
    end in
  match (ip ++ fp)%string with
  | EmptyString => Raise ValueError
  | _ =>
      match take_exponent s3 with
      | Some (e, EmptyString) =>
          let v := decimal_value ip fp e in Ok (if neg then - v else v)
      | _ => Raise ValueError
      end
  end.

(** *** Formatted text: the pieces of an f-string *)

Inductive piece : Type :=
| Lit (s : string)        (* literal text *)
| Num (x : Q)             (* a number in a plain hole *)
| Int (n : Z)             (* an integer in a plain hole *)
| Fix1 (x : Q).           (* a number in a [:.1f] hole *)

Definition text : Type := list piece.

End Py.

(** ** [difflib.SequenceMatcher(None, a, b).ratio()]

    The library routine used by the matcher, for sequences shorter than 200
    elements (from that size on the library also discards the elements it
    counts as popular).  [find_longest_match] returns the longest common
    block, the one starting earliest in [a] and, among those, earliest in
    [b]; the blocks left and right of it are matched recursively, and the
    ratio is twice the number of matched elements over the total length. *)
Module Difflib.

(** Length of the longest common prefix. *)
Fixpoint lcp (a b : list ascii) : nat :=
  match a, b with
  | x :: a', y :: b' => if Ascii.eqb x y then S (lcp a' b') else 0
  | _, _ => 0
  end.

(** A block [(i, j, k)]: [a[i:i+k] = b[j:j+k]]. *)
Definition block : Type := (nat * nat * nat)%type.

Definition size (m : block) : nat := snd m.

(** All start positions [j] of [b] against the suffix [sa] of [a] that
    starts at [i]; a strictly longer block replaces the best one. *)
Fixpoint scan_b (sa : list ascii) (i : nat) (b : list ascii) (j : nat) (best : block) : block :=
  match b with
  | [] => best
  | _ :: b' =>
      let k := lcp sa b in
      scan_b sa i b' (S j) (if (size best <? k)%nat then (i, j, k) else best)
  end.

Fixpoint scan_a (a : list ascii) (i : nat) (b : list ascii) (best : block) : block :=
  match a with
  | [] => best
  | _ :: a' => scan_a a' (S i) b (scan_b a i b 0 best)
  end.

Definition find_longest_match (a b : list ascii) : block := scan_a a 0 b (0, 0, 0)%nat.

(** Total size of the matching blocks ([get_matching_blocks], summed). *)
Fixpoint matches (fuel : nat) (a b : list ascii) : nat :=
  match fuel with
  | O => 0
  | S fuel' =>
      match find_longest_match a b with
      | (i, j, k) =>
          if (k =? 0)%nat then 0
          else (matches fuel' (firstn i a) (firstn j b) + k
                + matches fuel' (skipn (i + k) a) (skipn (j + k) b))%nat
      end
  end.

(** A block lies inside sequences of lengths [la] and [lb]. *)
Definition fits (la lb : nat) (m : block) : Prop :=
  match m with
  | (i, j, k) => (i + k <= la /\ j + k <= lb)%nat
  end.

(** [2.0 * matches / length], and [1.0] for two empty sequences. *)
Definition ratio (a b : string) : Q :=
  let la := list_ascii_of_string a in
  let lb := list_ascii_of_string b in
  let total := (List.length la + List.length lb)%nat in
  match total with
  | O => 1
  | _ => inject_Z (2 * Z.of_nat (matches (S (List.length la)) la lb))
         / inject_Z (Z.of_nat total)
  end.

End Difflib.

Notation "x <- m ;; k" := (Py.bind m (fun x => k))
  (at level 61, m at next level, right associativity).

(** ** The extractor *)
Module Extractor.
Import Py.

Local Open Scope string_scope.
Local Open Scope Q_scope.

Inductive MedicationType : Type :=
| NASAL_INHALER
| ORAL_INHALER
| INSULIN
| BIOLOGIC_INJECTABLE
| NONBIOLOGIC_INJECTABLE
| EYEDROP
| TOPICAL
| DIABETIC_INJECTABLE
| UNKNOWN.

(** [quantity: Union[str, int, float]] *)
Inductive Quantity : Type :=
| QInt (n : Z)
| QFloat (x : Q)
| QStr (s : string).

Record PrescriptionInput : Type := {
  drug_name : string;
  quantity : Quantity;
  sig_directions : string
}.

(** One catalog row as the calculators read it ([row.to_dict()]).  A field
    is [None] when the row has no such key, so that [drug_data.get(key,
    default)] yields the default.  Count and day columns hold integers; the
    usage table [Example_Days_Supply_Scenarios] is the parsed dictionary,
    empty when the cell is missing or does not parse. *)
Record DrugData : Type := {
  Max_Total_Sprays : option Z;
  Package_Size_Value : option Q;
  Example_Days_Supply_Scenarios : list (string * Z);
  Retail_Puffs_per_Package : option Z;
  Discard_After_Opening_Days : option Z;
  Total_Units_per_Package : option Z;
  Beyond_Use_Date_Days : option Z;
  Expiration_After_Opening_Days : option Z;
  Package_Count : option Z
}.

(** The empty dictionary. *)
Definition no_data : DrugData :=
  {| Max_Total_Sprays := None; Package_Size_Value := None;
     Example_Days_Supply_Scenarios := [];
     Retail_Puffs_per_Package := None; Discard_After_Opening_Days := None;
     Total_Units_per_Package := None; Beyond_Use_Date_Days := None;
     Expiration_After_Opening_Days := None; Package_Count := None |}.

Record ExtractedData : Type := {
  original_drug_name : string;
  matched_drug_name : option string;
  medication_type : MedicationType;
  corrected_quantity : Q;
  calculated_day_supply : Q;
  standardized_sig : text;
  confidence_score : Q;
  warnings : list string;
  additional_info : DrugData
}.

(** A row of the eyedrop guideline table. *)
Record EyedropGuideline : Type := {
  PBM : string;
  Min_Drops_per_mL_Suspension : Q;
  Min_Drops_per_mL_Solution : Q
}.

(** A row of the fingertip-unit dosing table. *)
Record FtuRow : Type := {
  Treatment_Area : string;
  Grams_per_Day_QD : Q;
  Grams_per_Day_BID : Q;
  Grams_per_Day_TID : Q
}.

(** The state of a [PrescriptionDataExtractor] the modelled methods read:
    the drug database (a dictionary, in insertion order) and the tables. *)
Record Extractor : Type := {
  drug_database : list (string * (MedicationType * DrugData));
  eyedrop_guidelines : list EyedropGuideline;
  eyedrop_beyond_use : list (string * Z);
  ftu_dosing : list FtuRow
}.

(** [d.get(key)] on a dictionary kept as an association list. *)
Fixpoint lookup {A : Type} (key : string) (d : list (string * A)) : option A :=
  match d with
  | [] => None
  | (k, v) :: rest => if String.eqb key k then Some v else lookup key rest
  end.

Definition get {A : Type} (field : option A) (default : A) : A :=
  match field with
  | Some v => v
  | None => default
  end.

(** *** [_fuzzy_match_drug_name] *)

(** The overlap score of a substring match, boosted and capped. *)
Definition substring_score (input_name_clean drug_name : string) : Q :=
  let score :=
    if contains input_name_clean drug_name
    then len input_name_clean / len drug_name
    else len drug_name / len input_name_clean in
  Py.min 0.95 (score + 0.2).

(** One iteration of the loop over the keys: [inl] when the loop goes on
    with the updated best pair, [inr] when the exact match returns. *)
Definition match_step (input_name_clean : string) (threshold : Q)
  (best : option string * Q) (drug_name : string)
  : option string * Q + option string * Q :=
  if String.eqb input_name_clean drug_name then inr (Some drug_name, 1)
  else
    let best1 :=
      if contains input_name_clean drug_name || contains drug_name input_name_clean
      then
        let score := substring_score input_name_clean drug_name in
        if Qltb (snd best) score then (Some drug_name, score) else best
      else best in
    let similarity := Difflib.ratio input_name_clean drug_name in
    inl (if Qltb (snd best1) similarity && Qle_bool threshold similarity
         then (Some drug_name, similarity)
         else best1).

Fixpoint match_loop (keys : list string) (input_name_clean : string) (threshold : Q)
  (best : option string * Q) : option string * Q :=
  match keys with
  | [] => best
  | drug_name :: rest =>
      match match_step input_name_clean threshold best drug_name with
      | inr found => found
      | inl best' => match_loop rest input_name_clean threshold best'
      end
  end.

Definition _fuzzy_match_drug_name (self : Extractor) (input_name : string) (threshold : Q)
  : option string * Q :=
  match_loop (map fst (drug_database self)) (strip (lower input_name)) threshold (None, 0).

(** *** Regular expressions of the directions parser

    Each pattern is a number group followed by a tail.  The tails are
    written with matchers that commit to the first alternative and to the
    longest repetition; for the patterns below a backtracking engine finds
    exactly the same matches, because no shorter repetition or skipped
    option can be followed by the rest of its pattern. *)

Definition matcher : Type := string -> option string.

Definition lit (w : string) : matcher := drop_prefix w.

Fixpoint alt (ms : list matcher) : matcher :=
  fun s =>
    match ms with
    | [] => None
    | m :: rest => match m s with Some r => Some r | None => alt rest s end
    end.

Definition seq (m1 m2 : matcher) : matcher :=
  fun s => match m1 s with Some r => m2 r | None => None end.

Definition opt (m : matcher) : matcher :=
  fun s => match m s with Some r => Some r | None => Some s end.

(** [\s*] *)
Definition ws : matcher := fun s => Some (lstrip s).

(** [\b] after a word character: the next character is not one. *)
Definition wordb : matcher :=
  fun s =>
    match s with
    | EmptyString => Some s
    | String c _ => if isword c then None else Some s
    end.

(** [\d*], the digits read and the rest. *)
Fixpoint take_digits (s : string) : string * string :=
  match s with
  | EmptyString => (EmptyString, EmptyString)
  | String c t =>
      if isdecimal c
      then let (ds, r) := take_digits t in (String c ds, r)
      else (EmptyString, s)
  end.

(** The group [(\d+(?:\.\d+)?)] at the head of [s]: the integer digits, the
    fraction digits (empty without a fraction) and the rest. *)
Definition number_group (s : string) : option (string * string * string) :=
  match take_digits s with
  | (EmptyString, _) => None
  | (ip, r) =>
      match r with
      | String c t =>
          if Ascii.eqb c "."%char then
            match take_digits t with
            | (EmptyString, _) => Some (ip, EmptyString, r)
            | (fp, r') => Some (ip, fp, r')
            end
          else Some (ip, EmptyString, r)
      | EmptyString => Some (ip, EmptyString, r)
      end
  end.

(** A match of [number tail] at the head of [s]: [float] of the group and
    the rest after the match. *)
Definition match_here (tail : matcher) (s : string) : option (Q * string) :=
  match number_group s with
  | Some (ip, fp, r) =>
      match seq ws tail r with
      | Some r' => Some (decimal_value ip fp 0, r')
      | None => None
      end
  | None => None
  end.

(** [re.findall]: the matches from left to right, none overlapping.  After
    a match the characters it consumed are skipped. *)
Fixpoint findall_from (tail : matcher) (skip : nat) (s : string) : list Q :=
  match s with
  | EmptyString => []
  | String _ t =>
      match skip with
      | S k => findall_from tail k t
      | O =>
          match match_here tail s with
          | Some (v, r) =>
              v :: findall_from tail (String.length s - String.length r - 1) t
          | None => findall_from tail 0 t
          end
      end
  end.

Definition findall (tail : matcher) (s : string) : list Q := findall_from tail 0 s.

(** [re.search(...).group(1)], as a number. *)
Definition search (tail : matcher) (s : string) : option Q :=
  match findall tail s with
  | v :: _ => Some v
  | [] => None
  end.

Definition per_day : matcher :=
  seq ws (seq (opt (seq (lit "per") ws)) (alt [lit "day"; lit "daily"])).

(** The tail of the spray and puff pattern. *)
Definition sprays_tail : matcher :=
  alt [lit "spray"; lit "sprays"; lit "puff"; lit "puffs"].


(** The tails of the nine unit patterns, in the order of the dictionary. *)
Definition patterns : list (string * matcher) :=
  [ ("sprays", sprays_tail);
    ("units", alt [lit "unit"; lit "units"; seq (lit "u") wordb]);
    ("mg", alt [lit "mg"; lit "milligram"; lit "milligrams"]);
    ("ml", alt [lit "ml"; lit "milliliter"; lit "milliliters"; lit "cc"]);
    ("drops", alt [lit "drop"; lit "drops"; lit "gtt"]);
    ("patches", alt [lit "patch"; lit "patches"]);
    ("tablets", alt [lit "tablet"; lit "tablets"; lit "tab"; lit "tabs"]);
    ("capsules", alt [lit "capsule"; lit "capsules"; lit "cap"; lit "caps"]);
    ("times_daily",
     alt [seq (lit "time") (seq (opt (lit "s")) per_day); seq (lit "x") per_day]) ].

(** *** [_extract_numbers_from_sig] *)
Definition _extract_numbers_from_sig (sig : string) : list (string * list Q) :=
  let sig_lower := lower sig in
  flat_map
    (fun up : string * matcher =>
       match findall (snd up) sig_lower with
       | [] => []
       | found => [(fst up, found)]
       end)
    patterns.

(** [extracted[unit][0]] when [unit in extracted]. *)
Definition first_of (unit : string) (extracted : list (string * list Q)) : option Q :=
  match lookup unit extracted with
  | Some (v :: _) => Some v
  | _ => None
  end.

(** *** [_calculate_frequency_per_day], the rule-based part *)

Definition weekly_terms : list string :=
  ["weekly"; "once a week"; "once weekly"; "every week"].
Definition biweekly_terms : list string :=
  ["every other week"; "biweekly"; "every 2 weeks"].
Definition monthly_terms : list string := ["monthly"; "once a month"; "every month"].
Definition qid_terms : list string := ["qid"; "q.i.d"; "four times"].
Definition tid_terms : list string := ["thrice"; "tid"; "t.i.d"; "three times"].
Definition bid_terms : list string := ["twice"; "bid"; "b.i.d"].
Definition daily_terms : list string := ["once"; "daily"; "qd"; "q.d"; "sid"].

(** The tail of the pattern for an explicit number of times per day. *)
Definition times_per_day : matcher := seq (lit "time") (seq (opt (lit "s")) per_day).

Definition _calculate_frequency_per_day (sig : string) : Q :=
  let sig_lower := lower sig in
  if any_in weekly_terms sig_lower then 1 / 7
  else if any_in biweekly_terms sig_lower then 1 / 14
  else if any_in monthly_terms sig_lower then 1 / 30
  else if contains "prn" sig_lower || contains "as needed" sig_lower then
    if contains "q4h" sig_lower || contains "every 4 hours" sig_lower then 4.5
    else if contains "q6h" sig_lower || contains "every 6 hours" sig_lower
            || contains "q6-8h" sig_lower then 6
    else if contains "q8h" sig_lower || contains "every 8 hours" sig_lower then 2.5
    else if any_in ["bid"; "b.i.d"; "twice"] sig_lower then 1.5
    else 1
  else if any_in qid_terms sig_lower then 4
  else if any_in tid_terms sig_lower then 3
  else if any_in bid_terms sig_lower then 2
  else if any_in daily_terms sig_lower
          && negb (contains "twice" sig_lower)
          && negb (contains "three times" sig_lower)
          && negb (contains "four times" sig_lower) then 1
  else if contains "q6h" sig_lower || contains "every 6 hours" sig_lower then 4
  else if contains "q8h" sig_lower || contains "every 8 hours" sig_lower then 3
  else if contains "q12h" sig_lower || contains "every 12 hours" sig_lower then 2
  else if contains "q24h" sig_lower || contains "every 24 hours" sig_lower then 1
  else if contains "q4h" sig_lower || contains "every 4 hours" sig_lower then 6
  else
    match search times_per_day sig_lower with
    | Some n => n
    | None => 1
    end.

(** *** [_frequency_to_text]

    [int(1 / frequency)] divides by zero when the frequency is zero. *)
Definition _frequency_to_text (frequency : Q) : res text :=
  if Qeq_bool frequency 1 then Ok [Lit "once daily"]
  else if Qeq_bool frequency 2 then Ok [Lit "twice daily"]
  else if Qeq_bool frequency 3 then Ok [Lit "three times daily"]
  else if Qeq_bool frequency 4 then Ok [Lit "four times daily"]
  else if Qeq_bool frequency (1 / 7) then Ok [Lit "once weekly"]
  else if Qeq_bool frequency (1 / 14) then Ok [Lit "every other week"]
  else if Qeq_bool frequency (1 / 30) then Ok [Lit "once monthly"]
  else if Qltb frequency 1 then
    days <- div 1 frequency ;;
    Ok [Lit "every "; Int (int days); Lit " days"]
  else Ok [Fix1 frequency; Lit " times daily"].

(** [int(a / b)] *)
Definition int_div (a b : Q) : res Z := q <- div a b ;; Ok (int q).

Definition Z2Q (n : Z) : Q := inject_Z n.

(** [str(matched_drug_name or "").lower()] *)
Definition name_lower (matched_drug_name : option string) : string :=
  lower (get matched_drug_name "").

(** *** [_process_nasal_inhaler] *)

Definition nostril_phrases : list string :=
  ["per nostril"; "each nostril"; "in each nostril"; "both nostrils"; "bilat nares"].

(** The first spray or puff count of the directions, [1] by default. *)
Definition nasal_base_dose (sig : string) : Q :=
  get (first_of "sprays" (_extract_numbers_from_sig sig)) 1.

(** [sprays_per_dose] of the rule-based branch. *)
Definition nasal_sprays_per_dose (sig : string) : Q :=
  let sprays_per_dose := nasal_base_dose sig in
  if any_in nostril_phrases (lower sig) then sprays_per_dose * 2 else sprays_per_dose.

(** [corrected_usage] for three- or four-times-daily directions. *)
Definition nasal_corrected_usage (sig : string) : option Z :=
  let s := lower sig in
  if any_in ["three times daily"; "3 times daily"; "tid"] s then
    if contains "1 spray each nostril" s || contains "one spray each nostril" s then Some 6%Z
    else if contains "2 spray" s || contains "two spray" s then Some 12%Z
    else None
  else if any_in ["four times daily"; "4 times daily"; "qid"] s then
    if contains "1 spray each nostril" s || contains "one spray each nostril" s then Some 8%Z
    else if contains "2 spray" s || contains "two spray" s then Some 16%Z
    else None
  else None.

(** The day supply before the per-product handling. *)
Definition nasal_formula_days (example_scenarios : list (string * Z))
  (total_sprays_available daily_spray_usage : Q) (sig : string) : res Z :=
  match example_scenarios with
  | _ :: _ =>
      if Qltb 0 daily_spray_usage then
        match lookup (str_of_int (int daily_spray_usage)) example_scenarios with
        | Some day_supply => Ok day_supply
        | None =>
            match nasal_corrected_usage sig with
            | Some corrected_usage =>
                match lookup (str_of_int corrected_usage) example_scenarios with
                | Some day_supply => Ok day_supply
                | None => int_div total_sprays_available (Z2Q corrected_usage)
                end
            | None => int_div total_sprays_available daily_spray_usage
            end
        end
      else Ok 30%Z
  | [] =>
      if Qltb 0 daily_spray_usage
      then int_div total_sprays_available daily_spray_usage
      else Ok 30%Z
  end.

(** The special handling by product name; the last branch is the clamp of
    the regular nasal sprays. *)
Definition nasal_special (drug_name_lower : string) (max_sprays day_supply : Z) : Z :=
  if contains "calcitonin" drug_name_lower then max_sprays
  else if contains "butorphanol" drug_name_lower then Z.max 7 (Z.min 14 max_sprays)
  else if contains "migranol" drug_name_lower || contains "migranal" drug_name_lower
  then Z.max 32 (Z.min 64 max_sprays)
  else if contains "nayzilam" drug_name_lower || contains "neffy" drug_name_lower then
    if (max_sprays <=? 2)%Z then 7%Z else Z.max 7 (Z.min 30 max_sprays)
  else if contains "zavzpret" drug_name_lower then max_sprays
  else if contains "sprix" drug_name_lower || contains "trudhesa" drug_name_lower then
    if (max_sprays <=? 8)%Z then Z.max 4 (Z.min 7 max_sprays)
    else Z.max 7 (Z.min 14 (max_sprays / 2))
  else Z.max 7 (Z.min day_supply 365).

Definition _process_nasal_inhaler (drug_data : DrugData) (quantity : Q) (sig : string)
  (matched_drug_name : option string) : res (Q * Q * text) :=
  let max_sprays := get (Max_Total_Sprays drug_data) 0%Z in
  let drug_name_lower := name_lower matched_drug_name in
  let frequency := _calculate_frequency_per_day sig in
  let sprays_per_dose := nasal_sprays_per_dose sig in
  freq_text <- _frequency_to_text frequency ;;
  let standardized_sig :=
    ([Lit "Use "; Num sprays_per_dose; Lit " spray(s) "] ++ freq_text)%list in
  let max_sprays := if (max_sprays <=? 0)%Z then 120%Z else max_sprays in
  let package_size_ml := get (Package_Size_Value drug_data) 15 in
  corrected_quantity <-
    (if Qltb 10 quantity then div quantity package_size_ml else Ok quantity) ;;
  let total_sprays_available := corrected_quantity * Z2Q max_sprays in
  let daily_spray_usage := sprays_per_dose * frequency in
  day_supply <-
    nasal_formula_days (Example_Days_Supply_Scenarios drug_data)
      total_sprays_available daily_spray_usage sig ;;
  Ok (corrected_quantity, Z2Q (nasal_special drug_name_lower max_sprays day_supply),
      standardized_sig).

(** *** [_process_oral_inhaler] *)

(** [puffs_per_dose] and [frequency] of the rule-based branch, after the
    adjustment for the device family. *)
Definition oral_dose_and_frequency (drug_name_lower sig : string) : Q * Q :=
  let extracted := _extract_numbers_from_sig sig in
  let frequency := _calculate_frequency_per_day sig in
  let puffs_per_dose :=
    match first_of "puffs" extracted with
    | Some p => p
    | None => get (first_of "sprays" extracted) 2
    end in
  if contains "ellipta" drug_name_lower then
    (1, if Qltb 1 frequency then 1 else frequency)
  else if contains "handihaler" drug_name_lower || contains "twisthaler" drug_name_lower then
    (Py.min puffs_per_dose 2, if Qltb 2 frequency then Py.min frequency 2 else frequency)
  else (puffs_per_dose, frequency).

Definition is_rescue_inhaler (drug_name_lower : string) : bool :=
  contains "albuterol" drug_name_lower || contains "proair" drug_name_lower
  || contains "ventolin" drug_name_lower || contains "xopenex" drug_name_lower.

(** [calculated_days] before the discard limit. *)
Definition oral_calculated_days (drug_name_lower : string)
  (example_scenarios : list (string * Z)) (discard_days : Z)
  (total_puffs puffs_per_dose frequency : Q) : res Q :=
  let daily_puffs := puffs_per_dose * frequency in
  calculated_days <-
    (match example_scenarios with
     | _ :: _ =>
         if Qltb 0 daily_puffs then
           match lookup (str_of_int (int daily_puffs)) example_scenarios with
           | Some d => Ok d
           | None => int_div total_puffs daily_puffs
           end
         else Ok 30%Z
     | [] => if Qltb 0 daily_puffs then int_div total_puffs daily_puffs else Ok 30%Z
     end) ;;
  if contains "ellipta" drug_name_lower then
    Ok (Py.min total_puffs (Z2Q (if (0 <? discard_days)%Z then discard_days else 90%Z)))
  else if is_rescue_inhaler drug_name_lower then
    let daily_puffs := frequency * puffs_per_dose in
    match lookup (str_of_int (int daily_puffs)) example_scenarios with
    | Some d => Ok (Z2Q d)
    | None =>
        match lookup "2" example_scenarios with
        | Some d => Ok (Z2Q d)
        | None =>
            let estimated_daily_usage := Py.max 4 daily_puffs in
            d <- int_div total_puffs estimated_daily_usage ;; Ok (Z2Q d)
        end
    end
  else Ok (Z2Q calculated_days).

(** The discard limit, applied when the window is positive. *)
Definition oral_discard_limit (discard_days : Z) (calculated_days : Q) : Q :=
  if (0 <? discard_days)%Z then Py.min calculated_days (Z2Q discard_days)
  else calculated_days.

(** [max(7, min(day_supply, 365))] *)
Definition clamp (day_supply : Q) : Q := Py.max 7 (Py.min day_supply 365).

Definition _process_oral_inhaler (drug_data : DrugData) (quantity : Q) (sig : string)
  (matched_drug_name : option string) : res (Q * Q * text) :=
  let puffs_per_package := get (Retail_Puffs_per_Package drug_data) 0%Z in
  let discard_days := get (Discard_After_Opening_Days drug_data) 0%Z in
  let drug_name_lower := name_lower matched_drug_name in
  let example_scenarios := Example_Days_Supply_Scenarios drug_data in
  let (puffs_per_dose, frequency) := oral_dose_and_frequency drug_name_lower sig in
  freq_text <- _frequency_to_text frequency ;;
  let standardized_sig :=
    ([Lit "Inhale "; Int (int puffs_per_dose); Lit " puff(s) "] ++ freq_text)%list in
  let corrected_quantity := quantity in
  let puffs_per_package := if (puffs_per_package <=? 0)%Z then 200%Z else puffs_per_package in
  let total_puffs := corrected_quantity * Z2Q puffs_per_package in
  calculated_days <-
    oral_calculated_days drug_name_lower example_scenarios discard_days
      total_puffs puffs_per_dose frequency ;;
  let day_supply := oral_discard_limit discard_days calculated_days in
  Ok (corrected_quantity, clamp day_supply, standardized_sig).

(** [max(7, min(day_supply, 365))] on an integer day count. *)
Definition clampZ (day_supply : Z) : Z := Z.max 7 (Z.min day_supply 365).

(** *** [_process_insulin] *)

(** [units_per_dose] of the rule-based branch. *)
Definition insulin_units_per_dose (sig : string) : Q :=
  get (first_of "units" (_extract_numbers_from_sig sig)) 10.

(** The beyond-use limit, applied only when the calculated days exceed it. *)
Definition insulin_beyond_use (beyond_use_days calculated_days : Z) : Z :=
  if (beyond_use_days <? calculated_days)%Z && (0 <? beyond_use_days)%Z
  then beyond_use_days
  else calculated_days.

(** [calculated_days]: the division, or [30] when the frequency is not
    positive. *)
Definition insulin_calculated_days (total_available_units units_per_dose frequency : Q)
  : res Z :=
  if Qltb 0 frequency
  then int_div total_available_units (units_per_dose * frequency)
  else Ok 30%Z.

Definition _process_insulin (drug_data : DrugData) (quantity : Q) (sig : string)
  (matched_drug_name : option string) : res (Q * Q * text) :=
  let total_units := get (Total_Units_per_Package drug_data) 0%Z in
  let beyond_use_days := get (Beyond_Use_Date_Days drug_data) 28%Z in
  let frequency := _calculate_frequency_per_day sig in
  let units_per_dose := insulin_units_per_dose sig in
  freq_text <- _frequency_to_text frequency ;;
  let standardized_sig :=
    ([Lit "Inject "; Int (int units_per_dose); Lit " units "] ++ freq_text)%list in
  let corrected_quantity := quantity in
  let total_units := if (total_units <=? 0)%Z then 500%Z else total_units in
  let total_available_units := corrected_quantity * Z2Q total_units in
  calculated_days <-
    insulin_calculated_days total_available_units units_per_dose frequency ;;
  let day_supply := insulin_beyond_use beyond_use_days calculated_days in
  Ok (corrected_quantity, Z2Q (clampZ day_supply), standardized_sig).

(** *** [_process_eyedrop] *)





(** [calculated_days]: the division, or [30] when the daily drops are not
    positive. *)
Definition eyedrop_calculated_days (total_drops daily_drops : Q) : res Z :=
  if Qltb 0 daily_drops then int_div total_drops daily_drops else Ok 30%Z.


(** *** [_process_injectable] *)
Definition _process_injectable (drug_data : DrugData) (quantity : Q) (sig : string)
  (is_biologic : bool) : res (Q * Q * text) :=
  let frequency := _calculate_frequency_per_day sig in
  let corrected_quantity := quantity in
  let sig_lower := lower sig in
  let by_frequency :=
    if Qltb 0 frequency then int_div quantity frequency else Ok 30%Z in
  calculated_days <-
    (if is_biologic then
       if contains "weekly" sig_lower then Ok (int (quantity * 7))
       else if contains "biweekly" sig_lower || contains "every 2 weeks" sig_lower
       then Ok (int (quantity * 14))
       else if contains "monthly" sig_lower then Ok (int (quantity * 30))
       else by_frequency
     else
       if contains "monthly" sig_lower || Qle_bool frequency (1 / 30)
       then Ok (int (quantity * 30))
       else if contains "weekly" sig_lower || Qle_bool frequency (1 / 7)
       then Ok (int (quantity * 7))
       else by_frequency) ;;
  freq_text <- _frequency_to_text frequency ;;
  Ok (corrected_quantity, Z2Q (clampZ calculated_days),
      ([Lit "Inject as directed "] ++ freq_text)%list).

(** *** [_process_diabetic_injectable], the rule-based part *)
Definition _process_diabetic_injectable (drug_data : DrugData) (quantity : Q)
  (sig : string) (matched_drug_name : option string) : res (Q * Q * text) :=
  let frequency := _calculate_frequency_per_day sig in
  let corrected_quantity := quantity in
  let expiration_days := get (Expiration_After_Opening_Days drug_data) 0%Z in
  let package_count := Z2Q (get (Package_Count drug_data) 1%Z) in
  let drug_name_lower := name_lower matched_drug_name in
  let sig_lower := lower sig in
  calculated_days <-
    (if any_in ["ozempic"; "semaglutide"; "mounjaro"; "tirzepatide"; "trulicity";
                "dulaglutide"; "bydureon"] drug_name_lower then
       if (0 <? expiration_days)%Z then Ok expiration_days
       else
         let calculated_days := int (quantity * package_count * 7) in
         Ok (if (calculated_days <? 28)%Z then 28%Z else calculated_days)
     else if any_in ["adlyxin"; "lixisenatide"; "victoza"; "liraglutide"; "byetta";
                     "exenatide"] drug_name_lower then
       if (0 <? expiration_days)%Z then Ok expiration_days
       else Ok (int (quantity * package_count * 14))
     else if any_in ["soliqua"; "xultophy"] drug_name_lower then
       if (0 <? expiration_days)%Z then Ok expiration_days else Ok 28%Z
     else if any_in ["symlinpen"; "pramlintide"] drug_name_lower then
       if (0 <? expiration_days)%Z then Ok expiration_days else Ok 30%Z
     else
       if contains "weekly" sig_lower || Qle_bool frequency (1 / 7) then
         let calculated_days := int (quantity * package_count * 7) in
         Ok (if (0 <? expiration_days)%Z then Z.min calculated_days expiration_days
             else calculated_days)
       else
         if (0 <? expiration_days)%Z then Ok expiration_days
         else if Qltb 0 frequency then int_div (quantity * package_count) frequency
         else Ok 30%Z) ;;
  freq_text <- _frequency_to_text frequency ;;
  Ok (corrected_quantity, Z2Q (clampZ calculated_days),
      ([Lit "Inject as directed "] ++ freq_text)%list).

(** *** [_process_topical_ftu] *)

(** The integers [float] converts: those whose nearest double is finite,
    the ones of magnitude below [2^1024 - 2^970]. *)
Definition float_range (n : Z) : bool := (Z.abs n <? 2 ^ 1024 - 2 ^ 970)%Z.

(** [float(x)] of a quantity.  An integer out of the range of the doubles
    raises [OverflowError]. *)
Definition float_of_quantity (q : Quantity) : res Q :=
  match q with
  | QInt n => if float_range n then Ok (Z2Q n) else Raise OverflowError
  | QFloat x => Ok x
  | QStr s => float_of_str s
  end.

(** [str(q).replace(".", "").isdigit()]: an integer prints as digits when
    it is not negative; a float prints in plain decimal notation, without
    sign or exponent, when it is zero or in [1e-4, 1e16); a string is
    tested as it is. *)
Definition digits_without_dots (q : Quantity) : bool :=
  match q with
  | QInt n => (0 <=? n)%Z
  | QFloat x => Qeq_bool x 0 || (Qle_bool 0.0001 x && Qltb x 10000000000000000)
  | QStr s => isdigit (remove_dots s)
  end.

(** [str(q).lower()] is needed for string quantities only. *)
Definition topical_quantity_grams (quantity : Quantity) : res Q :=
  match quantity with
  | QStr s =>
      match search (alt [lit "g"; lit "gm"; lit "gram"]) (lower s) with
      | Some grams => Ok grams
      | None => if digits_without_dots quantity then float_of_quantity quantity else Ok 30
      end
  | _ => float_of_quantity quantity
  end.

Definition ftu_grams (frequency : Q) (row : FtuRow) : Q :=
  if Qeq_bool frequency 1 then Grams_per_Day_QD row
  else if Qeq_bool frequency 2 then Grams_per_Day_BID row
  else if Qeq_bool frequency 3 then Grams_per_Day_TID row
  else Grams_per_Day_QD row * frequency.

Definition _process_topical_ftu (self : Extractor) (quantity : Quantity) (sig : string)
  : res (Q * Q * text) :=
  let frequency := _calculate_frequency_per_day sig in
  let sig_lower := lower sig in
  let total_grams_per_day :=
    fold_left
      (fun total row =>
         if contains (lower (Treatment_Area row)) sig_lower
         then total + ftu_grams frequency row
         else total)
      (ftu_dosing self) 0 in
  let total_grams_per_day :=
    if Qeq_bool total_grams_per_day 0 then 2 * frequency else total_grams_per_day in
  quantity_grams <- topical_quantity_grams quantity ;;
  day_supply <-
    (if Qltb 0 total_grams_per_day
     then int_div quantity_grams total_grams_per_day
     else Ok 30%Z) ;;
  freq_text <- _frequency_to_text frequency ;;
  Ok (quantity_grams, Z2Q (clampZ day_supply), ([Lit "Apply topically "] ++ freq_text)%list).

(** A quantity given as a number. *)
Definition is_numeric (q : Quantity) : bool :=
  match q with
  | QStr _ => false
  | _ => true
  end.

(** The product names whose special handling is returned without the
    [7..365] clamp. *)
Definition nasal_unclamped (drug_name_lower : string) : bool :=
  contains "calcitonin" drug_name_lower || contains "zavzpret" drug_name_lower
  || contains "sprix" drug_name_lower || contains "trudhesa" drug_name_lower.

(** The range of a day supply returned for a matched product of type [ty]
    and lower-cased name [n]: positive; between 7 and 365 unless a nasal
    product of the unclamped names; an integer unless an Ellipta inhaler. *)
Definition day_supply_ok (ty : MedicationType) (n : string) (ds : Q) : Prop :=
  1 <= ds /\
  ((ty = NASAL_INHALER /\ nasal_unclamped n = true) \/ 7 <= ds <= 365) /\
  ((ty = ORAL_INHALER /\ contains "ellipta" n = true) \/ exists z : Z, ds = Z2Q z).

(** *** [_create_unsupported_medication_result] *)
Definition _create_unsupported_medication_result (prescription : PrescriptionInput)
  : ExtractedData :=
  {| original_drug_name := drug_name prescription;
     matched_drug_name := None;
     medication_type := UNKNOWN;
     corrected_quantity := 0;
     calculated_day_supply := 0;
     standardized_sig := [Lit "MEDICATION NOT IN PAAS DATABASE"];
     confidence_score := 0;
     warnings :=
       ["Medication '" ++ drug_name prescription
        ++ "' is not in the PAAS National database and cannot be processed"];
     additional_info := no_data |}.

(** *** [extract_prescription_data] *)

(** The body of the [try]: the call selected by the medication type.  The
    class defines [_process_injectable] only, so looking up
    [self._process_biologic_injectable] or
    [self._process_nonbiologic_injectable] raises [AttributeError] before
    any argument is evaluated; [_process_eyedrop] takes three arguments and
    is called with four, which raises [TypeError] once the arguments are
    evaluated. *)
Definition dispatch (self : Extractor) (medication_type : MedicationType)
  (drug_data : DrugData) (prescription : PrescriptionInput)
  (matched_name : option string) : res (Q * Q * text) :=
  let sig := sig_directions prescription in
  match medication_type with
  | NASAL_INHALER =>
      q <- float_of_quantity (quantity prescription) ;;
      _process_nasal_inhaler drug_data q sig matched_name
  | ORAL_INHALER =>
      q <- float_of_quantity (quantity prescription) ;;
      _process_oral_inhaler drug_data q sig matched_name
  | INSULIN =>
      q <- float_of_quantity (quantity prescription) ;;
      _process_insulin drug_data q sig matched_name
  | DIABETIC_INJECTABLE =>
      q <- float_of_quantity (quantity prescription) ;;
      _process_diabetic_injectable drug_data q sig matched_name
  | BIOLOGIC_INJECTABLE => Raise AttributeError
  | NONBIOLOGIC_INJECTABLE => Raise AttributeError
  | EYEDROP =>
      q <- float_of_quantity (quantity prescription) ;;
      Raise TypeError
  | TOPICAL =>
      q <- float_of_quantity (quantity prescription) ;;
      _process_topical_ftu self (QFloat q) sig
  | UNKNOWN =>
      q <- float_of_quantity (quantity prescription) ;;
      Ok (q, 30, [Lit sig])
  end.

(** The [except Exception] handler: the triple it assigns.  The conversion
    [float(prescription.quantity)] is evaluated here outside any [try]. *)
Definition handler (prescription : PrescriptionInput) : res (Q * Q * text) :=
  corrected_qty <-
    (if digits_without_dots (quantity prescription)
     then float_of_quantity (quantity prescription)
     else Ok 1) ;;
  Ok (corrected_qty, 30, [Lit (sig_directions prescription)]).

(** The [try] statement as a whole. *)
Definition try_dispatch (self : Extractor) (medication_type : MedicationType)
  (drug_data : DrugData) (prescription : PrescriptionInput)
  (matched_name : option string) : res (Q * Q * text) :=
  match dispatch self medication_type drug_data prescription matched_name with
  | Ok triple => Ok triple
  | Raise _ => handler prescription
  end.

(** [medication_type] and [drug_data] of the matched name: the database
    entry when the name is non-empty and a key, else the unknown type with
    an empty dictionary. *)
Definition entry_of (self : Extractor) (matched_name : option string)
  : MedicationType * DrugData :=
  match matched_name with
  | Some (String _ _ as name) =>
      match lookup name (drug_database self) with
      | Some entry => entry
      | None => (UNKNOWN, no_data)
      end
  | _ => (UNKNOWN, no_data)
  end.

Definition is_none {A : Type} (o : option A) : bool :=
  match o with
  | None => true
  | Some _ => false
  end.

Definition extract_prescription_data (self : Extractor) (prescription : PrescriptionInput)
  : res ExtractedData :=
  let (matched_name, confidence) :=
    _fuzzy_match_drug_name self (drug_name prescription) 0.6 in
  if is_none matched_name || Qltb confidence 0.80
  then Ok (_create_unsupported_medication_result prescription)
  else
    let (medication_type, drug_data) := entry_of self matched_name in
    outcome <- try_dispatch self medication_type drug_data prescription matched_name ;;
    let '(corrected_qty, day_supply, std_sig) := outcome in
    Ok {| original_drug_name := drug_name prescription;
          matched_drug_name := matched_name;
          medication_type := medication_type;
          corrected_quantity := corrected_qty;
          calculated_day_supply := day_supply;
          standardized_sig := std_sig;
          confidence_score := confidence;
          warnings := [];
          additional_info := drug_data |}.

End Extractor.

(** ** The matcher as its description words it

    The description of the matcher speaks of the candidates a key
    contributes (a substring candidate scored shorter length over longer
    length plus 0.2, capped at 0.95; a similarity candidate when the ratio
    reaches the floor) and of the best candidate, earliest on ties.  These
    definitions follow those words; the theorems compare them with
    [_fuzzy_match_drug_name]. *)
Module MatcherSpec.
Import Py Extractor.

Local Open Scope Q_scope.


(** The candidates of one key, in the order they are examined. *)
Definition candidates_of (input : string) (floor : Q) (key : string) : list (string * Q) :=
  ((if contains input key || contains key input
    then [(key, substring_score input key)] else [])
   ++ (if Qle_bool floor (Difflib.ratio input key)
       then [(key, Difflib.ratio input key)] else []))%list.

Definition candidates (input : string) (floor : Q) (keys : list string)
  : list (string * Q) :=
  flat_map (candidates_of input floor) keys.

(** [result] is the best candidate of [cands], the earliest among equals;
    without candidates it is the initial pair. *)
Definition first_best (cands : list (string * Q)) (result : option string * Q) : Prop :=
  (cands = [] /\ result = (None, 0)) \/
  exists before key score after,
    cands = (before ++ (key, score) :: after)%list /\
    result = (Some key, score) /\
    (forall c, In c before -> snd c < score) /\
    (forall c, In c after -> snd c <= score).

(** The running best over a list of candidates. *)
Definition keep_best (best : option string * Q) (c : string * Q) : option string * Q :=
  if Qltb (snd best) (snd c) then (Some (fst c), snd c) else best.

End MatcherSpec.

(** ** Sample catalog and requests

    A small database in the shape [_create_drug_database] builds, used to
    run the extractor on concrete requests. *)
Module Examples.
Import Py Extractor.

Local Open Scope string_scope.

Definition insulin_row (units : Z) : DrugData :=
  {| Max_Total_Sprays := None; Package_Size_Value := None;
     Example_Days_Supply_Scenarios := [];
     Retail_Puffs_per_Package := None; Discard_After_Opening_Days := None;
     Total_Units_per_Package := Some units; Beyond_Use_Date_Days := Some 28%Z;
     Expiration_After_Opening_Days := None; Package_Count := None |}.

Definition nasal_row (sprays : Z) : DrugData :=
  {| Max_Total_Sprays := Some sprays; Package_Size_Value := Some 15%Q;
     Example_Days_Supply_Scenarios := [];
     Retail_Puffs_per_Package := None; Discard_After_Opening_Days := None;
     Total_Units_per_Package := None; Beyond_Use_Date_Days := None;
     Expiration_After_Opening_Days := None; Package_Count := None |}.

Definition oral_row (puffs discard : Z) : DrugData :=
  {| Max_Total_Sprays := None; Package_Size_Value := None;
     Example_Days_Supply_Scenarios := [];
     Retail_Puffs_per_Package := Some puffs;
     Discard_After_Opening_Days := Some discard;
     Total_Units_per_Package := None; Beyond_Use_Date_Days := None;
     Expiration_After_Opening_Days := None; Package_Count := None |}.

Definition catalog : Extractor :=
  {| drug_database :=
       [ ("humalog", (INSULIN, insulin_row 300));
         ("admelog", (INSULIN, insulin_row 0));
         ("zavzpret", (NASAL_INHALER, nasal_row 6));
         ("flonase", (NASAL_INHALER, nasal_row 120));
         ("alvesco", (ORAL_INHALER, oral_row 60 30));
         ("qvar", (ORAL_INHALER, oral_row 120 20));
         ("breo ellipta", (ORAL_INHALER, oral_row 30 42));
         ("humira", (BIOLOGIC_INJECTABLE, no_data));
         ("enoxaparin", (NONBIOLOGIC_INJECTABLE, no_data)) ];
     eyedrop_guidelines := [];
     eyedrop_beyond_use := [];
     ftu_dosing := [] |}.

Definition request (name : string) (q : Quantity) (directions : string)
  : PrescriptionInput :=
  {| drug_name := name; quantity := q; sig_directions := directions |}.

End Examples.

(** ** Building the drug database

    [_create_drug_database] fills a dictionary from the catalogs loaded by
    the constructor.  A catalog is the list of its rows ([iterrows], empty
    for an empty frame); a row gives the text [str(row[column])] of the
    name cell and the dictionary [row.to_dict()] the calculators read.  A
    second name cell is [None] when [pd.notna] rejects it. *)
Module Catalog.
Import Py Extractor.

Local Open Scope string_scope.

(** A row of the nasal catalog. *)
Record NasalRow : Type := {
  Drug_Name : string;
  nasal_dict : DrugData
}.

(** A row of the oral inhaler catalog. *)
Record OralRow : Type := {
  Brand_Name : string;
  oral_dict : DrugData
}.

(** A row of the insulin, biologic, non-biologic or diabetic catalog.
    [Generic_Name] is the cell [Proper_Name], and [Analog_Name] in the
    diabetic catalog. *)
Record ProductRow : Type := {
  Proprietary_Name : string;
  Generic_Name : option string;
  product_dict : DrugData
}.

(** The catalogs [_create_drug_database] reads from [self]. *)
Record DataFiles : Type := {
  nasal_inhalers : list NasalRow;
  oral_inhalers : list OralRow;
  insulin_products : list ProductRow;
  biologic_injectables : list ProductRow;
  nonbiologic_injectables : list ProductRow;
  diabetic_injectables : list ProductRow
}.

Definition Database : Type := list (string * (MedicationType * DrugData)).

(** [d[key] = value]: an existing key keeps its place, a new key is added
    at the end. *)
Fixpoint set_item {A : Type} (key : string) (value : A) (d : list (string * A))
  : list (string * A) :=
  match d with
  | [] => [(key, value)]
  | (k, v) :: rest =>
      if String.eqb key k then (k, value) :: rest
      else (k, v) :: set_item key value rest
  end.

(** One iteration of the loop over the nasal catalog. *)
Definition add_nasal (database : Database) (row : NasalRow) : Database :=
  let drug_name := strip (lower (Drug_Name row)) in
  let value := (NASAL_INHALER, nasal_dict row) in
  let database := set_item drug_name value database in
  if contains "fluticasone propionate" drug_name then set_item "flonase" value database
  else if contains "mometasone furoate" drug_name then set_item "nasonex" value database
  else if contains "triamcinolone acetonide" drug_name
  then set_item "nasacort" value database
  else if contains "azelastine" drug_name
  then set_item "astepro" value (set_item "astelin" value database)
  else database.

(** One iteration of the loop over the oral inhaler catalog. *)
Definition add_oral (database : Database) (row : OralRow) : Database :=
  let drug_name := strip (lower (Brand_Name row)) in
  let value := (ORAL_INHALER, oral_dict row) in
  let database := set_item drug_name value database in
  if contains "albuterol hfa" drug_name
  then set_item "proventil" value
         (set_item "proair" value (set_item "albuterol" value database))
  else if contains "symbicort hfa" drug_name
  then set_item "symbicort hfa budesonide" value (set_item "symbicort" value database)
  else if contains "ventolin" drug_name then set_item "albuterol" value database
  else database.

(** One iteration of the loops over the insulin, biologic, non-biologic
    and diabetic catalogs, which differ in the type they store. *)
Definition add_product (ty : MedicationType) (database : Database) (row : ProductRow)
  : Database :=
  let proprietary_name := strip (lower (Proprietary_Name row)) in
  let value := (ty, product_dict row) in
  let database := set_item proprietary_name value database in
  match Generic_Name row with
  | Some cell =>
      match strip cell with
      | EmptyString => database
      | _ =>
          let proper_name := strip (lower cell) in
          if String.eqb proper_name proprietary_name then database
          else set_item proper_name value database
      end
  | None => database
  end.

Definition _create_drug_database (self : DataFiles) : Database :=
  let database := [] in
  let database := fold_left add_nasal (nasal_inhalers self) database in
  let database := fold_left add_oral (oral_inhalers self) database in
  let database := fold_left (add_product INSULIN) (insulin_products self) database in
  let database :=
    fold_left (add_product BIOLOGIC_INJECTABLE) (biologic_injectables self) database in
  let database :=
    fold_left (add_product NONBIOLOGIC_INJECTABLE) (nonbiologic_injectables self) database in
  fold_left (add_product DIABETIC_INJECTABLE) (diabetic_injectables self) database.

(** The extractor [__init__] leaves: the database built from the catalogs,
    beside the tables of the eyedrop and topical calculators. *)
Definition PrescriptionDataExtractor (files : DataFiles)
  (guidelines : list EyedropGuideline) (beyond_use : list (string * Z))
  (ftu : list FtuRow) : Extractor :=
  {| drug_database := _create_drug_database files;
     eyedrop_guidelines := guidelines;
     eyedrop_beyond_use := beyond_use;
     ftu_dosing := ftu |}.

(** A string that does not start with a blank, as [lstrip] leaves it. *)
Definition clean_head (s : string) : Prop :=
  match s with
  | EmptyString => True
  | String c _ => isspace c = false
  end.

(** The keys one nasal row is stored under: its name and the brand
    aliases. *)
Definition nasal_keys (row : NasalRow) : list string :=
  let drug_name := strip (lower (Drug_Name row)) in
  drug_name ::
  (if contains "fluticasone propionate" drug_name then ["flonase"]
   else if contains "mometasone furoate" drug_name then ["nasonex"]
   else if contains "triamcinolone acetonide" drug_name then ["nasacort"]
   else if contains "azelastine" drug_name then ["astelin"; "astepro"]
   else []).

(** The keys one oral row is stored under. *)
Definition oral_keys (row : OralRow) : list string :=
  let drug_name := strip (lower (Brand_Name row)) in
  drug_name ::
  (if contains "albuterol hfa" drug_name then ["albuterol"; "proair"; "proventil"]
   else if contains "symbicort hfa" drug_name
   then ["symbicort"; "symbicort hfa budesonide"]
   else if contains "ventolin" drug_name then ["albuterol"]
   else []).

(** The keys one product row is stored under: the proprietary name, and
    the generic name when it is present, not blank and different. *)
Definition product_keys (row : ProductRow) : list string :=
  let proprietary_name := strip (lower (Proprietary_Name row)) in
  proprietary_name ::
  match Generic_Name row with
  | Some cell =>
      match strip cell with
      | EmptyString => []
      | _ =>
          let proper_name := strip (lower cell) in
          if String.eqb proper_name proprietary_name then [] else [proper_name]
      end
  | None => []
  end.

(** The assignments [database[key] = value] for a list of keys. *)
Definition store (value : MedicationType * DrugData) (keys : list string)
  (database : Database) : Database :=
  fold_left (fun db key => set_item key value db) keys database.

(** Whether some row of a catalog is stored under [key]. *)
Definition lists {R : Type} (keys_of : R -> list string) (rows : list R) (key : string)
  : bool :=
  existsb (fun row => existsb (String.eqb key) (keys_of row)) rows.

(** The type of the last catalog, in the order of the loops, that stores a
    row under [key]. *)
Definition assigned_type (files : DataFiles) (key : string) : option MedicationType :=
  if lists product_keys (diabetic_injectables files) key then Some DIABETIC_INJECTABLE
  else if lists product_keys (nonbiologic_injectables files) key
  then Some NONBIOLOGIC_INJECTABLE
  else if lists product_keys (biologic_injectables files) key then Some BIOLOGIC_INJECTABLE
  else if lists product_keys (insulin_products files) key then Some INSULIN
  else if lists oral_keys (oral_inhalers files) key then Some ORAL_INHALER
  else if lists nasal_keys (nasal_inhalers files) key then Some NASAL_INHALER
  else None.

End Catalog.

(** ** Sample catalogs

    A few rows in the shape of the shipped files; the product listed by
    two catalogs shows which one classifies it. *)
Module CatalogExamples.
Import Py Extractor Catalog.

Local Open Scope string_scope.

Definition files : DataFiles :=
  {| nasal_inhalers :=
       [ {| Drug_Name := "Fluticasone Propionate 50 mcg";
            nasal_dict := Examples.nasal_row 120 |};
         {| Drug_Name := " Zavzpret"; nasal_dict := Examples.nasal_row 6 |};
         {| Drug_Name := "Azelastine Nasal Spray"; nasal_dict := Examples.nasal_row 200 |} ];
     oral_inhalers :=
       [ {| Brand_Name := "Ventolin HFA"; oral_dict := Examples.oral_row 200 0 |};
         {| Brand_Name := "Breo Ellipta"; oral_dict := Examples.oral_row 30 42 |} ];
     insulin_products :=
       [ {| Proprietary_Name := "Humalog"; Generic_Name := Some "Insulin Lispro";
            product_dict := Examples.insulin_row 300 |};
         {| Proprietary_Name := "Soliqua"; Generic_Name := None;
            product_dict := Examples.insulin_row 300 |} ];
     biologic_injectables :=
       [ {| Proprietary_Name := "Humira"; Generic_Name := Some "adalimumab";
            product_dict := no_data |} ];
     nonbiologic_injectables :=
       [ {| Proprietary_Name := "Lovenox"; Generic_Name := Some " ";
            product_dict := no_data |} ];
     diabetic_injectables :=
       [ {| Proprietary_Name := "Soliqua"; Generic_Name := Some "soliqua";
            product_dict := no_data |};
         {| Proprietary_Name := "Ozempic"; Generic_Name := Some "Semaglutide";
            product_dict := no_data |} ] |}.

Definition extractor : Extractor := PrescriptionDataExtractor files [] [] [].

(** An oral inhaler row with a usage table: 100 days at two puffs a day,
    50 days at four. *)
Definition row_with_usage_table : DrugData :=
  {| Max_Total_Sprays := None; Package_Size_Value := None;
     Example_Days_Supply_Scenarios := [("2", 100%Z); ("4", 50%Z)];
     Retail_Puffs_per_Package := Some 120%Z;
     Discard_After_Opening_Days := None;
     Total_Units_per_Package := None; Beyond_Use_Date_Days := None;
     Expiration_After_Opening_Days := None; Package_Count := None |}.

(** An extractor whose database has an entry of the eyedrop type and whose
    beyond-use table has one row. *)
Definition eyedrop_extractor : Extractor :=
  {| drug_database := [("latanoprost", (EYEDROP, no_data))];
     eyedrop_guidelines := [];
     eyedrop_beyond_use := [("Latanoprost", 42%Z)];
     ftu_dosing := [] |}.

End CatalogExamples.


(** ** The assisted name search

    With an API key, [extract_prescription_data] may ask a remote service
    for alternative names and match each of them in turn.  The answer of
    [_llm_enhance_drug_search] is a parameter here: [None], or the list of
    names it returned. *)
Module Enrichment.
Import Py Extractor.

Local Open Scope string_scope.
Local Open Scope Q_scope.

Definition indicators : list string :=
  ["ml"; "gm"; "bottle"; "container"; "children"; "nasal"; "spray"].

Definition should_enhance (matched_name : option string) (confidence : Q)
  (drug_name : string) : bool :=
  is_none matched_name || Qltb confidence 0.9 || any_in indicators (lower drug_name).

(** The truth value of a match: a name that is not empty. *)
Definition truthy (matched : option string) : bool :=
  match matched with
  | Some (String _ _) => true
  | _ => false
  end.

(** The loop over the alternative names: the first one whose match beats
    the confidence reached so far replaces the pair and ends the loop. *)
Fixpoint try_alternatives (self : Extractor) (alternative_names : list string)
  (best : option string * Q) : option string * Q :=
  match alternative_names with
  | [] => best
  | alt_name :: rest =>
      let (alt_match, alt_confidence) := _fuzzy_match_drug_name self alt_name 0.6 in
      if truthy alt_match && Qltb (snd best) alt_confidence
      then (alt_match, alt_confidence)
      else try_alternatives self rest best
  end.

(** [matched_name, confidence] after the assisted search. *)
Definition enhanced_match (self : Extractor) (drug_name : string)
  (answer : option (list string)) : option string * Q :=
  let (matched_name, confidence) := _fuzzy_match_drug_name self drug_name 0.6 in
  if should_enhance matched_name confidence drug_name then
    match answer with
    | Some ((_ :: _) as alternative_names) =>
        try_alternatives self alternative_names (matched_name, confidence)
    | _ => (matched_name, confidence)
    end
  else (matched_name, confidence).

End Enrichment.

(** ** Common blocks *)
Module Blocks.

(** The block [(i, j, k)] is common to [a] and [b]: [a[i:i+k] = b[j:j+k]]. *)
Definition common (a b : list ascii) (m : Difflib.block) : Prop :=
  match m with
  | (i, j, k) => firstn k (skipn i a) = firstn k (skipn j b)
  end.

End Blocks.

(** ** Facts about the Python primitives *)
Module PyFacts.
Import Py.

Lemma Qltb_lt (x y : Q) : Qltb x y = true <-> x < y.
Proof.
  unfold Qltb. rewrite negb_true_iff. split; intro H.
  - apply Qnot_le_lt. intro Hle. apply Qle_bool_iff in Hle. congruence.
  - destruct (Qle_bool y x) eqn:E; [|reflexivity].
    apply Qle_bool_iff in E. exfalso. apply (Qlt_not_le _ _ H E).
Qed.

Lemma Qltb_ge (x y : Q) : Qltb x y = false <-> y <= x.
Proof.
  unfold Qltb. rewrite negb_false_iff. apply Qle_bool_iff.
Qed.

Lemma min_cases (a b : Q) :
  (b < a /\ Py.min a b = b) \/ (a <= b /\ Py.min a b = a).
Proof.
  unfold Py.min. destruct (Qltb b a) eqn:E.
  - left. split; [now apply Qltb_lt | reflexivity].
  - right. split; [now apply Qltb_ge | reflexivity].
Qed.

Lemma max_cases (a b : Q) :
  (a < b /\ Py.max a b = b) \/ (b <= a /\ Py.max a b = a).
Proof.
  unfold Py.max. destruct (Qltb a b) eqn:E.
  - left. split; [now apply Qltb_lt | reflexivity].
  - right. split; [now apply Qltb_ge | reflexivity].
Qed.

Lemma min_le_l (a b : Q) : Py.min a b <= a.
Proof. destruct (min_cases a b) as [[H ->]|[H ->]]; lra. Qed.

Lemma min_le_r (a b : Q) : Py.min a b <= b.
Proof. destruct (min_cases a b) as [[H ->]|[H ->]]; lra. Qed.

Lemma min_glb (a b c : Q) : c <= a -> c <= b -> c <= Py.min a b.
Proof. intros; destruct (min_cases a b) as [[H1 ->]|[H1 ->]]; lra. Qed.

Lemma max_ge_l (a b : Q) : a <= Py.max a b.
Proof. destruct (max_cases a b) as [[H ->]|[H ->]]; lra. Qed.

Lemma max_lub (a b c : Q) : a <= c -> b <= c -> Py.max a b <= c.
Proof. intros; destruct (max_cases a b) as [[H1 ->]|[H1 ->]]; lra. Qed.

(** [int] undoes the injection of an integer. *)
Lemma int_inject (n : Z) : Py.int (inject_Z n) = n.
Proof. unfold Py.int; simpl. apply Z.quot_1_r. Qed.


Lemma drop_prefix_length (p s r : string) :
  drop_prefix p s = Some r -> String.length s = (String.length p + String.length r)%nat.
Proof.
  revert s; induction p as [|a p IH]; intros s H; simpl in *.
  - now inversion H.
  - destruct s as [|b s]; [discriminate|].
    destruct (Ascii.eqb a b); [|discriminate].
    simpl. f_equal. now apply IH.
Qed.

Lemma contains_length (needle hay : string) :
  contains needle hay = true -> (String.length needle <= String.length hay)%nat.
Proof.
  induction hay as [|c hay IH]; simpl; unfold startswith.
  - destruct (drop_prefix needle EmptyString) eqn:E; [|discriminate].
    intros _. apply drop_prefix_length in E. simpl in E. lia.
  - destruct (drop_prefix needle (String c hay)) eqn:E; simpl.
    + intros _. apply drop_prefix_length in E. simpl in E. lia.
    + intro H. specialize (IH H). lia.
Qed.

End PyFacts.

(** ** Facts about the similarity ratio *)
Module DifflibFacts.
Import Difflib.

Lemma lcp_le_l (a b : list ascii) : (lcp a b <= List.length a)%nat.
Proof.
  revert b; induction a as [|x a IH]; intros [|y b]; simpl; try lia.
  destruct (Ascii.eqb x y); [specialize (IH b)|]; lia.
Qed.

Lemma lcp_le_r (a b : list ascii) : (lcp a b <= List.length b)%nat.
Proof.
  revert b; induction a as [|x a IH]; intros [|y b]; simpl; try lia.
  destruct (Ascii.eqb x y); [specialize (IH b)|]; lia.
Qed.

Lemma scan_b_fits (la lb : nat) (sa : list ascii) (i : nat) (b : list ascii) :
  (i + List.length sa = la)%nat ->
  forall (j : nat) (best : block),
    (j + List.length b = lb)%nat -> fits la lb best -> fits la lb (scan_b sa i b j best).
Proof.
  intros Hi. induction b as [|y b IH]; intros j best Hj Hbest; simpl; [exact Hbest|].
  apply IH; [simpl in Hj; lia|].
  destruct (size best <? lcp sa (y :: b))%nat; [|exact Hbest].
  pose proof (lcp_le_l sa (y :: b)). pose proof (lcp_le_r sa (y :: b)).
  simpl in *. lia.
Qed.

Lemma scan_a_fits (la lb : nat) (b : list ascii) (a : list ascii) :
  List.length b = lb ->
  forall (i : nat) (best : block),
    (i + List.length a = la)%nat -> fits la lb best -> fits la lb (scan_a a i b best).
Proof.
  intros Hb. induction a as [|x a IH]; intros i best Hi Hbest; simpl; [exact Hbest|].
  apply IH; [simpl in Hi; lia|].
  apply scan_b_fits; [exact Hi | simpl; lia | exact Hbest].
Qed.

Lemma find_longest_match_fits (a b : list ascii) :
  fits (List.length a) (List.length b) (find_longest_match a b).
Proof.
  unfold find_longest_match. apply scan_a_fits; simpl; try lia; reflexivity.
Qed.

(** The matched elements are elements of both sequences. *)
Lemma matches_le (fuel : nat) :
  forall a b : list ascii,
    (matches fuel a b <= List.length a /\ matches fuel a b <= List.length b)%nat.
Proof.
  induction fuel as [|fuel IH]; intros a b; simpl; [lia|].
  pose proof (find_longest_match_fits a b) as Hfit.
  destruct (find_longest_match a b) as [[i j] k]. simpl in Hfit.
  destruct (k =? 0)%nat; [lia|].
  destruct (IH (firstn i a) (firstn j b)) as [H1 H2].
  destruct (IH (skipn (i + k) a) (skipn (j + k) b)) as [H3 H4].
  rewrite length_firstn in H1, H2. rewrite length_skipn in H3, H4. lia.
Qed.

Lemma ratio_bounds (a b : string) : 0 <= ratio a b <= 1.
Proof.
  unfold ratio.
  set (la := list_ascii_of_string a). set (lb := list_ascii_of_string b).
  destruct (List.length la + List.length lb)%nat as [|n] eqn:E; [lra|].
  destruct (matches_le (S (List.length la)) la lb) as [H1 H2].
  set (m := matches (S (List.length la)) la lb) in *.
  assert (Hpos : 0 < inject_Z (Z.of_nat (S n))).
  { rewrite <- (Zlt_Qlt 0). lia. }
  split.
  - apply Qle_shift_div_l; [exact Hpos|].
    rewrite Qmult_0_l. rewrite <- (Zle_Qle 0). lia.
  - apply Qle_shift_div_r; [exact Hpos|].
    rewrite Qmult_1_l. rewrite <- Zle_Qle. lia.
Qed.

End DifflibFacts.

(** ** The drug-name matcher *)
Module MatcherFacts.
Import Py Extractor MatcherSpec PyFacts.

Local Open Scope Q_scope.

(** The loop returns as soon as it meets the cleaned input among the keys. *)
Lemma match_loop_exact (input : string) (floor : Q) (keys : list string) :
  In input keys ->
  forall best, match_loop keys input floor best = (Some input, 1).
Proof.
  induction keys as [|key keys IH]; intros Hin best; [destruct Hin|].
  simpl. unfold match_step.
  destruct (String.eqb input key) eqn:E.
  - apply String.eqb_eq in E. now subst.
  - apply IH. destruct Hin as [->|Hin]; [|exact Hin].
    rewrite String.eqb_refl in E. discriminate.
Qed.

(** Without an exact match one iteration folds the candidates of its key
    into the running best. *)
Lemma match_step_candidates (input : string) (floor : Q) (best : option string * Q)
  (key : string) :
  String.eqb input key = false ->
  match_step input floor best key
  = inl (fold_left keep_best (candidates_of input floor key) best).
Proof.
  intro E. unfold match_step, candidates_of, keep_best. rewrite E. f_equal.
  destruct (contains input key || contains key input);
    destruct (Qle_bool floor (Difflib.ratio input key)); simpl;
    rewrite ?andb_true_r, ?andb_false_r; reflexivity.
Qed.

Lemma match_loop_candidates (input : string) (floor : Q) (keys : list string) :
  ~ In input keys ->
  forall best,
    match_loop keys input floor best
    = fold_left keep_best (candidates input floor keys) best.
Proof.
  induction keys as [|key keys IH]; intros Hnot best; [reflexivity|].
  simpl. rewrite match_step_candidates.
  - unfold candidates in *. simpl. rewrite fold_left_app. apply IH.
    intro H. apply Hnot. now right.
  - apply String.eqb_neq. intro H. apply Hnot. now left.
Qed.

(** What the running best is after a list of candidates: unchanged when
    none is strictly higher, otherwise the first of the highest ones. *)
Lemma fold_keep_best (cands : list (string * Q)) :
  forall best,
    (fold_left keep_best cands best = best /\ forall c, In c cands -> snd c <= snd best)
    \/ exists before key score after,
         cands = (before ++ (key, score) :: after)%list /\
         fold_left keep_best cands best = (Some key, score) /\
         snd best < score /\
         (forall c, In c before -> snd c < score) /\
         (forall c, In c after -> snd c <= score).
Proof.
  induction cands as [|[k s] cands IH]; intro best; simpl.
  - left. split; [reflexivity | intros c []].
  - replace (keep_best best (k, s))
      with (if Qltb (snd best) s then (Some k, s) else best) by reflexivity.
    destruct (Qltb (snd best) s) eqn:E.
    + apply Qltb_lt in E.
      destruct (IH (Some k, s))
        as [[Heq Hall] | (before & key & score & after & Hc & Hr & Hlt & Hb & Ha)].
      * right. exists [], k, s, cands. simpl in *.
        split; [reflexivity|]. split; [exact Heq|]. split; [exact E|].
        split; [intros c [] | exact Hall].
      * right. exists ((k, s) :: before), key, score, after. simpl in *.
        split; [now rewrite Hc|]. split; [exact Hr|]. split; [lra|].
        split; [|exact Ha].
        intros c [<- | Hin]; [simpl; exact Hlt | now apply Hb].
    + apply Qltb_ge in E.
      destruct (IH best)
        as [[Heq Hall] | (before & key & score & after & Hc & Hr & Hlt & Hb & Ha)].
      * left. split; [exact Heq|]. intros c [<- | Hin]; [exact E | now apply Hall].
      * right. exists ((k, s) :: before), key, score, after. simpl.
        split; [now rewrite Hc|]. split; [exact Hr|]. split; [exact Hlt|].
        split; [|exact Ha].
        intros c [<- | Hin]; [simpl; lra | now apply Hb].
Qed.

(** The divisions of the overlap score never divide by zero: the name a
    length is divided by contains the other one and differs from it. *)
Lemma substring_divisor_nonzero (input key : string) :
  input <> key ->
  (contains input key = true -> String.length key <> 0%nat) /\
  (contains input key = false -> String.length input <> 0%nat).
Proof.
  intro Hne. split; intro H.
  - destruct key as [|c key]; [|discriminate].
    apply contains_length in H. destruct input; [now elim Hne | simpl in H; lia].
  - destruct input as [|c input]; [|discriminate].
    destruct key; simpl in H; discriminate.
Qed.

(** A substring score is at least 0.2 and at most 0.95. *)
Lemma substring_score_bounds (input key : string) :
  0.2 <= substring_score input key <= 0.95.
Proof.
  unfold substring_score.
  assert (Hlen : forall a b : string, 0 <= len a / len b).
  { intros a b. unfold len.
    destruct (String.length b) as [|n].
    - unfold Qdiv, Qinv; simpl. rewrite Qmult_0_r. lra.
    - apply Qle_shift_div_l.
      + rewrite <- (Zlt_Qlt 0). lia.
      + rewrite Qmult_0_l. rewrite <- (Zle_Qle 0). lia. }
  split; [|apply min_le_l].
  destruct (contains input key);
    [pose proof (Hlen input key) | pose proof (Hlen key input)];
    match goal with |- _ <= Py.min ?a ?b => destruct (min_cases a b) as [[_ ->]|[_ ->]] end;
    lra.
Qed.

Lemma candidates_positive (input : string) (keys : list string) (c : string * Q) :
  In c (candidates input 0.6 keys) -> 0 < snd c.
Proof.
  unfold candidates. rewrite in_flat_map. intros (key & _ & Hin).
  unfold candidates_of in Hin. apply in_app_or in Hin.
  destruct Hin as [Hin | Hin].
  - destruct (contains input key || contains key input); [|destruct Hin].
    destruct Hin as [<- | []]. simpl.
    pose proof (substring_score_bounds input key). lra.
  - destruct (Qle_bool 0.6 (Difflib.ratio input key)) eqn:E; [|destruct Hin].
    destruct Hin as [<- | []]. simpl. apply Qle_bool_iff in E. lra.
Qed.

Lemma candidates_le_1 (input : string) (floor : Q) (keys : list string) (c : string * Q) :
  In c (candidates input floor keys) -> snd c <= 1.
Proof.
  unfold candidates. rewrite in_flat_map. intros (key & _ & Hin).
  unfold candidates_of in Hin. apply in_app_or in Hin.
  destruct Hin as [Hin | Hin].
  - destruct (contains input key || contains key input); [|destruct Hin].
    destruct Hin as [<- | []]. simpl.
    pose proof (substring_score_bounds input key). lra.
  - destruct (Qle_bool floor (Difflib.ratio input key)); [|destruct Hin].
    destruct Hin as [<- | []]. simpl. apply DifflibFacts.ratio_bounds.
Qed.

(** The scan without exact match returns the first best candidate. *)
Lemma scan_first_best (input : string) (keys : list string) :
  ~ In input keys ->
  first_best (candidates input 0.6 keys) (match_loop keys input 0.6 (None, 0)).
Proof.
  intro Hnot. rewrite match_loop_candidates by exact Hnot.
  destruct (fold_keep_best (candidates input 0.6 keys) (None, 0))
    as [[Heq Hall] | (before & key & score & after & Hc & Hr & _ & Hb & Ha)].
  - left. split; [|exact Heq].
    destruct (candidates input 0.6 keys) as [|c l] eqn:E; [reflexivity|].
    exfalso. assert (Hin : In c (candidates input 0.6 keys)) by (rewrite E; now left).
    apply candidates_positive in Hin. specialize (Hall c (or_introl eq_refl)).
    simpl in Hall. lra.
  - right. exists before, key, score, after. auto.
Qed.


Lemma match_loop_bounds (input : string) (floor : Q) (keys : list string) :
  forall best, 0 <= snd best <= 1 -> 0 <= snd (match_loop keys input floor best) <= 1.
Proof.
  induction keys as [|key keys IH]; intros best Hb; [exact Hb|].
  simpl. unfold match_step.
  destruct (String.eqb input key); [simpl; lra|].
  apply IH.
  pose proof (substring_score_bounds input key) as Hs.
  pose proof (DifflibFacts.ratio_bounds input key) as Hr.
  destruct (contains input key || contains key input);
    [destruct (Qltb (snd best) (substring_score input key))|];
    match goal with
    | |- context [if ?c then _ else _] => destruct c
    end; simpl; lra.
Qed.

(** A returned name is a key of the database. *)
Lemma match_loop_key (input : string) (floor : Q) (keys : list string) :
  forall best name score,
    match_loop keys input floor best = (Some name, score) ->
    In name keys \/ fst best = Some name.
Proof.
  induction keys as [|key keys IH]; intros best name score H; simpl in H.
  - right. now rewrite H.
  - unfold match_step in H. destruct (String.eqb input key).
    + inversion H; subst. left. now left.
    + apply IH in H. destruct H as [H | H]; [left; now right|].
      destruct (contains input key || contains key input);
        [destruct (Qltb (snd best) (substring_score input key))|];
        match type of H with
        | context [if ?c then _ else _] => destruct c
        end; simpl in H; try (inversion H; subst; left; now left); now right.
Qed.

End MatcherFacts.

(** ** The calculators: range of the day supply *)
Module CalculatorFacts.
Import Py Extractor PyFacts.

Local Open Scope Q_scope.

Lemma Z2Q_le (a b : Z) : (a <= b)%Z -> Z2Q a <= Z2Q b.
Proof. unfold Z2Q. now rewrite <- Zle_Qle. Qed.

Lemma clampZ_range (d : Z) : (7 <= clampZ d <= 365)%Z.
Proof. unfold clampZ. lia. Qed.

Lemma clampZ_Q (d : Z) : 7 <= Z2Q (clampZ d) <= 365.
Proof.
  pose proof (clampZ_range d) as [H1 H2].
  split; [apply (Z2Q_le 7) | apply (Z2Q_le _ 365)]; assumption.
Qed.

Lemma clamp_range (x : Q) : 7 <= clamp x <= 365.
Proof.
  unfold clamp. split; [apply max_ge_l|].
  apply max_lub; [lra | apply min_le_r].
Qed.

(** The clamp of an integer is an integer. *)
Lemma clamp_integer (z : Z) : exists z', clamp (Z2Q z) = Z2Q z'.
Proof.
  unfold clamp, Py.max, Py.min.
  destruct (Qltb 365 (Z2Q z)); destruct (Qltb 7 _);
    first [now exists z | now exists 7%Z | now exists 365%Z].
Qed.

Lemma nasal_special_range (n : string) (max_sprays day_supply : Z) :
  (1 <= max_sprays)%Z ->
  (1 <= nasal_special n max_sprays day_supply)%Z /\
  (nasal_unclamped n = false -> (7 <= nasal_special n max_sprays day_supply <= 365)%Z).
Proof.
  intro Hpos. unfold nasal_special, nasal_unclamped.
  destruct (contains "calcitonin" n); simpl; [split; [lia | discriminate]|].
  destruct (contains "butorphanol" n); simpl; [split; lia|].
  destruct (contains "migranol" n || contains "migranal" n); simpl; [split; lia|].
  destruct (contains "nayzilam" n || contains "neffy" n); simpl.
  { destruct (max_sprays <=? 2)%Z; split; lia. }
  destruct (contains "zavzpret" n); simpl; [split; [lia | discriminate]|].
  destruct (contains "sprix" n); simpl.
  { destruct (max_sprays <=? 8)%Z; (split; [lia | discriminate]). }
  destruct (contains "trudhesa" n); simpl.
  { destruct (max_sprays <=? 8)%Z; (split; [lia | discriminate]). }
  split; lia.
Qed.

Lemma nasal_result (d : DrugData) (q : Q) (s : string) (m : option string)
  (cq ds : Q) (t : text) :
  _process_nasal_inhaler d q s m = Ok (cq, ds, t) ->
  exists z, ds = Z2Q z /\ (1 <= z)%Z /\
            (nasal_unclamped (name_lower m) = false -> (7 <= z <= 365)%Z).
Proof.
  unfold _process_nasal_inhaler. intro H.
  destruct (_frequency_to_text _); simpl in H; [|discriminate].
  match type of H with (bind ?c _) = _ => destruct c end; simpl in H; [|discriminate].
  match type of H with (bind ?c _) = _ => destruct c end; simpl in H; [|discriminate].
  inversion H; subst. eexists. split; [reflexivity|].
  apply nasal_special_range.
  destruct (get (Max_Total_Sprays d) 0 <=? 0)%Z eqn:E; lia.
Qed.

Lemma oral_result (d : DrugData) (q : Q) (s : string) (m : option string)
  (cq ds : Q) (t : text) :
  _process_oral_inhaler d q s m = Ok (cq, ds, t) ->
  7 <= ds <= 365 /\
  (contains "ellipta" (name_lower m) = false -> exists z, ds = Z2Q z).
Proof.
  unfold _process_oral_inhaler. intro H.
  destruct (oral_dose_and_frequency _ _) as [dose freq].
  destruct (_frequency_to_text _); simpl in H; [|discriminate].
  match type of H with (bind ?c _) = _ => destruct c as [cd|] eqn:E end;
    simpl in H; [|discriminate].
  inversion H; subst. split; [apply clamp_range|].
  intro Hne. unfold oral_calculated_days in E. rewrite Hne in E.
  assert (Hcd : exists z, cd = Z2Q z).
  { match type of E with (bind ?c _) = _ => destruct c as [z0|] end;
      simpl in E; [|discriminate].
    destruct (is_rescue_inhaler _).
    - destruct (lookup _ _); [inversion E; now eexists|].
      destruct (lookup _ _); [inversion E; now eexists|].
      destruct (int_div _ _); simpl in E; [|discriminate].
      inversion E; now eexists.
    - inversion E; now eexists. }
  destruct Hcd as [z ->]. unfold oral_discard_limit.
  destruct (0 <? _)%Z; [|apply clamp_integer].
  unfold Py.min.
  match goal with |- context [if ?c then _ else _] => destruct c end;
    apply clamp_integer.
Qed.

End CalculatorFacts.

(** ** The orchestrator *)
Module OrchestratorFacts.
Import Py Extractor PyFacts CalculatorFacts.

Local Open Scope Q_scope.

Lemma clampZ_ok (ty : MedicationType) (n : string) (d : Z) :
  day_supply_ok ty n (Z2Q (clampZ d)).
Proof.
  pose proof (clampZ_Q d) as [H1 H2].
  repeat split; [lra | right; lra | right; now eexists].
Qed.

Lemma thirty_ok (ty : MedicationType) (n : string) : day_supply_ok ty n 30.
Proof. repeat split; [lra | right; lra | right; now exists 30%Z]. Qed.

(** Every call the dispatch can make returns a day supply in range. *)
Lemma dispatch_ok (self : Extractor) (ty : MedicationType) (d : DrugData)
  (rx : PrescriptionInput) (m : option string) (cq ds : Q) (t : text) :
  dispatch self ty d rx m = Ok (cq, ds, t) -> day_supply_ok ty (name_lower m) ds.
Proof.
  unfold dispatch. intro H.
  destruct ty; try discriminate;
    destruct (float_of_quantity (quantity rx)) as [q|]; simpl in H; try discriminate.
  - apply nasal_result in H. destruct H as (z & -> & Hpos & Hr).
    split; [apply (Z2Q_le 1); exact Hpos|]. split; [|right; now eexists].
    destruct (nasal_unclamped (name_lower m)); [left; now split|].
    right. destruct (Hr eq_refl).
    split; [apply (Z2Q_le 7) | apply (Z2Q_le _ 365)]; assumption.
  - apply oral_result in H. destruct H as [[H1 H2] Hz].
    split; [lra|]. split; [right; now split|].
    destruct (contains "ellipta" (name_lower m)); [left; now split|].
    right. now apply Hz.
  - unfold _process_insulin in H.
    destruct (_frequency_to_text _); simpl in H; [|discriminate].
    destruct (insulin_calculated_days _ _ _); simpl in H; [|discriminate].
    inversion H; subst. apply clampZ_ok.
  - unfold _process_topical_ftu in H.
    destruct (topical_quantity_grams _); simpl in H; [|discriminate].
    match type of H with (bind ?c _) = _ => destruct c end; simpl in H; [|discriminate].
    destruct (_frequency_to_text _); simpl in H; [|discriminate].
    inversion H; subst. apply clampZ_ok.
  - unfold _process_diabetic_injectable in H.
    match type of H with (bind ?c _) = _ => destruct c end; simpl in H; [|discriminate].
    destruct (_frequency_to_text _); simpl in H; [|discriminate].
    inversion H; subst. apply clampZ_ok.
  - inversion H; subst. apply thirty_ok.
Qed.

(** When [float] converts the quantity the handler completes. *)
Lemma handler_converted (rx : PrescriptionInput) (v : Q) :
  float_of_quantity (quantity rx) = Ok v ->
  exists cq, handler rx = Ok (cq, 30, [Lit (sig_directions rx)]).
Proof.
  intro Hv. unfold handler. rewrite Hv.
  destruct (digits_without_dots (quantity rx)); simpl; eexists; reflexivity.
Qed.

(** Whatever the [try] statement returns is in range. *)
Lemma try_dispatch_ok (self : Extractor) (ty : MedicationType) (d : DrugData)
  (rx : PrescriptionInput) (m : option string) (cq ds : Q) (t : text) :
  try_dispatch self ty d rx m = Ok (cq, ds, t) -> day_supply_ok ty (name_lower m) ds.
Proof.
  unfold try_dispatch.
  destruct (dispatch self ty d rx m) as [[[cq' ds'] t']|e] eqn:E.
  - intros [= <- <- <-]. eapply dispatch_ok; exact E.
  - unfold handler.
    match goal with |- bind ?c _ = _ -> _ => destruct c end; [|discriminate].
    cbn [bind]. intros [= <- <- <-]. apply thirty_ok.
Qed.

(** The [try] statement of a request whose quantity [float] converts
    completes, in range. *)
Lemma try_dispatch_converted (self : Extractor) (ty : MedicationType) (d : DrugData)
  (rx : PrescriptionInput) (m : option string) (v : Q) :
  float_of_quantity (quantity rx) = Ok v ->
  exists cq ds t,
    try_dispatch self ty d rx m = Ok (cq, ds, t) /\ day_supply_ok ty (name_lower m) ds.
Proof.
  intro Hv.
  assert (H : exists o, try_dispatch self ty d rx m = Ok o).
  { unfold try_dispatch. destruct (dispatch self ty d rx m) as [o|e]; [now exists o|].
    destruct (handler_converted rx v Hv) as [cq ->]. now eexists. }
  destruct H as [[[cq ds] t] H]. exists cq, ds, t. split; [exact H|].
  eapply try_dispatch_ok; exact H.
Qed.

(** The two exits of [extract_prescription_data]. *)
Lemma extract_unmatched (self : Extractor) (rx : PrescriptionInput) :
  (let (m, c) := _fuzzy_match_drug_name self (drug_name rx) 0.6 in
   m = None \/ c < 0.80) ->
  extract_prescription_data self rx = Ok (_create_unsupported_medication_result rx).
Proof.
  unfold extract_prescription_data.
  destruct (_fuzzy_match_drug_name self (drug_name rx) 0.6) as [m c].
  intros [-> | Hlt]; [reflexivity|].
  apply Qltb_lt in Hlt. rewrite Hlt. now rewrite orb_true_r.
Qed.

Lemma extract_matched (self : Extractor) (rx : PrescriptionInput) (name : string) (c : Q) :
  _fuzzy_match_drug_name self (drug_name rx) 0.6 = (Some name, c) ->
  0.80 <= c ->
  extract_prescription_data self rx =
  (let (ty, d) := entry_of self (Some name) in
   outcome <- try_dispatch self ty d rx (Some name) ;;
   let '(cq, ds, t) := outcome in
   Ok {| original_drug_name := drug_name rx;
         matched_drug_name := Some name;
         medication_type := ty;
         corrected_quantity := cq;
         calculated_day_supply := ds;
         standardized_sig := t;
         confidence_score := c;
         warnings := [];
         additional_info := d |}).
Proof.
  intros Hm Hc. unfold extract_prescription_data. rewrite Hm.
  apply Qltb_ge in Hc. rewrite Hc. reflexivity.
Qed.



End OrchestratorFacts.

(** ** Range of the day supply, unmatched requests, failures *)
Module ResultFacts.
Import Py Extractor PyFacts CalculatorFacts OrchestratorFacts Examples.

Local Open Scope string_scope.
Local Open Scope Q_scope.




(** An exception raised by the selected call is turned into the degraded
    result when the quantity converts to a number: 30 days, the directions
    echoed, the quantity converted when it prints as digits and 1
    otherwise. *)
Lemma formula_exception_degrades (self : Extractor) (rx : PrescriptionInput)
  (name : string) (c : Q) (ty : MedicationType) (d : DrugData) (err : exn) (v : Q) :
  _fuzzy_match_drug_name self (drug_name rx) 0.6 = (Some name, c) ->
  0.80 <= c ->
  entry_of self (Some name) = (ty, d) ->
  dispatch self ty d rx (Some name) = Raise err ->
  float_of_quantity (quantity rx) = Ok v ->
  exists e,
    extract_prescription_data self rx = Ok e /\
    calculated_day_supply e = 30 /\
    standardized_sig e = [Lit (sig_directions rx)] /\
    corrected_quantity e = (if digits_without_dots (quantity rx) then v else 1).
Proof.
  intros Hm Hc He Hd Hv. rewrite (extract_matched self rx name c Hm Hc), He.
  unfold try_dispatch. rewrite Hd. unfold handler. rewrite Hv.
  destruct (digits_without_dots (quantity rx)); simpl;
    eexists; (split; [reflexivity|]); repeat split.
Qed.


(** C2, the code at the failing input.  The quantity string "1.2.3" of a
    request for the sample insulin: [float] rejects it inside the [try],
    the handler's digit test accepts it ("123" after the dots are removed),
    the handler calls [float] again, and the [ValueError] reaches the
    caller. *)
Theorem dotted_quantity_raises :
  _fuzzy_match_drug_name catalog "Humalog" 0.6 = (Some "humalog", 1) /\
  float_of_quantity (QStr "1.2.3") = Raise ValueError /\
  digits_without_dots (QStr "1.2.3") = true /\
  extract_prescription_data catalog (request "Humalog" (QStr "1.2.3") "15 units tid")
  = Raise ValueError.
Proof.
  repeat split; vm_compute; reflexivity.
Qed.

(** A matched biologic or non-biologic injectable never reaches
    [_process_injectable]: the method looked up does not exist, and a
    request whose quantity [float] converts ends with the handler's 30 days
    and the directions echoed. *)
Lemma injectable_always_thirty (self : Extractor) (rx : PrescriptionInput)
  (name : string) (c : Q) (ty : MedicationType) (d : DrugData) :
  _fuzzy_match_drug_name self (drug_name rx) 0.6 = (Some name, c) ->
  0.80 <= c ->
  entry_of self (Some name) = (ty, d) ->
  ty = BIOLOGIC_INJECTABLE \/ ty = NONBIOLOGIC_INJECTABLE ->
  forall v, float_of_quantity (quantity rx) = Ok v ->
  exists e,
    extract_prescription_data self rx = Ok e /\
    calculated_day_supply e = 30 /\
    standardized_sig e = [Lit (sig_directions rx)].
Proof.
  intros Hm Hc He Hty v Hv. rewrite (extract_matched self rx name c Hm Hc), He.
  destruct (handler_converted rx v Hv) as [cq Hh].
  assert (Ht : try_dispatch self ty d rx (Some name)
               = Ok (cq, 30, [Lit (sig_directions rx)])).
  { unfold try_dispatch, dispatch. destruct Hty as [-> | ->]; exact Hh. }
  rewrite Ht. simpl. eexists. split; [reflexivity|]. split; reflexivity.
Qed.

(** C3, the code at the failing inputs.  Two syringes of the sample
    biologic with weekly directions: the orchestrator returns 30 days and
    echoes the directions, where [_process_injectable] computes 14; two
    units of the sample non-biologic with monthly directions: 30 days,
    where [_process_injectable] computes 60. *)
Theorem injectable_requests_degrade :
  (exists e,
      extract_prescription_data catalog (request "Humira" (QInt 2) "inject weekly") = Ok e /\
      medication_type e = BIOLOGIC_INJECTABLE /\
      calculated_day_supply e = 30 /\
      standardized_sig e = [Lit "inject weekly"]) /\
  (exists t, _process_injectable no_data 2 "inject weekly" true = Ok (2, 14, t)) /\
  (exists e,
      extract_prescription_data catalog
        (request "Enoxaparin" (QInt 2) "inject once monthly") = Ok e /\
      medication_type e = NONBIOLOGIC_INJECTABLE /\
      calculated_day_supply e = 30 /\
      standardized_sig e = [Lit "inject once monthly"]) /\
  (exists t, _process_injectable no_data 2 "inject once monthly" false = Ok (2, 60, t)).
Proof.
  repeat split.
  - eexists. split; [vm_compute; reflexivity|]. repeat split.
  - eexists. vm_compute. reflexivity.
  - eexists. split; [vm_compute; reflexivity|]. repeat split.
  - eexists. vm_compute. reflexivity.
Qed.

(** C4.  A request whose name finds no candidate, or one below 0.80, gets
    the unsupported result: no matched name, confidence 0, day supply 0,
    the fixed marker as directions and one warning; the result does not
    depend on the quantity or the directions, no calculator runs. *)
Theorem unmatched_request_result (self : Extractor) (rx : PrescriptionInput) :
  (let (m, c) := _fuzzy_match_drug_name self (drug_name rx) 0.6 in
   m = None \/ c < 0.80) ->
  exists e,
    extract_prescription_data self rx = Ok e /\
    matched_drug_name e = None /\
    confidence_score e = 0 /\
    calculated_day_supply e = 0 /\
    standardized_sig e = [Lit "MEDICATION NOT IN PAAS DATABASE"] /\
    warnings e <> [] /\
    forall q directions,
      extract_prescription_data self
        {| drug_name := drug_name rx; quantity := q; sig_directions := directions |}
      = Ok e.
Proof.
  intro H. exists (_create_unsupported_medication_result rx).
  split; [now apply extract_unmatched|].
  repeat split; try discriminate.
  intros q directions.
  now rewrite (extract_unmatched self
                 {| drug_name := drug_name rx; quantity := q;
                    sig_directions := directions |} H).
Qed.

Lemma unmatched_request_result_witness :
  exists e,
    extract_prescription_data catalog (request "XYZ-Not-A-Drug" (QInt 1) "take daily") = Ok e /\
    matched_drug_name e = None /\
    confidence_score e = 0 /\
    calculated_day_supply e = 0 /\
    standardized_sig e = [Lit "MEDICATION NOT IN PAAS DATABASE"] /\
    warnings e <> [] /\
    forall q directions,
      extract_prescription_data catalog
        {| drug_name := "XYZ-Not-A-Drug"; quantity := q; sig_directions := directions |}
      = Ok e.
Proof.
  apply (unmatched_request_result catalog
           (request "XYZ-Not-A-Drug" (QInt 1) "take daily")).
  vm_compute. left. reflexivity.
Defined.

End ResultFacts.

(** ** The matcher against its description *)
Module MatcherClaims.
Import Py Extractor MatcherSpec PyFacts MatcherFacts Examples.

Local Open Scope string_scope.
Local Open Scope Q_scope.

(** The candidates are exactly the scored pairs of the description. *)
Lemma candidates_spec (input : string) (floor : Q) (keys : list string)
  (key : string) (score : Q) :
  In (key, score) (candidates input floor keys) <->
  In key keys /\
  ((contains input key || contains key input = true /\ score = substring_score input key)
   \/ (floor <= Difflib.ratio input key /\ score = Difflib.ratio input key)).
Proof.
  unfold candidates. rewrite in_flat_map. split.
  - intros (k & Hk & Hin). unfold candidates_of in Hin. apply in_app_or in Hin.
    destruct Hin as [Hin | Hin].
    + destruct (contains input k || contains k input) eqn:E; [|destruct Hin].
      destruct Hin as [Heq | []]. inversion Heq; subst. split; [exact Hk|].
      left. split; [exact E | reflexivity].
    + destruct (Qle_bool floor (Difflib.ratio input k)) eqn:E; [|destruct Hin].
      destruct Hin as [Heq | []]. inversion Heq; subst. split; [exact Hk|].
      right. split; [now apply Qle_bool_iff | reflexivity].
  - intros (Hk & [[E ->] | [E ->]]); exists key; (split; [exact Hk|]);
      unfold candidates_of; apply in_or_app.
    + left. rewrite E. now left.
    + right. apply Qle_bool_iff in E. rewrite E. now left.
Qed.



End MatcherClaims.

(** ** The rule-based frequency parser *)
Module FrequencyFacts.
Import Py Extractor PyFacts.

Local Open Scope string_scope.
Local Open Scope Q_scope.

(** Comparison of two rational constants. *)
Ltac qconst := unfold Qle, Qlt; simpl; lia.

Lemma digits_value_nonneg (s : string) :
  forall acc, (0 <= acc)%Z -> (0 <= digits_value acc s)%Z.
Proof.
  induction s as [|c s IH]; intros acc H; cbn [digits_value]; [exact H|].
  apply IH. unfold digit_value. lia.
Qed.

Lemma decimal_value_nonneg (ip fp : string) (e : Z) : 0 <= decimal_value ip fp e.
Proof.
  unfold decimal_value. apply Qmult_le_0_compat.
  - rewrite <- (Zle_Qle 0). apply digits_value_nonneg. lia.
  - apply Qpower_0_le. discriminate.
Qed.

Lemma match_here_nonneg (tail : matcher) (s : string) (v : Q) (r : string) :
  match_here tail s = Some (v, r) -> 0 <= v.
Proof.
  unfold match_here. destruct (number_group s) as [[[ip fp] r0]|]; [|discriminate].
  destruct (seq ws tail r0); [|discriminate].
  intro H. inversion H; subst. apply decimal_value_nonneg.
Qed.

Lemma findall_from_nonneg (tail : matcher) (s : string) :
  forall skip v, In v (findall_from tail skip s) -> 0 <= v.
Proof.
  induction s as [|c s IH]; intros skip v H; simpl in H; [destruct H|].
  destruct skip as [|k]; [|now apply (IH k)].
  destruct (match_here tail (String c s)) as [[v0 r]|] eqn:E.
  - destruct H as [<- | H]; [now apply match_here_nonneg in E | now apply IH in H].
  - now apply IH in H.
Qed.

Lemma search_nonneg (tail : matcher) (s : string) (v : Q) :
  search tail s = Some v -> 0 <= v.
Proof.
  unfold search, findall. destruct (findall_from tail 0 s) as [|v0 l] eqn:E; [discriminate|].
  intro H. inversion H; subst.
  apply (findall_from_nonneg tail s 0). rewrite E. now left.
Qed.

(** The value returned is a rule constant, at least 1/30, or the number
    read by the explicit pattern. *)
Lemma frequency_cases (sig : string) :
  1 / 30 <= _calculate_frequency_per_day sig \/
  search times_per_day (lower sig) = Some (_calculate_frequency_per_day sig).
Proof.
  unfold _calculate_frequency_per_day.
  repeat match goal with
         | |- context [if ?c then _ else _] => destruct c; try (left; qconst)
         end.
  destruct (search times_per_day (lower sig)); [now right | left; qconst].
Qed.

Lemma frequency_nonneg (sig : string) : 0 <= _calculate_frequency_per_day sig.
Proof.
  destruct (frequency_cases sig) as [H | H]; [|now apply search_nonneg in H].
  apply Qle_trans with (1 / 30); [qconst | exact H].
Qed.

(** A positive frequency has a text. *)
Lemma frequency_text_ok (f : Q) : 0 < f -> exists t, _frequency_to_text f = Ok t.
Proof.
  intro H. unfold _frequency_to_text.
  repeat match goal with
         | |- context [if ?c then _ else _] => destruct c; [now eexists|]
         end.
  destruct (Qltb f 1); [|now eexists].
  unfold div. destruct (Qeq_bool f 0) eqn:E; [|simpl; now eexists].
  apply Qeq_bool_eq in E. lra.
Qed.

Lemma frequency_text_zero (f : Q) : f == 0 -> _frequency_to_text f = Raise ZeroDivisionError.
Proof.
  intro H. unfold _frequency_to_text.
  repeat match goal with
         | |- context [if Qeq_bool f ?k then _ else _] =>
             let E := fresh "E" in
             destruct (Qeq_bool f k) eqn:E;
             [apply Qeq_bool_eq in E; rewrite H in E;
              unfold Qeq in E; simpl in E; discriminate|]
         end.
  destruct (Qltb f 1) eqn:Hlt.
  - unfold div. now rewrite (proj2 (Qeq_bool_iff f 0) H).
  - apply Qltb_ge in Hlt. rewrite H in Hlt. unfold Qle in Hlt. simpl in Hlt. lia.
Qed.

Lemma int_div_pos (a b : Q) : 0 < b -> int_div a b = Ok (int (a / b)).
Proof.
  intro H. unfold int_div, div. destruct (Qeq_bool b 0) eqn:E; [|reflexivity].
  apply Qeq_bool_eq in E. lra.
Qed.

(** C8, as amended.  For directions without a weekly, biweekly or monthly
    term and without "prn" or "as needed", a multi-dose keyword decides the
    frequency whether or not a generic daily keyword is present: 4 with a
    four-times keyword, else 3 with a three-times keyword, else 2 with a
    twice keyword. *)
Theorem specific_frequency_wins (sig : string) :
  let s := lower sig in
  any_in weekly_terms s = false ->
  any_in biweekly_terms s = false ->
  any_in monthly_terms s = false ->
  contains "prn" s || contains "as needed" s = false ->
  (any_in qid_terms s = true -> _calculate_frequency_per_day sig = 4) /\
  (any_in qid_terms s = false -> any_in tid_terms s = true ->
   _calculate_frequency_per_day sig = 3) /\
  (any_in qid_terms s = false -> any_in tid_terms s = false ->
   any_in bid_terms s = true -> _calculate_frequency_per_day sig = 2).
Proof.
  intros s Hw Hb Hm Hprn. unfold _calculate_frequency_per_day. fold s.
  rewrite Hw, Hb, Hm, Hprn.
  split; [intros ->; reflexivity|].
  split; [intros -> ->; reflexivity|].
  intros -> -> ->; reflexivity.
Qed.

Lemma specific_frequency_wins_witness :
  _calculate_frequency_per_day "twice daily" = 2
  /\ _calculate_frequency_per_day "1 tab TID, daily with food" = 3
  /\ _calculate_frequency_per_day "once daily to QID" = 4.
Proof.
  split; [|split].
  - apply (specific_frequency_wins "twice daily"); vm_compute; reflexivity.
  - apply (specific_frequency_wins "1 tab TID, daily with food"); vm_compute; reflexivity.
  - apply (specific_frequency_wins "once daily to QID"); vm_compute; reflexivity.
Defined.

(** C8, the claim as stated fails: directions with "three times" and
    "daily" that are also "as needed" get the generic 1, and "twice daily"
    with "as needed" gets 1.5; "twice weekly" gets 1/7. *)
Lemma as_needed_overrides_specific_frequency :
  (any_in tid_terms (lower "1 tablet three times daily as needed") = true /\
   any_in daily_terms (lower "1 tablet three times daily as needed") = true /\
   _calculate_frequency_per_day "1 tablet three times daily as needed" = 1) /\
  (any_in bid_terms (lower "2 puffs twice daily as needed") = true /\
   any_in daily_terms (lower "2 puffs twice daily as needed") = true /\
   _calculate_frequency_per_day "2 puffs twice daily as needed" = 1.5) /\
  (any_in bid_terms (lower "once daily, twice weekly at most") = true /\
   any_in daily_terms (lower "once daily, twice weekly at most") = true /\
   _calculate_frequency_per_day "once daily, twice weekly at most" = 1 / 7).
Proof.
  repeat split; vm_compute; reflexivity.
Qed.

(** C10, as amended.  The frequency is never negative; it is at least 1/30
    unless it is the number read by the explicit "N times per day" pattern,
    which can be zero; with a positive frequency and a positive amount per
    dose the guards of the eyedrop and insulin calculators take the
    division, and with a zero frequency they take the 30 days. *)
Theorem frequency_range_and_guards (sig : string) :
  let f := _calculate_frequency_per_day sig in
  0 <= f /\
  (f < 1 / 30 -> search times_per_day (lower sig) = Some f) /\
  (forall total dose : Q,
      0 < f -> 0 < dose ->
      eyedrop_calculated_days total (dose * f) = Ok (int (total / (dose * f))) /\
      insulin_calculated_days total dose f = Ok (int (total / (dose * f)))) /\
  (forall total dose : Q,
      f == 0 ->
      eyedrop_calculated_days total (dose * f) = Ok 30%Z /\
      insulin_calculated_days total dose f = Ok 30%Z).
Proof.
  intro f. split; [apply frequency_nonneg|].
  split.
  { intro H. destruct (frequency_cases sig) as [H' | H']; [|exact H'].
    exfalso. exact (Qlt_not_le _ _ H H'). }
  split.
  - intros total dose Hf Hd.
    assert (Hpos : 0 < dose * f) by (apply Qmult_lt_0_compat; assumption).
    unfold eyedrop_calculated_days, insulin_calculated_days.
    apply Qltb_lt in Hpos. rewrite Hpos. apply Qltb_lt in Hf. rewrite Hf.
    apply Qltb_lt in Hpos. split; apply int_div_pos; exact Hpos.
  - intros total dose Hz.
    unfold eyedrop_calculated_days, insulin_calculated_days.
    assert (H1 : Qltb 0 (dose * f) = false) by (apply Qltb_ge; rewrite Hz; lra).
    assert (H2 : Qltb 0 f = false) by (apply Qltb_ge; lra).
    now rewrite H1, H2.
Qed.

Lemma frequency_range_and_guards_witness :
  search times_per_day (lower "1 drop 0.02 times per day")
  = Some (_calculate_frequency_per_day "1 drop 0.02 times per day").
Proof.
  apply (proj1 (proj2 (frequency_range_and_guards "1 drop 0.02 times per day"))).
  vm_compute. reflexivity.
Defined.

(** C10, the claim as stated fails: "0 times per day" has frequency 0, so
    with the default of one drop per dose the eyedrop guard takes the 30
    days; "0.02 times per day" is positive and below 1/30. *)
Lemma zero_times_per_day :
  _calculate_frequency_per_day "0 times per day" = 0 /\
  ~ 0 < _calculate_frequency_per_day "0 times per day" /\
  get (first_of "drops" (_extract_numbers_from_sig "0 times per day")) 1 = 1 /\
  eyedrop_calculated_days 100
    (1 * _calculate_frequency_per_day "0 times per day") = Ok 30%Z /\
  0 < _calculate_frequency_per_day "1 drop 0.02 times per day" < 1 / 30.
Proof.
  split; [vm_compute; reflexivity|].
  split; [vm_compute; discriminate|].
  split; [vm_compute; reflexivity|].
  split; [vm_compute; reflexivity|].
  split; vm_compute; reflexivity.
Qed.

End FrequencyFacts.

(** ** The insulin and oral-inhaler calculators *)
Module CalculatorClaims.
Import Py Extractor PyFacts MatcherFacts CalculatorFacts OrchestratorFacts FrequencyFacts Examples.

Local Open Scope string_scope.
Local Open Scope Q_scope.



(** The insulin calculator on a positive frequency and dose. *)
Lemma insulin_positive (d : DrugData) (q : Q) (sig : string) (m : option string) :
  0 < _calculate_frequency_per_day sig ->
  0 < insulin_units_per_dose sig ->
  exists t,
    _process_insulin d q sig m
    = Ok (q,
          Z2Q (clampZ
                 (insulin_beyond_use (get (Beyond_Use_Date_Days d) 28%Z)
                    (int (q * Z2Q (if (get (Total_Units_per_Package d) 0 <=? 0)%Z
                                   then 500%Z
                                   else get (Total_Units_per_Package d) 0%Z)
                          / (insulin_units_per_dose sig
                             * _calculate_frequency_per_day sig))))),
          t).
Proof.
  intros Hf Hu. unfold _process_insulin.
  destruct (frequency_text_ok _ Hf) as [t ->]. simpl.
  unfold insulin_calculated_days.
  rewrite (proj2 (Qltb_lt _ _) Hf).
  rewrite int_div_pos by (apply Qmult_lt_0_compat; assumption).
  simpl. eexists. reflexivity.
Qed.




(** The oral calculator never fails before the frequency text. *)
Lemma oral_calculated_days_ok (n : string) (sc : list (string * Z)) (window : Z)
  (total dose freq : Q) :
  exists cd, oral_calculated_days n sc window total dose freq = Ok cd.
Proof.
  unfold oral_calculated_days.
  assert (H : exists z,
             match sc with
             | [] => if Qltb 0 (dose * freq) then int_div total (dose * freq) else Ok 30%Z
             | _ :: _ =>
                 if Qltb 0 (dose * freq)
                 then match lookup (str_of_int (int (dose * freq))) sc with
                      | Some d => Ok d
                      | None => int_div total (dose * freq)
                      end
                 else Ok 30%Z
             end = Ok z).
  { destruct (Qltb 0 (dose * freq)) eqn:E.
    - apply Qltb_lt in E.
      destruct sc; [rewrite int_div_pos by exact E; now eexists|].
      destruct (lookup _ _); [now eexists|].
      rewrite int_div_pos by exact E. now eexists.
    - destruct sc; now eexists. }
  destruct H as [z ->]. simpl.
  destruct (contains "ellipta" n); [now eexists|].
  destruct (is_rescue_inhaler n); [|now eexists].
  destruct (lookup _ _); [now eexists|].
  destruct (lookup _ _); [now eexists|].
  rewrite int_div_pos; [simpl; now eexists|].
  pose proof (max_ge_l 4 (freq * dose)). lra.
Qed.





End CalculatorClaims.

(** ** The nostril phrases of the nasal calculator *)
Module NostrilFacts.
Import Py Extractor PyFacts.

Local Open Scope string_scope.

































End NostrilFacts.

(** ** Facts about strings: case folding and stripping *)
Module StringFacts.
Import Py Catalog.

Lemma lower_char_idem (c : ascii) : lower_char (lower_char c) = lower_char c.
Proof. destruct c as [[] [] [] [] [] [] [] []]; reflexivity. Qed.

Lemma isspace_lower_char (c : ascii) : isspace (lower_char c) = isspace c.
Proof. destruct c as [[] [] [] [] [] [] [] []]; reflexivity. Qed.

Lemma lower_idem (s : string) : lower (lower s) = lower s.
Proof.
  induction s as [|c t IH]; [reflexivity|].
  cbn [lower]. now rewrite lower_char_idem, IH.
Qed.

Lemma lower_lstrip (s : string) : lower (lstrip s) = lstrip (lower s).
Proof.
  induction s as [|c t IH]; [reflexivity|].
  cbn [lower lstrip]. rewrite isspace_lower_char.
  destruct (isspace c); [exact IH | reflexivity].
Qed.

Lemma lower_rstrip (s : string) : lower (rstrip s) = rstrip (lower s).
Proof.
  induction s as [|c t IH]; [reflexivity|].
  cbn [lower rstrip]. rewrite <- IH, isspace_lower_char.
  destruct (rstrip t); cbn [lower]; [destruct (isspace c)|]; reflexivity.
Qed.

Lemma lower_strip (s : string) : lower (strip s) = strip (lower s).
Proof. unfold strip. now rewrite lower_rstrip, lower_lstrip. Qed.

Lemma lstrip_clean_head (s : string) : clean_head (lstrip s).
Proof.
  induction s as [|c t IH]; [exact I|].
  cbn [lstrip]. destruct (isspace c) eqn:E; [exact IH | exact E].
Qed.

Lemma lstrip_of_clean_head (s : string) : clean_head s -> lstrip s = s.
Proof. destruct s as [|c t]; [reflexivity|]. cbn. now intros ->. Qed.

Lemma rstrip_clean_head (s : string) : clean_head s -> clean_head (rstrip s).
Proof.
  destruct s as [|c t]; [intros _; exact I|].
  cbn [clean_head rstrip]. intros E. rewrite E.
  destruct (rstrip t); exact E.
Qed.

Lemma rstrip_idem (s : string) : rstrip (rstrip s) = rstrip s.
Proof.
  induction s as [|c t IH]; [reflexivity|].
  cbn [rstrip]. destruct (rstrip t) as [|a u] eqn:E.
  - destruct (isspace c) eqn:Ec; [reflexivity|]. cbn [rstrip]. now rewrite Ec.
  - change (rstrip (String c (String a u))) with
      (match rstrip (String a u) with
       | EmptyString => if isspace c then EmptyString else String c EmptyString
       | t' => String c t'
       end).
    now rewrite IH.
Qed.

Lemma strip_idem (s : string) : strip (strip s) = strip s.
Proof.
  unfold strip.
  rewrite (lstrip_of_clean_head (rstrip (lstrip s))).
  - apply rstrip_idem.
  - apply rstrip_clean_head, lstrip_clean_head.
Qed.

(** The cleaned form of a name is a fixed point of the cleaning. *)
Lemma clean_idem (s : string) : strip (lower (strip (lower s))) = strip (lower s).
Proof. now rewrite lower_strip, lower_idem, strip_idem. Qed.





End StringFacts.

(** ** Facts about the database construction *)
Module CatalogFacts.
Import Py Extractor Catalog StringFacts.

Local Open Scope string_scope.

Lemma lookup_set_item {A : Type} (k key : string) (v : A) (d : list (string * A)) :
  lookup k (set_item key v d) = if String.eqb k key then Some v else lookup k d.
Proof.
  induction d as [|[k0 v0] rest IH]; cbn [set_item lookup].
  - reflexivity.
  - destruct (String.eqb key k0) eqn:E0; cbn [lookup].
    + apply String.eqb_eq in E0. subst k0.
      destruct (String.eqb k key); reflexivity.
    + rewrite IH. destruct (String.eqb k k0) eqn:E1; [|reflexivity].
      apply String.eqb_eq in E1. subst k0.
      destruct (String.eqb k key) eqn:E2; [|reflexivity].
      apply String.eqb_eq in E2. subst key. rewrite String.eqb_refl in E0. discriminate.
Qed.

Lemma lookup_in {A : Type} (k : string) (d : list (string * A)) :
  In k (map fst d) <-> lookup k d <> None.
Proof.
  induction d as [|[k0 v0] rest IH]; cbn [map fst In lookup].
  - split; [intros [] | intros H; now apply H].
  - destruct (String.eqb k k0) eqn:E.
    + apply String.eqb_eq in E. split; [discriminate | intros _; left; now symmetry].
    + rewrite <- IH. split; [intros [H|H]; [|exact H] | now right].
      subst k0. rewrite String.eqb_refl in E. discriminate.
Qed.

(** The type stored under a key after a list of assignments. *)
Lemma store_type (k : string) (value : MedicationType * DrugData) (keys : list string) :
  forall database,
    option_map fst (lookup k (store value keys database))
    = if existsb (String.eqb k) keys then Some (fst value)
      else option_map fst (lookup k database).
Proof.
  unfold store. induction keys as [|key keys IH]; intros database; cbn [fold_left existsb].
  - reflexivity.
  - rewrite IH, lookup_set_item.
    destruct (String.eqb k key); cbn [orb option_map];
      destruct (existsb (String.eqb k) keys); reflexivity.
Qed.

Lemma add_nasal_store (database : Database) (row : NasalRow) :
  add_nasal database row = store (NASAL_INHALER, nasal_dict row) (nasal_keys row) database.
Proof.
  unfold add_nasal, nasal_keys, store.
  repeat match goal with |- context [if ?b then _ else _] => destruct b end; reflexivity.
Qed.

Lemma add_oral_store (database : Database) (row : OralRow) :
  add_oral database row = store (ORAL_INHALER, oral_dict row) (oral_keys row) database.
Proof.
  unfold add_oral, oral_keys, store.
  repeat match goal with |- context [if ?b then _ else _] => destruct b end; reflexivity.
Qed.

Lemma add_product_store (ty : MedicationType) (database : Database) (row : ProductRow) :
  add_product ty database row = store (ty, product_dict row) (product_keys row) database.
Proof.
  unfold add_product, product_keys, store.
  destruct (Generic_Name row) as [cell|]; [|reflexivity].
  destruct (strip cell); [reflexivity|].
  cbv zeta. destruct (String.eqb _ _); reflexivity.
Qed.

(** The type stored under a key after the loop over one catalog. *)
Lemma loop_type {R : Type} (add : Database -> R -> Database) (keys_of : R -> list string)
  (ty : MedicationType) (dict_of : R -> DrugData) (k : string) :
  (forall database row, add database row = store (ty, dict_of row) (keys_of row) database) ->
  forall rows database,
    option_map fst (lookup k (fold_left add rows database))
    = if lists keys_of rows k then Some ty else option_map fst (lookup k database).
Proof.
  intros Hadd. induction rows as [|row rows IH]; intros database.
  - reflexivity.
  - cbn [fold_left]. rewrite IH, Hadd, store_type. unfold lists. cbn [existsb fst].
    destruct (existsb (String.eqb k) (keys_of row)); cbn [orb];
      destruct (existsb _ rows); reflexivity.
Qed.

Lemma database_type (files : DataFiles) (k : string) :
  option_map fst (lookup k (_create_drug_database files)) = assigned_type files k.
Proof.
  unfold _create_drug_database, assigned_type.
  rewrite (loop_type _ product_keys DIABETIC_INJECTABLE product_dict k
             (add_product_store DIABETIC_INJECTABLE)).
  rewrite (loop_type _ product_keys NONBIOLOGIC_INJECTABLE product_dict k
             (add_product_store NONBIOLOGIC_INJECTABLE)).
  rewrite (loop_type _ product_keys BIOLOGIC_INJECTABLE product_dict k
             (add_product_store BIOLOGIC_INJECTABLE)).
  rewrite (loop_type _ product_keys INSULIN product_dict k (add_product_store INSULIN)).
  rewrite (loop_type _ oral_keys ORAL_INHALER oral_dict k add_oral_store).
  rewrite (loop_type _ nasal_keys NASAL_INHALER nasal_dict k add_nasal_store).
  reflexivity.
Qed.

Lemma database_key (files : DataFiles) (k : string) :
  In k (map fst (_create_drug_database files)) <-> assigned_type files k <> None.
Proof.
  rewrite lookup_in, <- database_type.
  destruct (lookup k (_create_drug_database files)); cbn; split; congruence.
Qed.

Lemma lists_inv {R : Type} (keys_of : R -> list string) (rows : list R) (k : string) :
  lists keys_of rows k = true -> exists row, In row rows /\ In k (keys_of row).
Proof.
  unfold lists. intros H. apply existsb_exists in H as (row & Hin & H).
  apply existsb_exists in H as (k' & Hk & E). apply String.eqb_eq in E. subst k'.
  now exists row.
Qed.

Lemma lists_intro {R : Type} (keys_of : R -> list string) (rows : list R) (k : string)
  (row : R) :
  In row rows -> In k (keys_of row) -> lists keys_of rows k = true.
Proof.
  intros Hin Hk. unfold lists. apply existsb_exists. exists row. split; [exact Hin|].
  apply existsb_exists. exists k. split; [exact Hk | apply String.eqb_refl].
Qed.

Lemma nasal_keys_normal (row : NasalRow) (k : string) :
  In k (nasal_keys row) -> strip (lower k) = k.
Proof.
  unfold nasal_keys. cbv zeta. intros [<-|H]; [apply clean_idem|].
  repeat match type of H with context [if ?b then _ else _] => destruct b end;
    cbn [In] in H; intuition (subst; reflexivity).
Qed.

Lemma oral_keys_normal (row : OralRow) (k : string) :
  In k (oral_keys row) -> strip (lower k) = k.
Proof.
  unfold oral_keys. cbv zeta. intros [<-|H]; [apply clean_idem|].
  repeat match type of H with context [if ?b then _ else _] => destruct b end;
    cbn [In] in H; intuition (subst; reflexivity).
Qed.

Lemma product_keys_normal (row : ProductRow) (k : string) :
  In k (product_keys row) -> strip (lower k) = k.
Proof.
  unfold product_keys. cbv zeta. intros [<-|H]; [apply clean_idem|].
  destruct (Generic_Name row) as [cell|]; [|destruct H].
  destruct (strip cell); [destruct H|].
  destruct (String.eqb _ _); [destruct H|].
  destruct H as [<-|[]]. apply clean_idem.
Qed.

Lemma assigned_type_inv (files : DataFiles) (k : string) (ty : MedicationType) :
  assigned_type files k = Some ty ->
  strip (lower k) = k /\
  (ty = NASAL_INHALER \/ ty = ORAL_INHALER \/ ty = INSULIN \/ ty = BIOLOGIC_INJECTABLE
   \/ ty = NONBIOLOGIC_INJECTABLE \/ ty = DIABETIC_INJECTABLE).
Proof.
  unfold assigned_type. intros H.
  repeat match type of H with
         | context [if ?b then _ else _] =>
             let E := fresh "E" in destruct b eqn:E
         end;
    try discriminate; injection H as <-;
    match goal with
    | E : lists _ _ _ = true |- _ => apply lists_inv in E as (row & _ & Hk)
    end;
    (split;
     [ first [ exact (product_keys_normal _ _ Hk) | exact (oral_keys_normal _ _ Hk)
             | exact (nasal_keys_normal _ _ Hk) ]
     | tauto ]).
Qed.

Lemma set_item_keys {A : Type} (k key : string) (v : A) (d : list (string * A)) :
  In k (map fst (set_item key v d)) <-> k = key \/ In k (map fst d).
Proof.
  rewrite !lookup_in, lookup_set_item.
  destruct (String.eqb k key) eqn:E.
  - apply String.eqb_eq in E. split; [now left | discriminate].
  - apply String.eqb_neq in E. tauto.
Qed.

Lemma set_item_nodup {A : Type} (key : string) (v : A) (d : list (string * A)) :
  NoDup (map fst d) -> NoDup (map fst (set_item key v d)).
Proof.
  induction d as [|[k0 v0] rest IH]; cbn [set_item map fst]; intros H.
  - constructor; [intros [] | constructor].
  - inversion H as [|? ? Hn Hr]; subst.
    destruct (String.eqb key k0) eqn:E; cbn [map fst].
    + exact H.
    + constructor; [|exact (IH Hr)].
      rewrite set_item_keys. intros [->|Hin]; [|exact (Hn Hin)].
      rewrite String.eqb_refl in E. discriminate.
Qed.

Lemma store_nodup (value : MedicationType * DrugData) (keys : list string) :
  forall database, NoDup (map fst database) -> NoDup (map fst (store value keys database)).
Proof.
  unfold store. induction keys as [|key keys IH]; intros database H; cbn [fold_left].
  - exact H.
  - apply IH, set_item_nodup, H.
Qed.

Lemma loop_nodup {R : Type} (add : Database -> R -> Database) :
  (forall database row, NoDup (map fst database) -> NoDup (map fst (add database row))) ->
  forall rows database,
    NoDup (map fst database) -> NoDup (map fst (fold_left add rows database)).
Proof.
  intros Hadd. induction rows as [|row rows IH]; intros database H; cbn [fold_left].
  - exact H.
  - apply IH, Hadd, H.
Qed.

Lemma database_nodup (files : DataFiles) : NoDup (map fst (_create_drug_database files)).
Proof.
  unfold _create_drug_database.
  repeat (apply loop_nodup;
          [ intros database row H;
            first [ rewrite add_product_store | rewrite add_oral_store
                  | rewrite add_nasal_store ];
            apply store_nodup, H | ]).
  constructor.
Qed.

End CatalogFacts.

(** ** Properties of the database the constructor builds *)
Module CatalogProperties.
Import Py Extractor Catalog CatalogExamples StringFacts CatalogFacts.
Import MatcherFacts OrchestratorFacts.

Local Open Scope string_scope.
Local Open Scope Q_scope.

(** X1.  A name listed by several catalogs is classified by the last one
    in the order of the loops: the type stored under a key is the type of
    the last catalog (nasal, oral, insulin, biologic, non-biologic,
    diabetic) one of whose rows is stored under it, and a key no row is
    stored under is absent.  In particular a diabetic product keeps the
    diabetic type whatever the other catalogs list. *)
Theorem database_classifies_by_last_catalog (files : DataFiles) :
  (forall key,
      option_map fst (lookup key (_create_drug_database files))
      = assigned_type files key) /\
  (forall row,
      In row (diabetic_injectables files) ->
      exists dict,
        lookup (strip (lower (Proprietary_Name row))) (_create_drug_database files)
        = Some (DIABETIC_INJECTABLE, dict)).
Proof.
  split.
  - intros key. apply database_type.
  - intros row Hin.
    pose proof (database_type files (strip (lower (Proprietary_Name row)))) as H.
    unfold assigned_type in H.
    rewrite (lists_intro product_keys _ _ row Hin) in H by (left; reflexivity).
    destruct (lookup _ (_create_drug_database files)) as [[ty dict]|]; [|discriminate].
    cbn in H. injection H as ->. now exists dict.
Qed.

(** X2.  The keys of the database are pairwise different, and each is in
    the cleaned form the matcher compares with: lower-casing and stripping
    it changes nothing. *)
Theorem database_keys_are_clean (files : DataFiles) :
  NoDup (map fst (_create_drug_database files)) /\
  Forall (fun key => strip (lower key) = key) (map fst (_create_drug_database files)).
Proof.
  split; [apply database_nodup|].
  apply Forall_forall. intros key Hin.
  apply database_key in Hin.
  destruct (assigned_type files key) as [ty|] eqn:E; [|now elim Hin].
  apply (assigned_type_inv files key ty E).
Qed.



(** X4.  No extraction over a database built by the constructor returns
    the eyedrop or the topical type: no catalog stores them.  The unknown
    type is returned only for a rejected request or for the empty key. *)
Theorem built_database_never_eyedrop_or_topical (files : DataFiles)
  (guidelines : list EyedropGuideline) (beyond_use : list (string * Z))
  (ftu : list FtuRow) (rx : PrescriptionInput) (e : ExtractedData) :
  extract_prescription_data (PrescriptionDataExtractor files guidelines beyond_use ftu) rx
  = Ok e ->
  medication_type e <> EYEDROP /\
  medication_type e <> TOPICAL /\
  (medication_type e = UNKNOWN ->
   matched_drug_name e = None \/ matched_drug_name e = Some "").
Proof.
  set (self := PrescriptionDataExtractor files guidelines beyond_use ftu).
  intros He.
  destruct (_fuzzy_match_drug_name self (drug_name rx) 0.6) as [m c] eqn:Em.
  assert (Hrej : m = None \/ c < 0.80 ->
                 extract_prescription_data self rx
                 = Ok (_create_unsupported_medication_result rx)).
  { intros H. apply extract_unmatched. now rewrite Em. }
  destruct m as [name|].
  2:{ rewrite Hrej in He by now left. injection He as <-. cbn.
      repeat split; try discriminate. now left. }
  destruct (Qlt_le_dec c 0.80) as [Hlt|Hle].
  { rewrite Hrej in He by now right. injection He as <-. cbn.
    repeat split; try discriminate. now left. }
  rewrite (extract_matched self rx name c Em Hle) in He.
  destruct (entry_of self (Some name)) as [ty dict] eqn:Ee.
  destruct (try_dispatch self ty dict rx (Some name)) as [[[cq ds] t]|err]; [|discriminate].
  cbn [bind] in He. injection He as <-. cbn.
  unfold entry_of in Ee. destruct name as [|ch rest].
  { injection Ee as <- <-. repeat split; try discriminate. now right. }
  change (drug_database self) with (_create_drug_database files) in Ee.
  pose proof (database_type files (String ch rest)) as Hty.
  destruct (lookup (String ch rest) (_create_drug_database files)) as [[ty' dict']|] eqn:El.
  - injection Ee as -> ->. cbn in Hty. symmetry in Hty.
    destruct (assigned_type_inv files _ _ Hty) as (_ & Hsix).
    repeat split; intros ->;
      repeat (destruct Hsix as [Hsix|Hsix]; try discriminate).
  - exfalso.
    unfold _fuzzy_match_drug_name in Em.
    destruct (match_loop_key _ _ _ _ _ _ Em) as [Hin|Hbest]; [|discriminate].
    change (drug_database self) with (_create_drug_database files) in Hin.
    apply lookup_in in Hin. now apply Hin.
Qed.

Lemma built_database_never_eyedrop_or_topical_witness :
  exists e,
    extract_prescription_data extractor
      (Examples.request "Flonase" (QInt 1) "2 sprays in each nostril daily") = Ok e /\
    medication_type e <> EYEDROP /\
    medication_type e <> TOPICAL /\
    (medication_type e = UNKNOWN ->
     matched_drug_name e = None \/ matched_drug_name e = Some "").
Proof.
  eexists. split; [vm_compute; reflexivity|].
  apply (built_database_never_eyedrop_or_topical files [] [] []
           (Examples.request "Flonase" (QInt 1) "2 sprays in each nostril daily")).
  vm_compute. reflexivity.
Defined.

End CatalogProperties.

(** ** Exceptions and monotonicity of the calculators: supporting facts *)
Module CalculatorSupport.
Import Py Extractor PyFacts CalculatorFacts FrequencyFacts.

Local Open Scope string_scope.
Local Open Scope Q_scope.

Lemma Qeq_bool_false (x y : Q) : ~ x == y -> Qeq_bool x y = false.
Proof.
  intros H. destruct (Qeq_bool x y) eqn:E; [|reflexivity].
  apply Qeq_bool_eq in E. contradiction.
Qed.

Lemma frequency_text_nonzero (f : Q) : ~ f == 0 -> exists t, _frequency_to_text f = Ok t.
Proof.
  intro H. unfold _frequency_to_text.
  repeat match goal with
         | |- context [if ?c then _ else _] => destruct c; [now eexists|]
         end.
  destruct (Qltb f 1); [|now eexists].
  unfold div. rewrite (Qeq_bool_false f 0 H). cbn [bind]. now eexists.
Qed.

Lemma frequency_text_raise_inv (f : Q) (e : exn) :
  _frequency_to_text f = Raise e -> e = ZeroDivisionError /\ f == 0.
Proof.
  intros H. destruct (Qeq_dec f 0) as [E|E].
  - rewrite (frequency_text_zero f E) in H. now injection H as <-.
  - destruct (frequency_text_nonzero f E) as (t & Ht). congruence.
Qed.

Lemma frequency_pos (sig : string) :
  ~ _calculate_frequency_per_day sig == 0 -> 0 < _calculate_frequency_per_day sig.
Proof.
  intros H. pose proof (frequency_nonneg sig) as H0.
  apply Qle_lteq in H0 as [H0|H0]; [exact H0|]. elim H. now symmetry.
Qed.

Lemma div_zero (a b : Q) : b == 0 -> div a b = Raise ZeroDivisionError.
Proof. intros H. unfold div. now rewrite (proj2 (Qeq_bool_iff b 0) H). Qed.

Lemma div_nonzero (a b : Q) : ~ b == 0 -> div a b = Ok (a / b).
Proof. intros H. unfold div. now rewrite (Qeq_bool_false b 0 H). Qed.

(** [int] is monotone. *)
Lemma int_mono (a b : Q) : a <= b -> (int a <= int b)%Z.
Proof.
  unfold Qle, int. destruct a as [na da], b as [nb db]. cbn [Qnum Qden]. intros H.
  rewrite <- (Z.quot_mul_cancel_r na (Zpos da) (Zpos db)) by lia.
  rewrite <- (Z.quot_mul_cancel_r nb (Zpos db) (Zpos da)) by lia.
  rewrite (Z.mul_comm (Zpos db) (Zpos da)).
  apply Z.quot_le_mono; lia.
Qed.

Lemma div_mono (a b d : Q) : 0 < d -> a <= b -> a / d <= b / d.
Proof.
  intros Hd H. unfold Qdiv. apply Qmult_le_compat_r; [exact H|].
  apply Qlt_le_weak, Qinv_lt_0_compat, Hd.
Qed.

Lemma max_ge_r (a b : Q) : b <= Py.max a b.
Proof. destruct (max_cases a b) as [[H ->]|[H ->]]; [apply Qle_refl | exact H]. Qed.

Lemma min_mono (a a' b : Q) : a <= a' -> Py.min a b <= Py.min a' b.
Proof.
  intros H. apply min_glb.
  - apply Qle_trans with a; [apply min_le_l | exact H].
  - apply min_le_r.
Qed.

Lemma clamp_mono (x y : Q) : x <= y -> clamp x <= clamp y.
Proof.
  intros H. unfold clamp. apply max_lub.
  - apply max_ge_l.
  - apply Qle_trans with (Py.min y 365); [now apply min_mono | apply max_ge_r].
Qed.

Lemma clampZ_mono (x y : Z) : (x <= y)%Z -> (clampZ x <= clampZ y)%Z.
Proof. unfold clampZ. lia. Qed.

Lemma insulin_beyond_use_mono (window x y : Z) :
  (x <= y)%Z -> (insulin_beyond_use window x <= insulin_beyond_use window y)%Z.
Proof.
  unfold insulin_beyond_use. intros H.
  destruct (window <? x)%Z eqn:E1, (window <? y)%Z eqn:E2, (0 <? window)%Z eqn:E3;
    cbn [andb]; lia.
Qed.

Lemma insulin_beyond_use_le (window x : Z) :
  (0 < window)%Z -> (insulin_beyond_use window x <= window)%Z.
Proof.
  unfold insulin_beyond_use. intros H.
  destruct (window <? x)%Z eqn:E1, (0 <? window)%Z eqn:E3; cbn [andb]; lia.
Qed.

Lemma first_of_nonneg (unit : string) (sig : string) (v : Q) :
  first_of unit (_extract_numbers_from_sig sig) = Some v -> 0 <= v.
Proof.
  unfold first_of, _extract_numbers_from_sig.
  generalize patterns. intros ps. induction ps as [|[u tail] ps IH]; cbn [flat_map].
  - discriminate.
  - cbn [fst snd]. destruct (findall tail (lower sig)) as [|v0 vs] eqn:E; cbn [app].
    + exact IH.
    + cbn [lookup]. destruct (String.eqb unit u).
      * intros H. injection H as <-.
        apply (findall_from_nonneg tail (lower sig) 0). unfold findall in E.
        rewrite E. now left.
      * exact IH.
Qed.

Lemma insulin_units_nonneg (sig : string) : 0 <= insulin_units_per_dose sig.
Proof.
  unfold insulin_units_per_dose.
  destruct (first_of "units" (_extract_numbers_from_sig sig)) as [v|] eqn:E; cbn [get].
  - exact (first_of_nonneg _ _ _ E).
  - unfold Qle; simpl; lia.
Qed.

Lemma Qpos_of_nonneg (x : Q) : 0 <= x -> ~ x == 0 -> 0 < x.
Proof.
  intros H0 H. apply Qle_lteq in H0 as [H0|H0]; [exact H0|]. elim H. now symmetry.
Qed.

(** The adjustment for the device family keeps a zero frequency zero and a
    non-zero frequency non-zero. *)
Lemma oral_frequency_zero (n sig : string) :
  snd (oral_dose_and_frequency n sig) == 0 <-> _calculate_frequency_per_day sig == 0.
Proof.
  unfold oral_dose_and_frequency. cbv zeta.
  set (f := _calculate_frequency_per_day sig).
  destruct (contains "ellipta" n).
  - cbn [snd]. destruct (Qltb 1 f) eqn:E; [|reflexivity].
    apply Qltb_lt in E. split; intros H.
    + exfalso. revert H. unfold Qeq. simpl. lia.
    + rewrite H in E. exfalso. revert E. unfold Qlt. simpl. lia.
  - destruct (contains "handihaler" n || contains "twisthaler" n); [|reflexivity].
    cbn [snd]. destruct (Qltb 2 f) eqn:E; [|reflexivity].
    unfold Py.min. rewrite E. apply Qltb_lt in E. split; intros H.
    + exfalso. revert H. unfold Qeq. simpl. lia.
    + rewrite H in E. exfalso. revert E. unfold Qlt. simpl. lia.
Qed.

Lemma nasal_formula_days_ok (sc : list (string * Z)) (total daily : Q) (sig : string) :
  exists z, nasal_formula_days sc total daily sig = Ok z.
Proof.
  unfold nasal_formula_days.
  assert (Hd : Qltb 0 daily = true -> exists z, int_div total daily = Ok z).
  { intros E. apply Qltb_lt in E. rewrite (int_div_pos _ _ E). now eexists. }
  destruct (Qltb 0 daily) eqn:E.
  2:{ destruct sc; now eexists. }
  specialize (Hd eq_refl).
  destruct sc as [|p sc']; [exact Hd|].
  destruct (lookup _ (p :: sc')); [now eexists|].
  unfold nasal_corrected_usage.
  repeat match goal with
         | |- context [if ?c then _ else _] => destruct c
         end;
    try exact Hd;
    (destruct (lookup _ (p :: sc')); [now eexists|]; rewrite int_div_pos;
     [now eexists | unfold Z2Q, Qlt; simpl; lia]).
Qed.

(** With a zero frequency every rule-based calculator raises. *)
Lemma zero_frequency_raises (self : Extractor) (d : DrugData) (q : Q) (sig : string)
  (m : option string) :
  _calculate_frequency_per_day sig == 0 ->
  _process_nasal_inhaler d q sig m = Raise ZeroDivisionError /\
  _process_oral_inhaler d q sig m = Raise ZeroDivisionError /\
  _process_insulin d q sig m = Raise ZeroDivisionError /\
  _process_diabetic_injectable d q sig m = Raise ZeroDivisionError /\
  _process_topical_ftu self (QFloat q) sig = Raise ZeroDivisionError.
Proof.
  intros Ef. repeat split.
  - unfold _process_nasal_inhaler. cbv zeta. now rewrite (frequency_text_zero _ Ef).
  - pose proof (proj2 (oral_frequency_zero (name_lower m) sig) Ef) as Hz.
    unfold _process_oral_inhaler. cbv zeta.
    destruct (oral_dose_and_frequency (name_lower m) sig) as [p f'].
    now rewrite (frequency_text_zero f' Hz).
  - unfold _process_insulin. cbv zeta. now rewrite (frequency_text_zero _ Ef).
  - unfold _process_diabetic_injectable. cbv zeta. rewrite (frequency_text_zero _ Ef).
    match goal with
    | |- bind ?calc _ = _ =>
        assert (H : exists z, calc = Ok z \/ calc = Raise ZeroDivisionError)
    end.
    { repeat match goal with
             | |- context [if ?c then _ else _] => destruct c
             end;
        try (eexists; left; reflexivity).
      unfold int_div. rewrite div_zero by exact Ef. exists 0%Z. now right. }
    destruct H as (z & [-> | ->]); reflexivity.
  - unfold _process_topical_ftu. cbv zeta. rewrite (frequency_text_zero _ Ef).
    cbn [topical_quantity_grams float_of_quantity bind].
    match goal with
    | |- context [if Qltb 0 ?x then _ else _] => destruct (Qltb 0 x) eqn:E
    end; [|reflexivity].
    apply Qltb_lt in E. rewrite (int_div_pos _ _ E). reflexivity.
Qed.

End CalculatorSupport.

(** ** When the calculators raise, and what they return otherwise *)
Module CalculatorProperties.
Import Py Extractor Examples PyFacts CalculatorFacts FrequencyFacts CalculatorSupport.

Local Open Scope string_scope.
Local Open Scope Q_scope.

(** In exact arithmetic [_frequency_to_text] fails for the frequency zero
    only, where [1 / frequency] divides by zero. *)
Lemma frequency_text_cases (f : Q) :
  (f == 0 -> _frequency_to_text f = Raise ZeroDivisionError) /\
  (~ f == 0 -> exists t, _frequency_to_text f = Ok t) /\
  (0 < f -> f < 1 ->
   exists t, _frequency_to_text f = Ok t /\
     (t = [Lit "once weekly"] \/ t = [Lit "every other week"] \/ t = [Lit "once monthly"]
      \/ exists days, t = [Lit "every "; Int days; Lit " days"] /\ (1 <= days)%Z)).
Proof.
  split; [apply frequency_text_zero|]. split; [apply frequency_text_nonzero|].
  intros H0 H1. unfold _frequency_to_text.
  repeat match goal with
         | |- context [if Qeq_bool f ?k then _ else _] =>
             let E := fresh "E" in
             destruct (Qeq_bool f k) eqn:E;
             [ try (apply Qeq_bool_eq in E; rewrite E in H1; exfalso; revert H1;
                    unfold Qlt; simpl; lia);
               try (eexists; split; [reflexivity|]; tauto) |]
         end.
  rewrite (proj2 (Qltb_lt f 1) H1).
  rewrite div_nonzero by (intros E'; rewrite E' in H0; revert H0; unfold Qlt; simpl; lia).
  cbn [bind]. eexists. split; [reflexivity|]. do 3 right. eexists. split; [reflexivity|].
  change 1%Z with (int 1). apply int_mono.
  apply Qle_shift_div_l; [exact H0|]. rewrite Qmult_1_l. now apply Qlt_le_weak.
Qed.

(** X5.  [_frequency_to_text] raises [ZeroDivisionError] for the
    frequency zero, where [1 / frequency] divides by zero, and returns a
    text for every frequency of at least 1.  Whenever it returns, the
    frequency is not zero; for a frequency between 0 and 1 the text is one
    of the three named intervals or "every N days" with [N] at least 1. *)
Theorem frequency_text_zero_and_shape (f : Q) :
  (f == 0 -> _frequency_to_text f = Raise ZeroDivisionError) /\
  (1 <= f -> exists t, _frequency_to_text f = Ok t) /\
  (forall t, _frequency_to_text f = Ok t ->
     ~ f == 0 /\
     (0 < f -> f < 1 ->
      t = [Lit "once weekly"] \/ t = [Lit "every other week"] \/ t = [Lit "once monthly"]
      \/ exists days, t = [Lit "every "; Int days; Lit " days"] /\ (1 <= days)%Z)).
Proof.
  destruct (frequency_text_cases f) as (Hz & Hnz & Hs).
  split; [exact Hz|]. split.
  - intros H1. apply Hnz. intros E. rewrite E in H1. revert H1. unfold Qle. simpl. lia.
  - intros t Ht. split.
    + intros E. rewrite (Hz E) in Ht. discriminate.
    + intros H0 H1. destruct (Hs H0 H1) as (t' & Ht' & Hshape).
      rewrite Ht' in Ht. injection Ht as <-. exact Hshape.
Qed.

Lemma frequency_text_zero_and_shape_witness :
  _frequency_to_text 0 = Raise ZeroDivisionError.
Proof.
  apply (proj1 (frequency_text_zero_and_shape 0)). reflexivity.
Defined.

(** In exact arithmetic [_process_insulin] fails when the parsed frequency
    or the parsed units per dose is zero, and only then. *)
Lemma insulin_cases (d : DrugData) (q : Q) (sig : string) (m : option string) :
  let f := _calculate_frequency_per_day sig in
  let dose := insulin_units_per_dose sig in
  let window := get (Beyond_Use_Date_Days d) 28%Z in
  (f == 0 \/ dose == 0 -> _process_insulin d q sig m = Raise ZeroDivisionError) /\
  (~ f == 0 -> ~ dose == 0 ->
   exists ds t,
     _process_insulin d q sig m = Ok (q, Z2Q ds, t) /\
     (7 <= ds <= 365)%Z /\
     ((0 < window)%Z -> (ds <= Z.max 7 window)%Z)).
Proof.
  intros f dose window. split.
  - intros H. unfold _process_insulin. cbv zeta. fold f dose.
    destruct (Qeq_dec f 0) as [Ef|Ef].
    + now rewrite (frequency_text_zero f Ef).
    + destruct H as [H|H]; [contradiction|].
      destruct (frequency_text_nonzero f Ef) as (t & ->). cbn [bind].
      unfold insulin_calculated_days.
      rewrite (proj2 (Qltb_lt 0 f) (frequency_pos sig Ef)).
      unfold int_div. rewrite div_zero; [reflexivity|]. rewrite H. apply Qmult_0_l.
  - intros Ef Ed.
    assert (Hf : 0 < f) by exact (frequency_pos sig Ef).
    assert (Hd : 0 < dose) by exact (Qpos_of_nonneg _ (insulin_units_nonneg sig) Ed).
    unfold _process_insulin. cbv zeta. fold f dose window.
    destruct (frequency_text_nonzero f Ef) as (t & ->). cbn [bind].
    unfold insulin_calculated_days. rewrite (proj2 (Qltb_lt 0 f) Hf).
    rewrite int_div_pos by (apply Qmult_lt_0_compat; assumption).
    cbn [bind]. do 2 eexists. split; [reflexivity|]. split; [apply clampZ_range|].
    intros Hw. unfold clampZ.
    pose proof (insulin_beyond_use_le window
                  (int (q * Z2Q (if (get (Total_Units_per_Package d) 0 <=? 0)%Z
                                 then 500%Z else get (Total_Units_per_Package d) 0%Z)
                        / (dose * f))) Hw).
    lia.
Qed.

(** X6.  [_process_insulin] raises when the parsed frequency or the parsed
    units per dose is zero.  Whenever it returns, neither is zero, the
    quantity is returned unchanged, and the day supply is a whole number
    between 7 and 365 that a positive beyond-use window caps at the longer
    of the window and a week. *)
Theorem insulin_result_and_exceptions (d : DrugData) (q : Q) (sig : string)
  (m : option string) :
  let f := _calculate_frequency_per_day sig in
  let dose := insulin_units_per_dose sig in
  let window := get (Beyond_Use_Date_Days d) 28%Z in
  (f == 0 \/ dose == 0 -> exists err, _process_insulin d q sig m = Raise err) /\
  (forall cq ds t,
     _process_insulin d q sig m = Ok (cq, ds, t) ->
     ~ f == 0 /\ ~ dose == 0 /\ cq = q /\
     exists z, ds = Z2Q z /\ (7 <= z <= 365)%Z /\
               ((0 < window)%Z -> (z <= Z.max 7 window)%Z)).
Proof.
  intros f dose window.
  pose proof (insulin_cases d q sig m) as H. cbv zeta in H. fold f dose window in H.
  destruct H as (Hz & Hnz). split.
  - intros H. exists ZeroDivisionError. now apply Hz.
  - intros cq ds t Hr.
    assert (Ef : ~ f == 0).
    { intros E. rewrite (Hz (or_introl E)) in Hr. discriminate. }
    assert (Ed : ~ dose == 0).
    { intros E. rewrite (Hz (or_intror E)) in Hr. discriminate. }
    destruct (Hnz Ef Ed) as (z & t' & Hr' & Hrange & Hw).
    rewrite Hr' in Hr. injection Hr as <- <- <-.
    split; [exact Ef|]. split; [exact Ed|]. split; [reflexivity|].
    exists z. split; [reflexivity|]. split; assumption.
Qed.

Lemma insulin_result_and_exceptions_witness :
  exists err,
    _process_insulin (insulin_row 300) 5 "0 units daily" (Some "humalog") = Raise err.
Proof.
  apply (proj1 (insulin_result_and_exceptions (insulin_row 300) 5 "0 units daily"
                  (Some "humalog"))).
  right. reflexivity.
Defined.

(** In exact arithmetic [_process_oral_inhaler] fails when the parsed
    frequency is zero, and only then. *)
Lemma oral_cases (d : DrugData) (q : Q) (sig : string) (m : option string) :
  let f := _calculate_frequency_per_day sig in
  (f == 0 -> _process_oral_inhaler d q sig m = Raise ZeroDivisionError) /\
  (~ f == 0 ->
   exists ds t, _process_oral_inhaler d q sig m = Ok (q, ds, t) /\ 7 <= ds <= 365).
Proof.
  intros f.
  pose proof (oral_frequency_zero (name_lower m) sig) as Hz.
  unfold _process_oral_inhaler. cbv zeta.
  destruct (oral_dose_and_frequency (name_lower m) sig) as [p f'] eqn:Edf.
  cbn [snd] in Hz. split.
  - intros Ef. now rewrite (frequency_text_zero f' (proj2 Hz Ef)).
  - intros Ef.
    assert (Ef' : ~ f' == 0) by (intros H; apply Ef, Hz, H).
    destruct (frequency_text_nonzero f' Ef') as (t & ->). cbn [bind].
    destruct (CalculatorClaims.oral_calculated_days_ok (name_lower m)
                (Example_Days_Supply_Scenarios d)
                (get (Discard_After_Opening_Days d) 0%Z)
                (q * Z2Q (if (get (Retail_Puffs_per_Package d) 0 <=? 0)%Z
                          then 200%Z else get (Retail_Puffs_per_Package d) 0%Z))
                p f') as (cd & ->).
    cbn [bind]. do 2 eexists. split; [reflexivity | apply clamp_range].
Qed.

(** X7.  [_process_oral_inhaler] raises when the parsed frequency is zero.
    Whenever it returns, the frequency is not zero, the quantity is
    returned unchanged and the day supply lies between 7 and 365. *)
Theorem oral_result_and_exceptions (d : DrugData) (q : Q) (sig : string)
  (m : option string) :
  let f := _calculate_frequency_per_day sig in
  (f == 0 -> exists err, _process_oral_inhaler d q sig m = Raise err) /\
  (forall cq ds t,
     _process_oral_inhaler d q sig m = Ok (cq, ds, t) ->
     ~ f == 0 /\ cq = q /\ 7 <= ds <= 365).
Proof.
  intros f.
  pose proof (oral_cases d q sig m) as H. cbv zeta in H. fold f in H.
  destruct H as (Hz & Hnz). split.
  - intros E. exists ZeroDivisionError. now apply Hz.
  - intros cq ds t Hr.
    assert (Ef : ~ f == 0).
    { intros E. rewrite (Hz E) in Hr. discriminate. }
    destruct (Hnz Ef) as (ds' & t' & Hr' & Hrange).
    rewrite Hr' in Hr. injection Hr as <- <- <-.
    split; [exact Ef|]. split; [reflexivity | exact Hrange].
Qed.

Lemma oral_result_and_exceptions_witness :
  exists err,
    _process_oral_inhaler (oral_row 60 30) 1 "2 puffs 0 times per day" (Some "alvesco")
    = Raise err.
Proof.
  apply (proj1 (oral_result_and_exceptions (oral_row 60 30) 1 "2 puffs 0 times per day"
                  (Some "alvesco"))).
  reflexivity.
Defined.

(** In exact arithmetic [_process_nasal_inhaler] fails when the parsed
    frequency is zero or a quantity above 10 is divided by a package size
    of zero, and only then. *)
Lemma nasal_cases (d : DrugData) (q : Q) (sig : string) (m : option string) :
  let f := _calculate_frequency_per_day sig in
  let size := get (Package_Size_Value d) 15 in
  (f == 0 \/ (10 < q /\ size == 0) ->
   _process_nasal_inhaler d q sig m = Raise ZeroDivisionError) /\
  (~ f == 0 -> (10 < q -> ~ size == 0) ->
   exists ds t,
     _process_nasal_inhaler d q sig m
     = Ok ((if Qltb 10 q then q / size else q), Z2Q ds, t) /\ (1 <= ds)%Z).
Proof.
  intros f size. split.
  - intros H. unfold _process_nasal_inhaler. cbv zeta. fold f size.
    destruct (Qeq_dec f 0) as [Ef|Ef].
    + now rewrite (frequency_text_zero f Ef).
    + destruct H as [H|[Hq Hs]]; [contradiction|].
      destruct (frequency_text_nonzero f Ef) as (t & ->). cbn [bind].
      rewrite (proj2 (Qltb_lt 10 q) Hq). now rewrite (div_zero q size Hs).
  - intros Ef Hs.
    assert (exists cq ds t, _process_nasal_inhaler d q sig m = Ok (cq, ds, t)
                            /\ cq = (if Qltb 10 q then q / size else q)) as
        (cq & ds & t & Hr & ->).
    { unfold _process_nasal_inhaler. cbv zeta. fold f size.
      destruct (frequency_text_nonzero f Ef) as (t & ->). cbn [bind].
      destruct (Qltb 10 q) eqn:Eq.
      - rewrite div_nonzero by (apply Hs, Qltb_lt, Eq). cbn [bind].
        match goal with
        | |- context [nasal_formula_days ?a ?b ?c ?s] =>
            destruct (nasal_formula_days_ok a b c s) as (z & ->)
        end.
        cbn [bind]. now do 3 eexists.
      - cbn [bind].
        match goal with
        | |- context [nasal_formula_days ?a ?b ?c ?s] =>
            destruct (nasal_formula_days_ok a b c s) as (z & ->)
        end.
        cbn [bind]. now do 3 eexists. }
    destruct (nasal_result d q sig m _ ds t Hr) as (z & -> & Hz & _).
    now exists z, t.
Qed.

(** X8.  [_process_nasal_inhaler] raises when the parsed frequency is
    zero, or when a quantity above 10 is divided by a package size of zero.
    Whenever it returns, neither is the case, the day supply is a whole
    number of at least 1, and a quantity of at most 10 is returned
    unchanged. *)
Theorem nasal_result_and_exceptions (d : DrugData) (q : Q) (sig : string)
  (m : option string) :
  let f := _calculate_frequency_per_day sig in
  let size := get (Package_Size_Value d) 15 in
  (f == 0 \/ (10 < q /\ size == 0) ->
   exists err, _process_nasal_inhaler d q sig m = Raise err) /\
  (forall cq ds t,
     _process_nasal_inhaler d q sig m = Ok (cq, ds, t) ->
     ~ f == 0 /\ (10 < q -> ~ size == 0) /\ (q <= 10 -> cq = q) /\
     exists z, ds = Z2Q z /\ (1 <= z)%Z).
Proof.
  intros f size.
  pose proof (nasal_cases d q sig m) as H. cbv zeta in H. fold f size in H.
  destruct H as (Hz & Hnz). split.
  - intros H. exists ZeroDivisionError. now apply Hz.
  - intros cq ds t Hr.
    assert (Ef : ~ f == 0).
    { intros E. rewrite (Hz (or_introl E)) in Hr. discriminate. }
    assert (Es : 10 < q -> ~ size == 0).
    { intros Hq E. rewrite (Hz (or_intror (conj Hq E))) in Hr. discriminate. }
    destruct (Hnz Ef Es) as (z & t' & Hr' & Hpos).
    rewrite Hr' in Hr. injection Hr as <- <- <-.
    split; [exact Ef|]. split; [exact Es|]. split.
    + intros Hq. now rewrite (proj2 (Qltb_ge 10 q) Hq).
    + exists z. split; [reflexivity | exact Hpos].
Qed.

Lemma nasal_result_and_exceptions_witness :
  exists err,
    _process_nasal_inhaler (nasal_row 120) 1 "1 spray 0 times per day" (Some "flonase")
    = Raise err.
Proof.
  apply (proj1 (nasal_result_and_exceptions (nasal_row 120) 1 "1 spray 0 times per day"
                  (Some "flonase"))).
  left. reflexivity.
Defined.

End CalculatorProperties.

(** ** The injectable and topical calculators *)
Module InjectableProperties.
Import Py Extractor Examples PyFacts CalculatorFacts FrequencyFacts CalculatorSupport.
Import StringFacts.

Local Open Scope string_scope.
Local Open Scope Q_scope.














End InjectableProperties.

(** ** Degraded results and monotonicity in the quantity *)
Module QuantityProperties.
Import Py Extractor Examples PyFacts CalculatorFacts FrequencyFacts CalculatorSupport.
Import OrchestratorFacts.

Local Open Scope string_scope.
Local Open Scope Q_scope.

(** X13.  A matched request whose directions parse to the frequency zero
    (an explicit "0 times per day") never gets a calculated supply: for a
    nasal, oral, insulin, diabetic or topical product the calculator
    raises, and the extraction returns the fallback of 30 days with the
    directions unchanged. *)
Theorem zero_frequency_request_degrades (self : Extractor) (rx : PrescriptionInput)
  (name : string) (c : Q) (ty : MedicationType) (d : DrugData) (v : Q) :
  _fuzzy_match_drug_name self (drug_name rx) 0.6 = (Some name, c) ->
  0.80 <= c ->
  entry_of self (Some name) = (ty, d) ->
  ty = NASAL_INHALER \/ ty = ORAL_INHALER \/ ty = INSULIN \/ ty = DIABETIC_INJECTABLE
  \/ ty = TOPICAL ->
  float_of_quantity (quantity rx) = Ok v ->
  _calculate_frequency_per_day (sig_directions rx) == 0 ->
  exists e,
    extract_prescription_data self rx = Ok e /\
    medication_type e = ty /\
    calculated_day_supply e = 30 /\
    standardized_sig e = [Lit (sig_directions rx)] /\
    corrected_quantity e = (if digits_without_dots (quantity rx) then v else 1).
Proof.
  intros Hm Hc He Hty Hq Hf.
  destruct (zero_frequency_raises self d v (sig_directions rx) (Some name) Hf)
    as (Hn & Ho & Hi & Hd & Ht).
  assert (Hraise : dispatch self ty d rx (Some name) = Raise ZeroDivisionError).
  { unfold dispatch. cbv zeta. rewrite Hq. cbn [bind].
    destruct Hty as [->|[->|[->|[->| ->]]]]; assumption. }
  rewrite (extract_matched self rx name c Hm Hc), He.
  unfold try_dispatch. rewrite Hraise. unfold handler. rewrite Hq.
  destruct (digits_without_dots (quantity rx)); cbn [bind];
    eexists; (split; [reflexivity|]); cbn; repeat split.
Qed.

Lemma zero_frequency_request_degrades_witness :
  exists e,
    extract_prescription_data catalog
      (request "Humalog" (QInt 5) "15 units 0 times per day") = Ok e /\
    medication_type e = INSULIN /\
    calculated_day_supply e = 30 /\
    standardized_sig e = [Lit "15 units 0 times per day"] /\
    corrected_quantity e = (if digits_without_dots (QInt 5) then 5 else 1).
Proof.
  apply (zero_frequency_request_degrades catalog
           (request "Humalog" (QInt 5) "15 units 0 times per day")
           "humalog" 1 INSULIN (insulin_row 300) 5).
  - reflexivity.
  - unfold Qle. simpl. lia.
  - reflexivity.
  - right. right. left. reflexivity.
  - reflexivity.
  - reflexivity.
Defined.

Lemma insulin_ok_inv (d : DrugData) (q : Q) (sig : string) (m : option string)
  (r : Q * Q * text) :
  _process_insulin d q sig m = Ok r ->
  0 < _calculate_frequency_per_day sig /\ 0 < insulin_units_per_dose sig.
Proof.
  intros H.
  assert (Hf : ~ _calculate_frequency_per_day sig == 0).
  { intros Ef.
    destruct (zero_frequency_raises {| drug_database := []; eyedrop_guidelines := [];
                                       eyedrop_beyond_use := []; ftu_dosing := [] |}
                d q sig m Ef) as (_ & _ & Hi & _).
    congruence. }
  pose proof (frequency_pos sig Hf) as Hpos. split; [exact Hpos|].
  apply Qpos_of_nonneg; [apply insulin_units_nonneg|]. intros Ed.
  revert H. unfold _process_insulin. cbv zeta.
  destruct (frequency_text_nonzero _ Hf) as (t & ->). cbn [bind].
  unfold insulin_calculated_days. rewrite (proj2 (Qltb_lt 0 _) Hpos).
  unfold int_div. rewrite div_zero; [discriminate|]. rewrite Ed. apply Qmult_0_l.
Qed.

(** X14.  The insulin day supply is monotone in the quantity: with the
    same product and directions, a larger quantity never gets a shorter
    supply. *)
Theorem insulin_monotone_in_quantity (d : DrugData) (sig : string) (m : option string)
  (q1 q2 cq1 ds1 cq2 ds2 : Q) (t1 t2 : text) :
  q1 <= q2 ->
  _process_insulin d q1 sig m = Ok (cq1, ds1, t1) ->
  _process_insulin d q2 sig m = Ok (cq2, ds2, t2) ->
  ds1 <= ds2.
Proof.
  intros Hq H1 H2.
  destruct (insulin_ok_inv d q1 sig m _ H1) as (Hf & Hd).
  destruct (CalculatorClaims.insulin_positive d q1 sig m Hf Hd) as (t1' & E1).
  destruct (CalculatorClaims.insulin_positive d q2 sig m Hf Hd) as (t2' & E2).
  rewrite E1 in H1. rewrite E2 in H2.
  injection H1 as _ <- _. injection H2 as _ <- _.
  apply Z2Q_le, clampZ_mono, insulin_beyond_use_mono, int_mono, div_mono.
  - apply Qmult_lt_0_compat; assumption.
  - apply Qmult_le_compat_r; [exact Hq|].
    unfold Z2Q. rewrite <- (Zle_Qle 0).
    destruct (get (Total_Units_per_Package d) 0 <=? 0)%Z eqn:E; [lia|].
    apply Z.leb_gt in E. lia.
Qed.

Lemma insulin_monotone_in_quantity_witness :
  exists t,
    _process_insulin (insulin_row 300) 2 "15 units tid" (Some "humalog") = Ok (2, 13, t) /\
    _process_insulin (insulin_row 300) 3 "15 units tid" (Some "humalog") = Ok (3, 20, t) /\
    (13 : Q) <= 20.
Proof.
  eexists. split; [vm_compute; reflexivity|]. split; [vm_compute; reflexivity|].
  apply (insulin_monotone_in_quantity (insulin_row 300) "15 units tid" (Some "humalog")
           2 3 2 13 3 20
           [Lit "Inject "; Int 15; Lit " units "; Lit "three times daily"]
           [Lit "Inject "; Int 15; Lit " units "; Lit "three times daily"]).
  - unfold Qle. simpl. lia.
  - vm_compute. reflexivity.
  - vm_compute. reflexivity.
Defined.

Lemma oral_calculated_days_mono (n : string) (sc : list (string * Z)) (w : Z)
  (p f t1 t2 c1 c2 : Q) :
  t1 <= t2 ->
  oral_calculated_days n sc w t1 p f = Ok c1 ->
  oral_calculated_days n sc w t2 p f = Ok c2 ->
  c1 <= c2.
Proof.
  intros Ht. unfold oral_calculated_days. cbv zeta.
  assert (Hdiv : forall b, 0 < b ->
            exists z1 z2, int_div t1 b = Ok z1 /\ int_div t2 b = Ok z2 /\ (z1 <= z2)%Z).
  { intros b Hb. rewrite !int_div_pos by exact Hb. do 2 eexists.
    split; [reflexivity|]. split; [reflexivity|]. now apply int_mono, div_mono. }
  match goal with
  | |- bind ?i1 _ = _ -> bind ?i2 _ = _ -> _ =>
      assert (Hin : exists z1 z2, i1 = Ok z1 /\ i2 = Ok z2 /\ (z1 <= z2)%Z)
  end.
  { destruct (Qltb 0 (p * f)) eqn:E.
    - apply Qltb_lt in E. destruct sc as [|x sc']; [exact (Hdiv _ E)|].
      destruct (lookup _ (x :: sc')) as [z|]; [|exact (Hdiv _ E)].
      exists z, z. repeat split. lia.
    - exists 30%Z, 30%Z. destruct sc; repeat split; lia. }
  destruct Hin as (z1 & z2 & -> & -> & Hz). cbn [bind].
  destruct (contains "ellipta" n).
  { intros [= <-] [= <-]. now apply min_mono. }
  destruct (is_rescue_inhaler n).
  2:{ intros [= <-] [= <-]. now apply Z2Q_le. }
  destruct (lookup _ sc) as [z|]; [intros [= <-] [= <-]; apply Qle_refl|].
  destruct (lookup "2" sc) as [z|]; [intros [= <-] [= <-]; apply Qle_refl|].
  assert (Hmax : 0 < Py.max 4 (f * p)).
  { apply Qlt_le_trans with 4; [reflexivity | apply max_ge_l]. }
  destruct (Hdiv _ Hmax) as (y1 & y2 & -> & -> & Hy). cbn [bind].
  intros [= <-] [= <-]. now apply Z2Q_le.
Qed.

(** X15.  The oral inhaler day supply is monotone in the quantity: with
    the same product and directions, a larger quantity never gets a
    shorter supply. *)
Theorem oral_monotone_in_quantity (d : DrugData) (sig : string) (m : option string)
  (q1 q2 cq1 ds1 cq2 ds2 : Q) (t1 t2 : text) :
  q1 <= q2 ->
  _process_oral_inhaler d q1 sig m = Ok (cq1, ds1, t1) ->
  _process_oral_inhaler d q2 sig m = Ok (cq2, ds2, t2) ->
  ds1 <= ds2.
Proof.
  intros Hq. unfold _process_oral_inhaler. cbv zeta.
  destruct (oral_dose_and_frequency (name_lower m) sig) as [p f].
  destruct (_frequency_to_text f) as [t|err]; [|discriminate]. cbn [bind].
  set (puffs := if (get (Retail_Puffs_per_Package d) 0 <=? 0)%Z then 200%Z
                else get (Retail_Puffs_per_Package d) 0%Z).
  assert (Hp : 0 <= Z2Q puffs).
  { unfold Z2Q. rewrite <- (Zle_Qle 0). subst puffs.
    destruct (get (Retail_Puffs_per_Package d) 0 <=? 0)%Z eqn:E; [lia|].
    apply Z.leb_gt in E. lia. }
  destruct (oral_calculated_days _ _ _ (q1 * Z2Q puffs) p f) as [c1|] eqn:E1;
    [|discriminate].
  destruct (oral_calculated_days _ _ _ (q2 * Z2Q puffs) p f) as [c2|] eqn:E2;
    [|discriminate].
  cbn [bind]. intros [= _ <- _] [= _ <- _].
  assert (Hc : c1 <= c2).
  { apply (oral_calculated_days_mono _ _ _ _ _ _ _ _ _
             (Qmult_le_compat_r _ _ _ Hq Hp) E1 E2). }
  apply clamp_mono. unfold oral_discard_limit.
  destruct (0 <? get (Discard_After_Opening_Days d) 0)%Z; [now apply min_mono | exact Hc].
Qed.

Lemma oral_monotone_in_quantity_witness :
  exists t,
    _process_oral_inhaler (oral_row 60 30) 1 "2 puffs twice daily" (Some "alvesco")
    = Ok (1, 15, t) /\
    _process_oral_inhaler (oral_row 60 30) 2 "2 puffs twice daily" (Some "alvesco")
    = Ok (2, 30, t) /\
    (15 : Q) <= 30.
Proof.
  eexists. split; [vm_compute; reflexivity|]. split; [vm_compute; reflexivity|].
  apply (oral_monotone_in_quantity (oral_row 60 30) "2 puffs twice daily" (Some "alvesco")
           1 2 1 15 2 30
           [Lit "Inhale "; Int 2; Lit " puff(s) "; Lit "twice daily"]
           [Lit "Inhale "; Int 2; Lit " puff(s) "; Lit "twice daily"]).
  - unfold Qle. simpl. lia.
  - vm_compute. reflexivity.
  - vm_compute. reflexivity.
Defined.

End QuantityProperties.

(** ** The orchestrator: rejected names, the result record, escaping errors *)
Module OrchestratorProperties.
Import Py Extractor MatcherSpec Examples PyFacts DifflibFacts MatcherFacts.
Import CalculatorFacts OrchestratorFacts CalculatorSupport.

Local Open Scope string_scope.
Local Open Scope Q_scope.

Lemma contains_empty (hay : string) : contains "" hay = true.
Proof. destruct hay; reflexivity. Qed.

Lemma ratio_of_empty (key : string) : key <> "" -> Difflib.ratio "" key == 0.
Proof.
  intros Hne. unfold Difflib.ratio. cbv zeta.
  change (list_ascii_of_string "") with (@nil ascii).
  destruct (list_ascii_of_string key) as [|c l] eqn:E.
  - destruct key; [now elim Hne | discriminate].
  - cbn [List.length Nat.add]. unfold Difflib.matches, Difflib.find_longest_match.
    cbn [Difflib.scan_a Nat.eqb]. unfold Qeq. simpl. reflexivity.
Qed.

Lemma substring_score_of_empty (key : string) :
  key <> "" -> substring_score "" key <= 0.2.
Proof.
  intros Hne. unfold substring_score. rewrite contains_empty.
  eapply Qle_trans; [apply min_le_r|].
  assert (H : len "" / len key == 0) by (unfold len, Qdiv; cbn; apply Qmult_0_l).
  rewrite H. unfold Qle. simpl. lia.
Qed.

(** X16.  A blank drug name is rejected: when the name is empty or all
    blanks and the database has no empty key, every key scores at most
    0.2, below the acceptance bound, and the extraction returns the
    unsupported-medication result. *)
Theorem blank_name_is_rejected (self : Extractor) (rx : PrescriptionInput) :
  strip (lower (drug_name rx)) = "" ->
  ~ In "" (map fst (drug_database self)) ->
  snd (_fuzzy_match_drug_name self (drug_name rx) 0.6) <= 0.2 /\
  extract_prescription_data self rx = Ok (_create_unsupported_medication_result rx).
Proof.
  intros Hblank Hkey.
  assert (Hs : snd (_fuzzy_match_drug_name self (drug_name rx) 0.6) <= 0.2).
  { unfold _fuzzy_match_drug_name. rewrite Hblank.
    destruct (scan_first_best "" (map fst (drug_database self)) Hkey)
      as [[_ ->] | (before & key & score & after & Hc & -> & _ & _)].
    - unfold Qle. simpl. lia.
    - cbn [snd].
      assert (Hin : In (key, score) (candidates "" 0.6 (map fst (drug_database self)))).
      { rewrite Hc. apply in_or_app. right. now left. }
      apply MatcherClaims.candidates_spec in Hin as (Hk & [[_ ->] | [Hr ->]]).
      + apply substring_score_of_empty. intros ->. exact (Hkey Hk).
      + exfalso. rewrite ratio_of_empty in Hr by (intros ->; exact (Hkey Hk)).
        revert Hr. unfold Qle. simpl. lia. }
  split; [exact Hs|].
  apply extract_unmatched.
  destruct (_fuzzy_match_drug_name self (drug_name rx) 0.6) as [m c]. cbn [snd] in Hs.
  right. eapply Qle_lt_trans; [exact Hs|]. unfold Qlt. simpl. lia.
Qed.

Lemma blank_name_is_rejected_witness :
  snd (_fuzzy_match_drug_name catalog "   " 0.6) <= 0.2 /\
  extract_prescription_data catalog (request "   " (QInt 1) "use daily")
  = Ok (_create_unsupported_medication_result (request "   " (QInt 1) "use daily")).
Proof.
  apply (blank_name_is_rejected catalog (request "   " (QInt 1) "use daily")).
  - reflexivity.
  - cbn. intuition discriminate.
Defined.

(** X17.  Every completed extraction echoes the drug name of the request
    and is of one of two shapes: the unsupported-medication result, or a
    matched result whose name is a key of the database, whose confidence
    lies between 0.8 and 1, whose warnings are empty and whose type and
    additional information are those stored under the name. *)
Theorem result_is_coherent (self : Extractor) (rx : PrescriptionInput) (e : ExtractedData) :
  extract_prescription_data self rx = Ok e ->
  original_drug_name e = drug_name rx /\
  (e = _create_unsupported_medication_result rx \/
   exists name,
     matched_drug_name e = Some name /\
     In name (map fst (drug_database self)) /\
     _fuzzy_match_drug_name self (drug_name rx) 0.6 = (Some name, confidence_score e) /\
     0.80 <= confidence_score e <= 1 /\
     warnings e = [] /\
     (name <> "" ->
      lookup name (drug_database self) = Some (medication_type e, additional_info e))).
Proof.
  intros He.
  destruct (_fuzzy_match_drug_name self (drug_name rx) 0.6) as [m c] eqn:Em.
  assert (Hrej : m = None \/ c < 0.80 ->
                 original_drug_name e = drug_name rx /\
                 e = _create_unsupported_medication_result rx).
  { intros H. rewrite extract_unmatched in He by now rewrite Em.
    injection He as <-. now split. }
  destruct m as [name|]; [|destruct Hrej as (H1 & H2); [now left | now split; [|left]]].
  destruct (Qlt_le_dec c 0.80) as [Hlt|Hle];
    [destruct Hrej as (H1 & H2); [now right | now split; [|left]]|].
  clear Hrej.
  rewrite (extract_matched self rx name c Em Hle) in He.
  destruct (entry_of self (Some name)) as [ty dict] eqn:Ee.
  destruct (try_dispatch self ty dict rx (Some name)) as [[[cq ds] t]|err]; [|discriminate].
  cbn [bind] in He. injection He as <-. cbn. split; [reflexivity|]. right.
  assert (Hin : In name (map fst (drug_database self))).
  { pose proof Em as Em'. unfold _fuzzy_match_drug_name in Em'.
    destruct (match_loop_key _ _ _ _ _ _ Em') as [H|H]; [exact H | discriminate]. }
  assert (Hc1 : c <= 1).
  { pose proof (match_loop_bounds (strip (lower (drug_name rx))) 0.6
                  (map fst (drug_database self)) (None, 0)) as Hb.
    pose proof Em as Em'. unfold _fuzzy_match_drug_name in Em'.
    rewrite Em' in Hb. cbn [snd] in Hb.
    apply Hb. split; unfold Qle; simpl; lia. }
  exists name. split; [reflexivity|]. split; [exact Hin|]. split; [reflexivity|].
  split; [split; assumption|]. split; [reflexivity|].
  intros Hne. unfold entry_of in Ee. destruct name as [|ch rest]; [now elim Hne|].
  destruct (lookup (String ch rest) (drug_database self)) as [entry|] eqn:El.
  - now subst entry.
  - exfalso. apply CatalogFacts.lookup_in in Hin. now apply Hin.
Qed.

Lemma result_is_coherent_witness :
  exists e,
    extract_prescription_data catalog (request "Qvar" (QInt 1) "2 puffs twice daily") = Ok e /\
    original_drug_name e = "Qvar" /\
    (e = _create_unsupported_medication_result
           (request "Qvar" (QInt 1) "2 puffs twice daily") \/
     exists name,
       matched_drug_name e = Some name /\
       In name (map fst (drug_database catalog)) /\
       _fuzzy_match_drug_name catalog "Qvar" 0.6 = (Some name, confidence_score e) /\
       0.80 <= confidence_score e <= 1 /\
       warnings e = [] /\
       (name <> "" ->
        lookup name (drug_database catalog)
        = Some (medication_type e, additional_info e))).
Proof.
  eexists. split; [vm_compute; reflexivity|].
  apply (result_is_coherent catalog (request "Qvar" (QInt 1) "2 puffs twice daily")).
  vm_compute. reflexivity.
Defined.




End OrchestratorProperties.

(** ** Products whose supply does not follow the directions *)
Module ProductProperties.
Import Py Extractor Examples PyFacts CalculatorFacts FrequencyFacts CalculatorSupport.

Local Open Scope string_scope.
Local Open Scope Q_scope.

(** X19.  For the nasal products handled by name (calcitonin, butorphanol,
    Migranal, Nayzilam, Neffy, Zavzpret, Sprix, Trudhesa) the day supply is
    a function of the package's spray count alone: whenever the calculator
    returns, the quantity and the directions have no influence on it. *)
Theorem named_nasal_products_ignore_quantity (d : DrugData) (q : Q) (sig : string)
  (m : option string) (cq ds : Q) (t : text) :
  any_in ["calcitonin"; "butorphanol"; "migranol"; "migranal"; "nayzilam"; "neffy";
          "zavzpret"; "sprix"; "trudhesa"] (name_lower m) = true ->
  _process_nasal_inhaler d q sig m = Ok (cq, ds, t) ->
  let max_sprays :=
    if (get (Max_Total_Sprays d) 0 <=? 0)%Z then 120%Z else get (Max_Total_Sprays d) 0%Z in
  ds = Z2Q (nasal_special (name_lower m) max_sprays 0) /\
  forall q' sig' cq' ds' t',
    _process_nasal_inhaler d q' sig' m = Ok (cq', ds', t') -> ds' = ds.
Proof.
  intros Hn Hr max_sprays.
  assert (Hind : forall x, nasal_special (name_lower m) max_sprays x
                           = nasal_special (name_lower m) max_sprays 0).
  { intros x. revert Hn. unfold any_in, nasal_special. cbn [existsb].
    repeat match goal with
           | |- context [contains ?a (name_lower m)] =>
               destruct (contains a (name_lower m))
           end; cbn [orb]; try reflexivity; discriminate. }
  assert (Hform : forall q0 sig0 cq0 ds0 t0,
             _process_nasal_inhaler d q0 sig0 m = Ok (cq0, ds0, t0) ->
             ds0 = Z2Q (nasal_special (name_lower m) max_sprays 0)).
  { intros q0 sig0 cq0 ds0 t0. unfold _process_nasal_inhaler. cbv zeta.
    fold max_sprays.
    destruct (_frequency_to_text _) as [ft|]; [|discriminate]. cbn [bind].
    destruct (if Qltb 10 q0 then _ else _) as [cq1|]; [|discriminate]. cbn [bind].
    destruct (nasal_formula_days _ _ _ _) as [z|]; [|discriminate]. cbn [bind].
    intros [= _ <- _]. now rewrite Hind. }
  split; [exact (Hform _ _ _ _ _ Hr)|].
  intros q' sig' cq' ds' t' Hr'.
  now rewrite (Hform _ _ _ _ _ Hr), (Hform _ _ _ _ _ Hr').
Qed.

Lemma named_nasal_products_ignore_quantity_witness :
  (6 : Q) = Z2Q (nasal_special (name_lower (Some "zavzpret")) 6 0) /\
  forall q' sig' cq' ds' t',
    _process_nasal_inhaler (nasal_row 6) q' sig' (Some "zavzpret") = Ok (cq', ds', t') ->
    ds' = 6.
Proof.
  apply (named_nasal_products_ignore_quantity (nasal_row 6) 1
           "1 spray in one nostril as needed" (Some "zavzpret") 1 6
           [Lit "Use "; Num 1; Lit " spray(s) "; Lit "once daily"]).
  - reflexivity.
  - vm_compute. reflexivity.
Defined.

(** X20.  For an Ellipta inhaler the directions have no influence on the
    day supply: the dose is one puff, and the supply is the number of
    puffs dispensed, capped by the discard window (90 days without one)
    and clamped to 7..365. *)
Theorem ellipta_ignores_directions (d : DrugData) (q : Q) (sig : string)
  (m : option string) (cq ds : Q) (t : text) :
  contains "ellipta" (name_lower m) = true ->
  _process_oral_inhaler d q sig m = Ok (cq, ds, t) ->
  let window := get (Discard_After_Opening_Days d) 0%Z in
  let puffs_per_package :=
    if (get (Retail_Puffs_per_Package d) 0 <=? 0)%Z
    then 200%Z else get (Retail_Puffs_per_Package d) 0%Z in
  ds = clamp (Py.min (q * Z2Q puffs_per_package)
                (Z2Q (if (0 <? window)%Z then window else 90%Z))) /\
  exists frequency_text,
    t = ([Lit "Inhale "; Int 1; Lit " puff(s) "] ++ frequency_text)%list.
Proof.
  intros He. unfold _process_oral_inhaler, oral_dose_and_frequency. cbv zeta.
  rewrite He.
  destruct (_frequency_to_text _) as [ft|]; [|discriminate]. cbn [bind].
  unfold oral_calculated_days. cbv zeta. rewrite He.
  match goal with
  | |- bind (bind ?inner _) _ = _ -> _ => destruct inner as [z|]; [|discriminate]
  end.
  cbn [bind]. intros [= _ <- <-]. cbv zeta. split; [|now exists ft].
  unfold oral_discard_limit.
  destruct (0 <? get (Discard_After_Opening_Days d) 0)%Z; [|reflexivity].
  f_equal. unfold Py.min at 1.
  destruct (Qltb _ _) eqn:E; [|reflexivity].
  apply Qltb_lt in E. exfalso.
  apply (Qlt_not_le _ _ E). apply min_le_r.
Qed.

Lemma ellipta_ignores_directions_witness :
  (30 : Q) = clamp (Py.min (1 * Z2Q 30) (Z2Q 42)) /\
  exists frequency_text,
    [Lit "Inhale "; Int 1; Lit " puff(s) "; Lit "once daily"]
    = ([Lit "Inhale "; Int 1; Lit " puff(s) "] ++ frequency_text)%list.
Proof.
  apply (ellipta_ignores_directions (oral_row 30 42) 1 "2 puffs twice daily"
           (Some "breo ellipta") 1 30).
  - reflexivity.
  - vm_compute. reflexivity.
Defined.

End ProductProperties.

(** ** The numbers read from the directions, and the assisted name search *)
Module SearchProperties.
Import Py Extractor Examples Enrichment PyFacts MatcherFacts FrequencyFacts.

Local Open Scope string_scope.
Local Open Scope Q_scope.

Lemma lookup_some_in {A : Type} (key : string) (d : list (string * A)) (v : A) :
  lookup key d = Some v -> In (key, v) d.
Proof.
  induction d as [|[k x] rest IH]; cbn [lookup]; [discriminate|].
  destruct (String.eqb key k) eqn:E.
  - apply String.eqb_eq in E. subst k. intros [= ->]. now left.
  - intros H. right. now apply IH.
Qed.

(** The entries found for a list of patterns. *)
Lemma found_entries (ps : list (string * matcher)) (s unit : string) (values : list Q) :
  In (unit, values)
    (flat_map (fun up : string * matcher =>
                 match findall (snd up) s with
                 | [] => []
                 | found => [(fst up, found)]
                 end) ps) ->
  exists tail, In (unit, tail) ps /\ findall tail s = values /\ values <> [].
Proof.
  rewrite in_flat_map. intros ([u tail] & Hin & H). cbn [fst snd] in H.
  destruct (findall tail s) as [|v vs] eqn:E; [destruct H|].
  destruct H as [[= <- <-]|[]]. exists tail. repeat split; [exact Hin | exact E | discriminate].
Qed.

Lemma found_nodup (ps : list (string * matcher)) (s : string) :
  NoDup (map fst ps) ->
  NoDup (map fst
           (flat_map (fun up : string * matcher =>
                        match findall (snd up) s with
                        | [] => []
                        | found => [(fst up, found)]
                        end) ps)).
Proof.
  induction ps as [|[u tail] ps IH]; cbn [flat_map map fst]; intros H; [constructor|].
  inversion H as [|? ? Hn Hr]; subst. cbn [snd].
  destruct (findall tail s) as [|v vs]; cbn [app map fst]; [now apply IH|].
  constructor; [|now apply IH].
  intros Hin. apply in_map_iff in Hin as ([u' values] & Hu & Hin). cbn [fst] in Hu. subst u'.
  apply found_entries in Hin as (tail' & Hin & _).
  apply Hn. apply in_map_iff. now exists (u, tail').
Qed.

(** X21.  The dictionary [_extract_numbers_from_sig] returns has each unit
    at most once, only units of the nine patterns, and under each a list
    that is not empty and holds no negative number; so reading the first
    number of a unit that is present never fails. *)
Theorem extracted_numbers_are_well_formed (sig : string) :
  NoDup (map fst (_extract_numbers_from_sig sig)) /\
  (forall unit values,
      In (unit, values) (_extract_numbers_from_sig sig) ->
      In unit (map fst patterns) /\ values <> [] /\ forall v, In v values -> 0 <= v) /\
  (forall unit,
      lookup unit (_extract_numbers_from_sig sig) <> None ->
      exists v, first_of unit (_extract_numbers_from_sig sig) = Some v /\ 0 <= v).
Proof.
  assert (Hentries : forall unit values,
             In (unit, values) (_extract_numbers_from_sig sig) ->
             In unit (map fst patterns) /\ values <> [] /\ forall v, In v values -> 0 <= v).
  { intros unit values Hin. unfold _extract_numbers_from_sig in Hin. cbv zeta in Hin.
    apply found_entries in Hin as (tail & Hin & Hf & Hne).
    split; [apply in_map_iff; now exists (unit, tail)|]. split; [exact Hne|].
    intros v Hv. rewrite <- Hf in Hv. exact (findall_from_nonneg tail _ 0 v Hv). }
  split; [|split].
  - unfold _extract_numbers_from_sig. cbv zeta. apply found_nodup.
    unfold patterns. cbn [map fst].
    repeat (constructor; [cbn [In]; intuition discriminate|]). constructor.
  - exact Hentries.
  - intros unit Hl. unfold first_of.
    destruct (lookup unit (_extract_numbers_from_sig sig)) as [values|] eqn:E;
      [|now elim Hl].
    apply lookup_some_in in E. destruct (Hentries unit values E) as (_ & Hne & Hpos).
    destruct values as [|v vs]; [now elim Hne|].
    exists v. split; [reflexivity | apply Hpos; now left].
Qed.

Lemma try_alternatives_spec (self : Extractor) (alternative_names : list string) :
  forall best : option string * Q,
    try_alternatives self alternative_names best = best \/
    exists alt_name name score,
      In alt_name alternative_names /\
      _fuzzy_match_drug_name self alt_name 0.6 = (Some name, score) /\
      name <> "" /\ snd best < score /\
      try_alternatives self alternative_names best = (Some name, score).
Proof.
  induction alternative_names as [|alt_name rest IH]; intros best; cbn [try_alternatives].
  - now left.
  - destruct (_fuzzy_match_drug_name self alt_name 0.6) as [alt_match c] eqn:Em.
    destruct (truthy alt_match && Qltb (snd best) c) eqn:E.
    + apply andb_true_iff in E as (Ht & Hc). apply Qltb_lt in Hc.
      destruct alt_match as [[|ch name]|]; try discriminate.
      right. exists alt_name, (String ch name), c.
      repeat split; [now left | exact Em | discriminate | exact Hc].
    + destruct (IH best) as [H|(a & name & score & Hin & Ha & Hne & Hs & H)].
      * now left.
      * right. exists a, name, score. repeat split; try assumption. now right.
Qed.

(** X22.  The assisted name search can only improve a match.  Whatever
    the service answers, the confidence does not drop, a name is never
    lost, a name that is returned is a key of the database, and a request
    matched exactly keeps its match. *)
Theorem assisted_search_only_improves (self : Extractor) (drug_name : string)
  (answer : option (list string)) :
  let before := _fuzzy_match_drug_name self drug_name 0.6 in
  let after := enhanced_match self drug_name answer in
  snd before <= snd after <= 1 /\
  (fst before <> None -> fst after <> None) /\
  (forall name, fst after = Some name -> In name (map fst (drug_database self))) /\
  (1 <= snd before -> after = before).
Proof.
  cbv zeta.
  assert (Hbound : forall s, 0 <= snd (_fuzzy_match_drug_name self s 0.6) <= 1).
  { intros s. apply match_loop_bounds. split; unfold Qle; simpl; lia. }
  assert (Hkey : forall s name score,
             _fuzzy_match_drug_name self s 0.6 = (Some name, score) ->
             In name (map fst (drug_database self))).
  { intros s name score H. unfold _fuzzy_match_drug_name in H.
    destruct (match_loop_key _ _ _ _ _ _ H) as [Hin|Hin]; [exact Hin | discriminate]. }
  pose proof (Hbound drug_name) as Hb.
  assert (Hcases : enhanced_match self drug_name answer
                   = _fuzzy_match_drug_name self drug_name 0.6 \/
                   exists alt_name name score,
                     _fuzzy_match_drug_name self alt_name 0.6 = (Some name, score) /\
                     snd (_fuzzy_match_drug_name self drug_name 0.6) < score /\
                     enhanced_match self drug_name answer = (Some name, score)).
  { unfold enhanced_match.
    destruct (_fuzzy_match_drug_name self drug_name 0.6) as [m c].
    destruct (should_enhance m c drug_name); [|left; reflexivity].
    destruct answer as [[|a l]|]; try (left; reflexivity).
    destruct (try_alternatives_spec self (a :: l) (m, c))
      as [H|(alt & name & score & _ & Ha & _ & Hs & H)]; [left; exact H|].
    right. exists alt, name, score. split; [exact Ha|]. split; [exact Hs | exact H]. }
  destruct Hcases as [->|(alt & name & score & Ha & Hs & ->)].
  - split; [split; [apply Qle_refl | apply Hb]|]. split; [tauto|]. split; [|reflexivity].
    intros name H.
    destruct (_fuzzy_match_drug_name self drug_name 0.6) as [m c] eqn:Eb.
    cbn [fst] in H. subst m. exact (Hkey drug_name name c Eb).
  - pose proof (Hbound alt) as Ha1. rewrite Ha in Ha1. cbn [fst snd] in *.
    split; [split; [now apply Qlt_le_weak | apply Ha1]|].
    split; [discriminate|]. split.
    + intros name' [= <-]. exact (Hkey alt name score Ha).
    + intros H1. exfalso. apply (Qlt_not_le _ _ Hs).
      apply Qle_trans with 1; [apply Ha1 | exact H1].
Qed.

Lemma assisted_search_only_improves_witness :
  enhanced_match CatalogExamples.extractor "Azelastine Nasal Spray"
    (Some ["Astelin"; "Flonase"])
  = _fuzzy_match_drug_name CatalogExamples.extractor "Azelastine Nasal Spray" 0.6.
Proof.
  apply (assisted_search_only_improves CatalogExamples.extractor "Azelastine Nasal Spray"
           (Some ["Astelin"; "Flonase"])).
  vm_compute. discriminate.
Defined.

End SearchProperties.

(** ** The usage tables and the eyedrop calculator *)
Module TableProperties.
Import Py Extractor Examples PyFacts CalculatorFacts FrequencyFacts CalculatorSupport.

Local Open Scope string_scope.
Local Open Scope Q_scope.

Lemma int_mult_comm (a b : Q) : int (a * b) = int (b * a).
Proof.
  unfold int. destruct a as [na da], b as [nb db]. cbn [Qmult Qnum Qden].
  now rewrite (Z.mul_comm na nb), (Pos.mul_comm da db).
Qed.

Lemma nonzero_factor (a b : Q) : 0 < a * b -> ~ b == 0.
Proof.
  intros H E. rewrite E, Qmult_0_r in H. revert H. unfold Qlt. simpl. lia.
Qed.

(** X23.  When the usage table of a product lists the daily use read from
    the directions, the listed number of days is the day supply, clamped
    and, for an oral inhaler, capped by the discard window; the quantity
    dispensed has no influence.  This holds for the oral inhalers other
    than Ellipta and for the nasal products without handling by name. *)
Theorem usage_table_overrides_quantity (d : DrugData) (q : Q) (sig : string)
  (m : option string) (days : Z) :
  (contains "ellipta" (name_lower m) = false ->
   let dose_frequency := oral_dose_and_frequency (name_lower m) sig in
   let daily_puffs := fst dose_frequency * snd dose_frequency in
   0 < daily_puffs ->
   lookup (str_of_int (int daily_puffs)) (Example_Days_Supply_Scenarios d) = Some days ->
   exists t,
     _process_oral_inhaler d q sig m
     = Ok (q, clamp (oral_discard_limit (get (Discard_After_Opening_Days d) 0%Z)
                       (Z2Q days)), t)) /\
  (any_in ["calcitonin"; "butorphanol"; "migranol"; "migranal"; "nayzilam"; "neffy";
           "zavzpret"; "sprix"; "trudhesa"] (name_lower m) = false ->
   let daily_spray_usage := nasal_sprays_per_dose sig * _calculate_frequency_per_day sig in
   0 < daily_spray_usage ->
   lookup (str_of_int (int daily_spray_usage)) (Example_Days_Supply_Scenarios d)
   = Some days ->
   (10 < q -> ~ get (Package_Size_Value d) 15 == 0) ->
   exists cq t, _process_nasal_inhaler d q sig m = Ok (cq, Z2Q (clampZ days), t)).
Proof.
  split.
  - intros He dose_frequency daily_puffs Hpos Hl. subst daily_puffs dose_frequency.
    unfold _process_oral_inhaler. cbv zeta.
    destruct (oral_dose_and_frequency (name_lower m) sig) as [p f]. cbn [fst snd] in *.
    destruct (frequency_text_nonzero f (nonzero_factor _ _ Hpos)) as (t & ->).
    cbn [bind]. unfold oral_calculated_days. cbv zeta.
    rewrite He, (proj2 (Qltb_lt 0 (p * f)) Hpos), Hl, (int_mult_comm f p), Hl.
    destruct (Example_Days_Supply_Scenarios d) as [|x sc] eqn:Es; [discriminate|].
    cbn [bind]. destruct (is_rescue_inhaler (name_lower m)); cbn [bind]; now eexists.
  - intros Hn daily_spray_usage Hpos Hl Hsize. subst daily_spray_usage.
    unfold _process_nasal_inhaler. cbv zeta.
    destruct (frequency_text_nonzero _ (nonzero_factor _ _ Hpos)) as (t & ->).
    cbn [bind].
    assert (Hcq : exists cq,
               (if Qltb 10 q then div q (get (Package_Size_Value d) 15) else Ok q)
               = Ok cq).
    { destruct (Qltb 10 q) eqn:E; [|now eexists].
      rewrite div_nonzero by (apply Hsize, Qltb_lt, E). now eexists. }
    destruct Hcq as (cq & ->). cbn [bind].
    unfold nasal_formula_days. rewrite (proj2 (Qltb_lt 0 _) Hpos), Hl.
    destruct (Example_Days_Supply_Scenarios d) as [|x sc] eqn:Es; [discriminate|].
    cbn [bind]. exists cq. eexists. do 2 f_equal. f_equal.
    revert Hn. unfold any_in, nasal_special, clampZ. cbn [existsb].
    repeat match goal with
           | |- context [contains ?a (name_lower m)] =>
               destruct (contains a (name_lower m))
           end; cbn [orb]; try discriminate. reflexivity.
Qed.

Lemma usage_table_overrides_quantity_witness :
  exists t,
    _process_oral_inhaler CatalogExamples.row_with_usage_table 3 "2 puffs twice daily"
      (Some "qvar")
    = Ok (3, clamp (oral_discard_limit 0 (Z2Q 50)), t).
Proof.
  apply (proj1 (usage_table_overrides_quantity CatalogExamples.row_with_usage_table 3
                  "2 puffs twice daily" (Some "qvar") 50)).
  - reflexivity.
  - vm_compute. reflexivity.
  - reflexivity.
Defined.

(** X24.  A request matched to an entry of the eyedrop type never reaches
    the eyedrop calculator: the call in the dispatch does not fit the
    method, the handler takes over, and the result is the fallback of 30
    days with the directions unchanged. *)
Theorem eyedrop_requests_degrade (self : Extractor) (rx : PrescriptionInput)
  (name : string) (c : Q) (d : DrugData) (v : Q) :
  _fuzzy_match_drug_name self (drug_name rx) 0.6 = (Some name, c) ->
  0.80 <= c ->
  entry_of self (Some name) = (EYEDROP, d) ->
  float_of_quantity (quantity rx) = Ok v ->
  exists e,
    extract_prescription_data self rx = Ok e /\
    medication_type e = EYEDROP /\
    calculated_day_supply e = 30 /\
    standardized_sig e = [Lit (sig_directions rx)] /\
    corrected_quantity e = (if digits_without_dots (quantity rx) then v else 1).
Proof.
  intros Hm Hc He Hq.
  rewrite (OrchestratorFacts.extract_matched self rx name c Hm Hc), He.
  unfold try_dispatch, dispatch. cbv zeta. rewrite Hq. cbn [bind].
  unfold handler. rewrite Hq.
  destruct (digits_without_dots (quantity rx)); cbn [bind];
    eexists; (split; [reflexivity|]); cbn; repeat split.
Qed.

Lemma eyedrop_requests_degrade_witness :
  exists e,
    extract_prescription_data CatalogExamples.eyedrop_extractor
      (request "Latanoprost" (QInt 1) "1 drop daily") = Ok e /\
    medication_type e = EYEDROP /\
    calculated_day_supply e = 30 /\
    standardized_sig e = [Lit "1 drop daily"] /\
    corrected_quantity e = (if digits_without_dots (QInt 1) then 1 else 1).
Proof.
  apply (eyedrop_requests_degrade CatalogExamples.eyedrop_extractor
           (request "Latanoprost" (QInt 1) "1 drop daily") "latanoprost" 1 no_data 1).
  - reflexivity.
  - unfold Qle. simpl. lia.
  - reflexivity.
  - reflexivity.
Defined.





End TableProperties.

(** ** Which names are accepted *)
Module AcceptanceProperties.
Import Py Extractor MatcherSpec Examples PyFacts MatcherFacts OrchestratorFacts.

Local Open Scope string_scope.
Local Open Scope Q_scope.

(** The result of the loop is at least as good as every candidate. *)
Lemma best_dominates (input : string) (keys : list string) (c : string * Q) :
  ~ In input keys ->
  In c (candidates input 0.6 keys) ->
  exists name score,
    match_loop keys input 0.6 (None, 0) = (Some name, score) /\
    In (name, score) (candidates input 0.6 keys) /\ snd c <= score.
Proof.
  intros Hnot Hin.
  destruct (scan_first_best input keys Hnot)
    as [[Hnil _] | (before & key & score & after & Hc & Hr & Hb & Ha)].
  - rewrite Hnil in Hin. destruct Hin.
  - exists key, score. split; [exact Hr|]. split.
    + rewrite Hc. apply in_or_app. right. now left.
    + rewrite Hc in Hin. apply in_app_or in Hin as [H|[<-|H]].
      * apply Qlt_le_weak. now apply Hb.
      * apply Qle_refl.
      * now apply Ha.
Qed.

(** X26.  The acceptance criterion.  A drug name is accepted (matched with
    confidence at least 0.8) exactly when its cleaned form is a key, or
    some key contains it or is contained in it with an overlap score of at
    least 0.8, or some key has a similarity ratio of at least 0.8.  Every
    other request gets the unsupported-medication result. *)
Theorem acceptance_criterion (self : Extractor) (rx : PrescriptionInput) :
  let keys := map fst (drug_database self) in
  let clean := strip (lower (drug_name rx)) in
  let accepted :=
    exists name c,
      _fuzzy_match_drug_name self (drug_name rx) 0.6 = (Some name, c) /\ 0.80 <= c in
  (accepted <->
   In clean keys \/
   exists key,
     In key keys /\
     ((contains clean key || contains key clean = true
       /\ 0.80 <= substring_score clean key)
      \/ 0.80 <= Difflib.ratio clean key)) /\
  (~ accepted ->
   extract_prescription_data self rx = Ok (_create_unsupported_medication_result rx)).
Proof.
  intros keys clean accepted. split.
  - subst accepted. unfold _fuzzy_match_drug_name. fold keys clean.
    destruct (in_dec string_dec clean keys) as [Hin|Hnot].
    + split; [now left|]. intros _. exists clean, 1.
      split; [now apply match_loop_exact | unfold Qle; simpl; lia].
    + split.
      * intros (name & c & Hm & Hc). right.
        destruct (scan_first_best clean keys Hnot)
          as [[_ Hr] | (before & key & score & after & Hcands & Hr & _ & _)];
          rewrite Hm in Hr; [discriminate|].
        injection Hr as -> ->.
        assert (Hin : In (key, score) (candidates clean 0.6 keys)).
        { rewrite Hcands. apply in_or_app. right. now left. }
        apply MatcherClaims.candidates_spec in Hin as (Hk & [[Hs ->] | [_ ->]]).
        -- exists key. split; [exact Hk|]. left. now split.
        -- exists key. split; [exact Hk|]. now right.
      * intros [Hin|(key & Hk & Hcase)]; [now elim Hnot|].
        assert (Hc : exists s, In (key, s) (candidates clean 0.6 keys) /\ 0.80 <= s).
        { destruct Hcase as [[Hs Hv]|Hv].
          - exists (substring_score clean key). split; [|exact Hv].
            apply MatcherClaims.candidates_spec. split; [exact Hk|]. left. now split.
          - exists (Difflib.ratio clean key). split; [|exact Hv].
            apply MatcherClaims.candidates_spec. split; [exact Hk|]. right.
            split; [|reflexivity].
            apply Qle_trans with 0.80; [unfold Qle; simpl; lia | exact Hv]. }
        destruct Hc as (s & Hin & Hs).
        destruct (best_dominates clean keys (key, s) Hnot Hin) as (name & score & Hm & _ & Hle).
        exists name, score. split; [exact Hm|].
        apply Qle_trans with s; [exact Hs | exact Hle].
  - intros Hrej. apply extract_unmatched.
    destruct (_fuzzy_match_drug_name self (drug_name rx) 0.6) as [m c] eqn:Em.
    destruct m as [name|]; [|now left].
    right. destruct (Qlt_le_dec c 0.80) as [H|H]; [exact H|].
    elim Hrej. subst accepted. now exists name, c.
Qed.

Lemma acceptance_criterion_witness :
  exists name c,
    _fuzzy_match_drug_name catalog "Humalo" 0.6 = (Some name, c) /\ 0.80 <= c.
Proof.
  apply (proj1 (acceptance_criterion catalog (request "Humalo" (QInt 1) "10 units daily"))).
  right. exists "humalog". split; [cbn; tauto|]. left. split; [reflexivity|].
  vm_compute. discriminate.
Defined.

End AcceptanceProperties.

(** ** Full confidence *)
Module ExactMatchProperties.
Import Py Extractor MatcherSpec Examples PyFacts DifflibFacts MatcherFacts.

Local Open Scope string_scope.

Lemma lcp_common (a b : list ascii) :
  firstn (Difflib.lcp a b) a = firstn (Difflib.lcp a b) b.
Proof.
  revert b. induction a as [|x a IH]; intros [|y b]; cbn [Difflib.lcp firstn]; try reflexivity.
  destruct (Ascii.eqb x y) eqn:E; [|reflexivity].
  apply Ascii.eqb_eq in E. subst y. cbn [firstn]. now rewrite IH.
Qed.

Lemma skipn_cons_inv {A : Type} (j : nat) (l rest : list A) (x : A) :
  skipn j l = x :: rest -> skipn (S j) l = rest.
Proof.
  revert l. induction j as [|j IH]; intros l H.
  - cbn in H. subst l. reflexivity.
  - destruct l as [|y l]; [discriminate|]. cbn [skipn] in H. exact (IH l H).
Qed.

Lemma scan_b_common (a b : list ascii) (i : nat) :
  forall (brem : list ascii) (j : nat) (best : Difflib.block),
    skipn j b = brem ->
    Blocks.common a b best ->
    Blocks.common a b (Difflib.scan_b (skipn i a) i brem j best).
Proof.
  induction brem as [|x b' IH]; intros j best Hj Hbest; cbn [Difflib.scan_b]; [exact Hbest|].
  apply IH; [exact (skipn_cons_inv j b b' x Hj)|].
  destruct (Difflib.size best <? Difflib.lcp (skipn i a) (x :: b'))%nat; [|exact Hbest].
  unfold Blocks.common. rewrite Hj. apply lcp_common.
Qed.

Lemma scan_a_common (a b : list ascii) :
  forall (arem : list ascii) (i : nat) (best : Difflib.block),
    skipn i a = arem ->
    Blocks.common a b best ->
    Blocks.common a b (Difflib.scan_a arem i b best).
Proof.
  induction arem as [|x a' IH]; intros i best Hi Hbest; cbn [Difflib.scan_a]; [exact Hbest|].
  apply IH; [exact (skipn_cons_inv i a a' x Hi)|].
  rewrite <- Hi. now apply scan_b_common.
Qed.

Lemma find_longest_match_common (a b : list ascii) :
  Blocks.common a b (Difflib.find_longest_match a b).
Proof. unfold Difflib.find_longest_match. now apply scan_a_common. Qed.

Lemma split_around {A : Type} (i k : nat) (l : list A) :
  l = (firstn i l ++ firstn k (skipn i l) ++ skipn (i + k) l)%list.
Proof.
  rewrite <- (firstn_skipn i l) at 1. f_equal.
  rewrite <- (firstn_skipn k (skipn i l)) at 1. f_equal.
  rewrite skipn_skipn. f_equal. lia.
Qed.

(** Sequences of one length that match in full are equal. *)
Lemma matches_full (fuel : nat) :
  forall a b : list ascii,
    Difflib.matches fuel a b = List.length a -> List.length a = List.length b -> a = b.
Proof.
  induction fuel as [|fuel IH]; intros a b Hm Hl; cbn [Difflib.matches] in Hm.
  - destruct a; [|discriminate]. destruct b; [reflexivity | discriminate].
  - pose proof (find_longest_match_fits a b) as Hfit.
    pose proof (find_longest_match_common a b) as Hcom.
    destruct (Difflib.find_longest_match a b) as [[i j] k].
    cbn [Difflib.fits] in Hfit. destruct Hfit as (Hi & Hj). unfold Blocks.common in Hcom.
    destruct (k =? 0)%nat.
    { destruct a; [|discriminate]. destruct b; [reflexivity | discriminate]. }
    destruct (matches_le fuel (firstn i a) (firstn j b)) as (H1a & H1b).
    destruct (matches_le fuel (skipn (i + k) a) (skipn (j + k) b)) as (H2a & H2b).
    rewrite length_firstn in H1a, H1b. rewrite length_skipn in H2a, H2b.
    assert (Eij : i = j) by lia. subst j.
    assert (E1 : firstn i a = firstn i b).
    { apply IH; rewrite !length_firstn; lia. }
    assert (E2 : skipn (i + k) a = skipn (i + k) b).
    { apply IH; rewrite !length_skipn; lia. }
    rewrite (split_around i k a), (split_around i k b). now rewrite E1, Hcom, E2.
Qed.

Lemma list_ascii_inj (a b : string) :
  list_ascii_of_string a = list_ascii_of_string b -> a = b.
Proof.
  intros H. rewrite <- (string_of_list_ascii_of_string a),
              <- (string_of_list_ascii_of_string b). now rewrite H.
Qed.

(** The similarity ratio is 1 for equal strings only. *)
Lemma ratio_one (a b : string) : (Difflib.ratio a b == 1)%Q -> a = b.
Proof.
  unfold Difflib.ratio. cbv zeta. intros H. apply list_ascii_inj.
  set (la := list_ascii_of_string a) in *. set (lb := list_ascii_of_string b) in *.
  destruct (matches_le (S (List.length la)) la lb) as (Ha & Hb).
  destruct (List.length la + List.length lb)%nat as [|n] eqn:E.
  - destruct la; [|discriminate]. destruct lb; [reflexivity | discriminate].
  - assert (Hz : (2 * Z.of_nat (Difflib.matches (S (List.length la)) la lb)
                  = Z.of_nat (S n))%Z).
    { revert H. unfold Qeq, Qdiv, Qinv, Qmult, inject_Z. cbn [Qnum Qden].
      rewrite <- E. destruct (Z.of_nat (List.length la + List.length lb)) eqn:Ez; try lia.
      cbn [Qnum Qden]. lia. }
    apply (matches_full (S (List.length la))); lia.
Qed.

(** X27.  Confidence 1 is the mark of an exact match: the matcher returns
    the confidence 1 exactly when the cleaned input is a key of the
    database.  A substring score is capped at 0.95, and the similarity
    ratio of two different strings is below 1. *)
Theorem full_confidence_means_exact (self : Extractor) (input_name : string) :
  (snd (_fuzzy_match_drug_name self input_name 0.6) == 1)%Q <->
  In (strip (lower input_name)) (map fst (drug_database self)).
Proof.
  unfold _fuzzy_match_drug_name.
  set (keys := map fst (drug_database self)). set (clean := strip (lower input_name)).
  split.
  - intros H. destruct (in_dec string_dec clean keys) as [Hin|Hnot]; [exact Hin|].
    exfalso.
    destruct (scan_first_best clean keys Hnot)
      as [[_ Hr] | (before & key & score & after & Hc & Hr & _ & _)];
      rewrite Hr in H; cbn [snd] in H.
    + revert H. unfold Qeq. simpl. lia.
    + assert (Hin : In (key, score) (candidates clean 0.6 keys)).
      { rewrite Hc. apply in_or_app. right. now left. }
      apply MatcherClaims.candidates_spec in Hin as (Hk & [[_ ->] | [_ ->]]).
      * destruct (substring_score_bounds clean key) as (_ & Hle).
        rewrite H in Hle. revert Hle. unfold Qle. simpl. lia.
      * apply ratio_one in H. subst key. exact (Hnot Hk).
  - intros Hin. rewrite (match_loop_exact clean 0.6 keys Hin). reflexivity.
Qed.

End ExactMatchProperties.

(** ** Monotonicity of the injectable calculators *)
Module InjectableMonotonicity.
Import Py Extractor Examples PyFacts CalculatorFacts FrequencyFacts CalculatorSupport.

Local Open Scope string_scope.
Local Open Scope Q_scope.

Lemma int_scale_mono (a b c : Q) : 0 <= c -> a <= b -> (int (a * c) <= int (b * c))%Z.
Proof. intros Hc H. apply int_mono. now apply Qmult_le_compat_r. Qed.

Lemma guarded_division_mono (a b f : Q) (z1 z2 : Z) :
  a <= b ->
  (if Qltb 0 f then int_div a f else Ok 30%Z) = Ok z1 ->
  (if Qltb 0 f then int_div b f else Ok 30%Z) = Ok z2 ->
  (z1 <= z2)%Z.
Proof.
  intros H. destruct (Qltb 0 f) eqn:E.
  - apply Qltb_lt in E. rewrite !int_div_pos by exact E.
    intros [= <-] [= <-]. now apply int_mono, div_mono.
  - intros [= <-] [= <-]. lia.
Qed.

(** X28.  The day supply of the injectable calculators is monotone in the
    quantity: for the same product and directions, a larger quantity never
    gets a shorter supply from [_process_injectable], nor from
    [_process_diabetic_injectable] when the package count is not
    negative. *)
Theorem injectables_monotone_in_quantity (d : DrugData) (sig : string) (q1 q2 : Q) :
  q1 <= q2 ->
  (forall is_biologic cq1 ds1 t1 cq2 ds2 t2,
      _process_injectable d q1 sig is_biologic = Ok (cq1, ds1, t1) ->
      _process_injectable d q2 sig is_biologic = Ok (cq2, ds2, t2) ->
      ds1 <= ds2) /\
  (forall m cq1 ds1 t1 cq2 ds2 t2,
      (0 <= get (Package_Count d) 1)%Z ->
      _process_diabetic_injectable d q1 sig m = Ok (cq1, ds1, t1) ->
      _process_diabetic_injectable d q2 sig m = Ok (cq2, ds2, t2) ->
      ds1 <= ds2).
Proof.
  intros Hq.
  assert (H7 : (0 <= 7)%Q) by (unfold Qle; simpl; lia).
  assert (H14 : (0 <= 14)%Q) by (unfold Qle; simpl; lia).
  assert (H30 : (0 <= 30)%Q) by (unfold Qle; simpl; lia).
  split.
  - intros is_biologic cq1 ds1 t1 cq2 ds2 t2.
    unfold _process_injectable. cbv zeta.
    set (f := _calculate_frequency_per_day sig).
    destruct (_frequency_to_text f) as [t|];
      [|match goal with |- bind ?c _ = _ -> _ => destruct c end; discriminate].
    assert (Hcalc : forall c1 c2 : res Z,
               (forall z1 z2, c1 = Ok z1 -> c2 = Ok z2 -> (z1 <= z2)%Z) ->
               bind c1 (fun calculated_days =>
                          bind (Ok t) (fun freq_text =>
                            Ok (q1, Z2Q (clampZ calculated_days),
                                ([Lit "Inject as directed "] ++ freq_text)%list)))
               = Ok (cq1, ds1, t1) ->
               bind c2 (fun calculated_days =>
                          bind (Ok t) (fun freq_text =>
                            Ok (q2, Z2Q (clampZ calculated_days),
                                ([Lit "Inject as directed "] ++ freq_text)%list)))
               = Ok (cq2, ds2, t2) ->
               ds1 <= ds2).
    { intros [z1|] [z2|] Hz; cbn [bind]; try discriminate.
      intros [= _ <- _] [= _ <- _]. apply Z2Q_le, clampZ_mono, Hz; reflexivity. }
    apply Hcalc. intros z1 z2.
    repeat match goal with
           | |- context [if ?c then _ else _] =>
               lazymatch c with
               | Qltb 0 f => fail
               | _ => destruct c
               end
           end;
      try (intros [= <-] [= <-]; now apply int_scale_mono);
      now apply guarded_division_mono.
  - intros m cq1 ds1 t1 cq2 ds2 t2 Hpc.
    unfold _process_diabetic_injectable. cbv zeta.
    set (f := _calculate_frequency_per_day sig).
    set (pc := Z2Q (get (Package_Count d) 1%Z)).
    assert (Hpc' : 0 <= pc) by (subst pc; unfold Z2Q; now rewrite <- (Zle_Qle 0)).
    assert (Hqpc : q1 * pc <= q2 * pc) by now apply Qmult_le_compat_r.
    destruct (_frequency_to_text f) as [t|];
      [|match goal with |- bind ?c _ = _ -> _ => destruct c end; discriminate].
    assert (Hcalc : forall c1 c2 : res Z,
               (forall z1 z2, c1 = Ok z1 -> c2 = Ok z2 -> (z1 <= z2)%Z) ->
               bind c1 (fun calculated_days =>
                          bind (Ok t) (fun freq_text =>
                            Ok (q1, Z2Q (clampZ calculated_days),
                                ([Lit "Inject as directed "] ++ freq_text)%list)))
               = Ok (cq1, ds1, t1) ->
               bind c2 (fun calculated_days =>
                          bind (Ok t) (fun freq_text =>
                            Ok (q2, Z2Q (clampZ calculated_days),
                                ([Lit "Inject as directed "] ++ freq_text)%list)))
               = Ok (cq2, ds2, t2) ->
               ds1 <= ds2).
    { intros [z1|] [z2|] Hz; cbn [bind]; try discriminate.
      intros [= _ <- _] [= _ <- _]. apply Z2Q_le, clampZ_mono, Hz; reflexivity. }
    apply Hcalc. intros z1 z2.
    pose proof (int_scale_mono _ _ 7 H7 Hqpc) as M7.
    pose proof (int_scale_mono _ _ 14 H14 Hqpc) as M14.
    destruct (any_in _ _); [|destruct (any_in _ _); [|destruct (any_in _ _);
      [|destruct (any_in _ _)]]];
      destruct (0 <? get (Expiration_After_Opening_Days d) 0)%Z;
      try (intros [= <-] [= <-]; lia);
      try (intros [= <-] [= <-];
           repeat match goal with
                  | |- context [(?a <? ?b)%Z] => destruct (a <? b)%Z eqn:?
                  end; lia).
    + destruct (contains "weekly" (lower sig) || Qle_bool f (1 / 7));
        intros [= <-] [= <-]; lia.
    + destruct (contains "weekly" (lower sig) || Qle_bool f (1 / 7)).
      * intros [= <-] [= <-]. lia.
      * now apply guarded_division_mono.
Qed.

Lemma injectables_monotone_in_quantity_witness :
  exists t,
    _process_injectable no_data 1 "inject once monthly" false = Ok (1, 30, t) /\
    _process_injectable no_data 2 "inject once monthly" false = Ok (2, 60, t) /\
    (30 : Q) <= 60.
Proof.
  eexists. split; [vm_compute; reflexivity|]. split; [vm_compute; reflexivity|].
  assert (H : (1 : Q) <= 2) by (unfold Qle; simpl; lia).
  apply (proj1 (injectables_monotone_in_quantity no_data "inject once monthly" 1 2 H)
           false 1 30 [Lit "Inject as directed "; Lit "once monthly"]
           2 60 [Lit "Inject as directed "; Lit "once monthly"]).
  - vm_compute. reflexivity.
  - vm_compute. reflexivity.
Defined.

End InjectableMonotonicity.

(** ** The primitives on concrete inputs *)
Module Sanity.
Import Py Extractor Examples.

Local Open Scope string_scope.
Local Open Scope Q_scope.

Example ratio_abcd_bcde : Difflib.ratio "abcd" "bcde" == 0.75.
Proof. vm_compute. reflexivity. Qed.

Example ratio_tide_diet : Difflib.ratio "tide" "diet" == 0.25.
Proof. vm_compute. reflexivity. Qed.

Example ratio_diet_tide : Difflib.ratio "diet" "tide" == 0.5.
Proof. vm_compute. reflexivity. Qed.

Example ratio_empty : Difflib.ratio "" "" == 1.
Proof. vm_compute. reflexivity. Qed.

Example lower_strip_name : strip (lower "  HumaLOG  R ") = "humalog  r".
Proof. reflexivity. Qed.

Example in_empty_needle : contains "" "abc" = true /\ contains "bc" "abc" = true
                          /\ contains "ac" "abc" = false.
Proof. repeat split. Qed.

Example float_plain : float_of_str " 12.50 " = Ok 12.50.
Proof. vm_compute. reflexivity. Qed.

Example float_exponent : float_of_str "1_0e-1" = Ok 1.0.
Proof. vm_compute. reflexivity. Qed.

Example float_two_dots : float_of_str "1.2.3" = Raise ValueError.
Proof. vm_compute. reflexivity. Qed.

Example float_units : float_of_str "30ml" = Raise ValueError.
Proof. vm_compute. reflexivity. Qed.

Example isdigit_two_dots : isdigit (remove_dots "1.2.3") = true.
Proof. reflexivity. Qed.

Example isdigit_only_dot : isdigit (remove_dots ".") = false.
Proof. reflexivity. Qed.

Example int_truncates : int 2.9 = 2%Z /\ int (-2.9) = (-2)%Z.
Proof. split; reflexivity. Qed.

Example str_of_int_12 : str_of_int 12 = "12" /\ str_of_int (-3) = "-3".
Proof. split; reflexivity. Qed.

Example extract_numbers :
  _extract_numbers_from_sig "Take 2 puffs, 15 Units 3x daily 1.5 mg 2 tabs 3u"
  = [("sprays", [2]); ("units", [15; 3]); ("mg", [1.5]); ("tablets", [2]);
     ("times_daily", [3])].
Proof. vm_compute. reflexivity. Qed.

Example units_need_a_boundary : _extract_numbers_from_sig "5 ug" = [].
Proof. vm_compute. reflexivity. Qed.

Example frequency_examples :
  _calculate_frequency_per_day "1 tab every 12 hours" = 2 /\
  _calculate_frequency_per_day "inject every 2 weeks" = 1 / 14 /\
  _calculate_frequency_per_day "inject biweekly" = 1 / 7 /\
  _calculate_frequency_per_day "use 5 times per day" = 5 /\
  _calculate_frequency_per_day "use as directed" = 1.
Proof. repeat split; vm_compute; reflexivity. Qed.

Example substring_candidate :
  _fuzzy_match_drug_name catalog "Humalo" 0.6 = (Some "humalog", 0.95).
Proof. vm_compute. reflexivity. Qed.

Example biologic_biweekly_is_weekly :
  exists t, _process_injectable no_data 2 "inject biweekly" true = Ok (2, 14, t).
Proof. eexists. vm_compute. reflexivity. Qed.

Example zero_dose_degrades :
  exists e,
    extract_prescription_data catalog (request "Humalog" (QInt 5) "0 units daily") = Ok e /\
    calculated_day_supply e = 30 /\
    standardized_sig e = [Lit "0 units daily"].
Proof. eexists. split; [vm_compute; reflexivity|]. split; reflexivity. Qed.

End Sanity.
